(** * The BigQuery notebook commands of datalab: a shallow embedding

    The development follows [sources/lib/datalab/gcp/datalab/_bigquery.py].
    Python values are an inductive type, exceptions are a sum type, the
    notebook namespace is a finite map and the collaborators that live in
    other modules ([gcp.bigquery], [gcp.data], [gcp._util], [json], [yaml])
    are the fields of one interface class. *)

From Stdlib Require Import ZArith Ascii String List Bool Lia Sorted.
From stdpp Require Import base option list gmap strings fin_maps sorting.

Local Open Scope string_scope.
Local Open Scope Z_scope.

(** ** Python values and exceptions *)

Module Py.

(** The classes of the opaque objects the commands test with [isinstance]. *)
Inductive pyclass :=
  | ClsQuery | ClsTable | ClsSchema | ClsFunctionCall | ClsUDF
  | ClsSqlModule | ClsOther.

#[global] Instance pyclass_eq_dec : EqDecision pyclass.
Proof. solve_decision. Defined.

(** A value: the scalars of JSON and YAML, the three containers that
    [replace_vars] distinguishes, and opaque instances identified by their
    class and an object identity. *)
#[warnings="-register-all"]
Inductive pyval :=
  | PyNone
  | PyBool (b : bool)
  | PyInt (z : Z)
  | PyStr (s : string)
  | PyList (xs : list pyval)
  | PyTuple (xs : list pyval)
  | PyDict (kvs : list (string * pyval))
  | PyObj (cls : pyclass) (oid : nat)
  | PyUDF (inputs outputs : list (string * string)) (name js : string)
  | PyHTML (html : string).

Inductive exn :=
  | AttributeError (attr : string)
  | TypeError (msg : string)
  | KeyError (key : string)
  | Exception (msg : string)
  | ExternalError (msg : string).

(** A computation either returns or raises. *)
Inductive result (A : Type) :=
  | Ok (a : A)
  | Raise (e : exn).
Arguments Ok {A} a.
Arguments Raise {A} e.

#[global] Instance result_ret : MRet result := fun A a => Ok a.
#[global] Instance result_bind : MBind result := fun A B k m =>
  match m with
  | Ok a => k a
  | Raise e => Raise e
  end.

(** The body of a [for] loop that rebuilds a list element by element. *)
Definition for_each {A B} (f : A -> result B) : list A -> result (list B) :=
  fix go (l : list A) : result (list B) :=
    match l with
    | [] => Ok []
    | x :: rest => y ← f x; ys ← go rest; Ok (y :: ys)
    end.

Definition is_ok {A} (m : result A) : bool :=
  match m with Ok _ => true | Raise _ => false end.

(** Truth value of a Python object in a condition. *)
Definition truthy (v : pyval) : bool :=
  match v with
  | PyNone => false
  | PyBool b => b
  | PyInt z => negb (z =? 0)
  | PyStr s => negb (String.eqb s "")
  | PyList xs | PyTuple xs => negb (Nat.eqb (List.length xs) 0)
  | PyDict kvs => negb (Nat.eqb (List.length kvs) 0)
  | PyObj _ _ | PyUDF _ _ _ _ | PyHTML _ => true
  end.

Definition isinstance (v : pyval) (c : pyclass) : bool :=
  match v with
  | PyObj c' _ => bool_decide (c' = c)
  | PyUDF _ _ _ _ => bool_decide (ClsUDF = c)
  | _ => false
  end.

(** [isinstance(v, dict) or isinstance(v, list) or isinstance(v, tuple)] *)
Definition is_container (v : pyval) : bool :=
  match v with
  | PyList _ | PyTuple _ | PyDict _ => true
  | _ => false
  end.

(** *** Strings *)

(** [s.startswith(p)] *)
Fixpoint startswith (s p : string) : bool :=
  match p, s with
  | EmptyString, _ => true
  | String c p', String d s' => Ascii.eqb c d && startswith s' p'
  | String _ _, EmptyString => false
  end.

(** [s[1:]] *)
Definition slice_from_1 (s : string) : string :=
  match s with
  | EmptyString => EmptyString
  | String _ rest => rest
  end.

(** Strings are texts of characters with code points below 256. The
    characters that [strip()] removes from such a text, the cell that
    IPython hands over as [unicode]: tab to carriage return, the four
    separators U+001C to U+001F, the space, U+0085 and U+00A0. *)
Definition is_space (c : ascii) : bool :=
  let n := nat_of_ascii c in
  (Nat.eqb n 32 || (Nat.leb 9 n && Nat.leb n 13)
   || (Nat.leb 28 n && Nat.leb n 31) || Nat.eqb n 133 || Nat.eqb n 160)%bool.

Fixpoint lstrip (s : string) : string :=
  match s with
  | EmptyString => EmptyString
  | String c rest => if is_space c then lstrip rest else s
  end.

(** Strips the right end: a character is kept when it is not white space or
    when something is kept after it. *)
Fixpoint rstrip (s : string) : string :=
  match s with
  | EmptyString => EmptyString
  | String c rest =>
      match rstrip rest with
      | EmptyString => if is_space c then EmptyString else String c EmptyString
      | kept => String c kept
      end
  end.

Definition strip (s : string) : string := rstrip (lstrip s).

(** The methods of a Python 2 string, [str] or [unicode]; looking up any
    other name on a string raises [AttributeError]. *)
Definition str_attributes : list string :=
  [ "capitalize"; "center"; "count"; "decode"; "encode"; "endswith";
    "expandtabs"; "find"; "format"; "index"; "isalnum"; "isalpha";
    "isdigit"; "islower"; "isspace"; "istitle"; "isupper"; "join"; "ljust";
    "lower"; "lstrip"; "partition"; "replace"; "rfind"; "rindex"; "rjust";
    "rpartition"; "rsplit"; "rstrip"; "split"; "splitlines"; "startswith";
    "strip"; "swapcase"; "title"; "translate"; "upper"; "zfill" ].

(** [recv.attr(arg)]: the attribute is looked up on the string first; of
    the methods, the module calls [startswith] only this way. *)
Definition str_call_pred (recv attr arg : string) : result bool :=
  if bool_decide (attr ∈ str_attributes) then
    if String.eqb attr "startswith" then Ok (startswith recv arg)
    else Raise (ExternalError ("str." ++ attr))
  else Raise (AttributeError attr).

(** [d[key]] on a dictionary with string keys. *)
Definition getitem (d : gmap string pyval) (key : string) : result pyval :=
  match d !! key with
  | Some v => Ok v
  | None => Raise (KeyError key)
  end.

(** [d[key]] on a parsed JSON or YAML object. *)
Fixpoint lookup_item (kvs : list (string * pyval)) (key : string)
    : result pyval :=
  match kvs with
  | [] => Raise (KeyError key)
  | (k, v) :: rest => if String.eqb k key then Ok v else lookup_item rest key
  end.

Definition subscript (v : pyval) (key : string) : result pyval :=
  match v with
  | PyDict kvs => lookup_item kvs key
  | _ => Raise (TypeError "object is not subscriptable by a string")
  end.

(** [len(v)] *)
Definition len (v : pyval) : result Z :=
  match v with
  | PyStr s => Ok (Z.of_nat (String.length s))
  | PyList xs | PyTuple xs => Ok (Z.of_nat (List.length xs))
  | PyDict kvs => Ok (Z.of_nat (List.length kvs))
  | _ => Raise (TypeError "object has no len()")
  end.

(** [a == 'literal'] *)
Definition eq_str (v : pyval) (lit : string) : bool :=
  match v with
  | PyStr s => String.eqb s lit
  | _ => false
  end.

End Py.
Export Py.

(** ** The collaborators outside this module

    Everything the commands call in [json], [yaml], [gcp._util],
    [gcp.data] and [gcp.bigquery] is a field of this interface; the
    commands are defined for any implementation of it. *)

(** [gcp.bigquery.Sampling]: the four strategies of the sample command. *)
Inductive Sampling :=
  | SamplingRandom (percent count : pyval)
  | SamplingHashed (field_name percent count : pyval)
  | SamplingSorted (field_name : pyval) (ascending : bool) (count : pyval)
  | SamplingDefault (count : pyval).

(** The dictionary that [get_sql_statement_with_environment] returns: the
    very dictionary it was given, or another one. *)
Inductive returned_env :=
  | SameDict
  | OtherDict (d : gmap string pyval).

(** What the commands read of a finished warehouse job. *)
Record Job := {
  job_failed : bool;
  job_fatal_error : pyval;
  job_errors : pyval
}.

Class Collaborators := {
  (** [json.loads] and [yaml.load] *)
  json_loads : string -> result pyval;
  yaml_load : string -> result pyval;
  (** [gcp._util.get_item(env, name)] *)
  get_item : gmap string pyval -> pyval -> pyval;
  (** [gcp.data.SqlModule.get_sql_statement_with_environment(item, env)] *)
  get_sql_statement_with_environment :
    pyval -> gmap string pyval -> result (pyval * returned_env);
  (** [env.update(config)] for a [config] that is not a dictionary: what
      [env] holds afterwards and the exception, if one was raised *)
  update_from_non_dict :
    gmap string pyval -> pyval -> gmap string pyval * option exn;
  (** [gcp.bigquery.Query(item, **env)] *)
  Query_new : pyval -> gmap string pyval -> result pyval;
  (** [query.sample(sampling=...)] *)
  query_sample : pyval -> Sampling -> result pyval;
  (** [query.sql] *)
  query_sql : pyval -> result string;
  (** [query.execute_dry_run()] wrapped in [QueryStats] *)
  query_dry_run_stats : pyval -> result pyval;
  (** [query.execute(target, table_mode, use_cache, allow_large_results).results] *)
  query_execute_results : pyval -> pyval -> pyval -> bool -> pyval -> result pyval;
  (** [gcp.bigquery.Table(name)] and [table.exists()] *)
  Table_new : pyval -> result pyval;
  table_exists : pyval -> result bool;
  (** [table.create(json.loads(schema))] *)
  table_create : pyval -> pyval -> result unit;
  (** [source.extract(destination, format, compress, csv_delimiter, csv_header)] *)
  source_extract : pyval -> pyval -> string -> pyval -> pyval -> pyval -> result Job;
  (** [table.load(source, mode, source_format, csv_delimiter,
      csv_skip_header_rows, allow_jagged_rows, ignore_unknown_values, quote)] *)
  table_load :
    pyval -> pyval -> pyval -> string -> pyval -> pyval -> bool -> bool ->
    pyval -> result Job;
  (** [item.schema] when the attribute exists and is a [Schema] *)
  schema_attr : pyval -> option pyval;
  (** [gcp.bigquery.DataSets(project)], [DataSet((project, dataset))] and
      the tables of a data set *)
  DataSets : pyval -> result (list pyval);
  DataSet_new : pyval -> pyval -> result pyval;
  dataset_tables : pyval -> result (list pyval);
  (** [_utils.get_field_list(fields, table.schema)] *)
  get_field_list : pyval -> pyval -> result pyval;
  (** [_utils.get_data(table, fields, 0, rows_per_page)] *)
  get_data : pyval -> pyval -> Z -> Z -> result (pyval * Z);
  (** the [%] formatting of the three HTML templates *)
  format_table_viewer :
    pyval -> string -> pyval -> Z -> Z -> pyval -> result string;
  format_schema : pyval -> result string;
  render_table : list pyval -> result string;
  (** [str(x)], as used by the [%s] conversions *)
  str_of : pyval -> string;
  (** [parser.prog] and the text of [parser.print_help()], by command *)
  parser_prog : string -> string;
  parser_help : string -> string
}.

(** ** Configuration bodies: [_parse_config] *)

Module Config.
Section WithCollaborators.
Context `{Collaborators}.

(** The nested function [expand_var]. The inner test is written
    [v.startwith('$')] in the source. *)
Definition expand_var (v : string) (env : gmap string pyval) : result pyval :=
  if startswith v "$" then
    let v := slice_from_1 v in
    escaped ← str_call_pred v "startwith" "$";
    if negb escaped then
      match env !! v with
      | Some bound => Ok bound
      | None => Raise (Exception ("Cannot expand variable $" ++ v))
      end
    else Ok (PyStr v)
  else Ok (PyStr v).

(** One iteration of either loop of [replace_vars]: [slot] is the value
    found at an index or key, [assignable] tells whether the container
    supports item assignment (a tuple does not), [recur] is the recursive
    call. The result is the value found in that slot afterwards. *)
Definition replace_slot (recur : pyval -> result pyval)
    (env : gmap string pyval) (assignable : bool) (slot : pyval)
    : result pyval :=
  if is_container slot then recur slot
  else
    match slot with
    | PyStr s =>
        expanded ← expand_var s env;
        if assignable then Ok expanded
        else Raise (TypeError "'tuple' object does not support item assignment")
    | _ => Ok slot
    end.

(** The nested function [replace_vars]; the in-place update is returned as
    the updated tree. *)
Fixpoint replace_vars (env : gmap string pyval) (config : pyval)
    {struct config} : result pyval :=
  match config with
  | PyDict kvs =>
      kvs' ← for_each (fun '(k, v) =>
                         v' ← replace_slot (replace_vars env) env true v;
                         Ok (k, v')) kvs;
      Ok (PyDict kvs')
  | PyList xs =>
      xs' ← for_each (replace_slot (replace_vars env) env true) xs;
      Ok (PyList xs')
  | PyTuple xs =>
      xs' ← for_each (replace_slot (replace_vars env) env false) xs;
      Ok (PyTuple xs')
  | _ => Ok config
  end.

(** [_parse_config(config, env)]; [config] is [None] or the cell text. *)
Definition _parse_config (config : option string) (env : gmap string pyval)
    : result pyval :=
  match config with
  | None => Ok PyNone
  | Some text =>
      let stripped := strip text in
      parsed ←
        match stripped with
        | EmptyString => Ok (PyDict [])
        | String c _ =>
            if Ascii.eqb c "{"%char then json_loads text else yaml_load text
        end;
      replace_vars env parsed
  end.

End WithCollaborators.
End Config.

(** ** The table cache: [gcp._util.LRUCache] *)

Module Cache.

(** Modelled from the spec: the class [gcp._util.LRUCache] is not part of
    this module. A cache has a fixed capacity and its entries, each a name
    with an opaque handle, kept in recency order with the most recently
    touched name first. *)
Record LRUCache := {
  capacity : nat;
  entries : list (string * pyval)
}.

(** Modelled from the spec: [LRUCache(n)], an empty cache of capacity [n]. *)
Definition LRUCache_new (n : nat) : LRUCache :=
  {| capacity := n; entries := [] |}.

Definition names (c : LRUCache) : list string := (entries c).*1.

Fixpoint assoc (name : string) (l : list (string * pyval)) : option pyval :=
  match l with
  | [] => None
  | (k, v) :: rest => if String.eqb k name then Some v else assoc name rest
  end.

Fixpoint remove_name (name : string) (l : list (string * pyval))
    : list (string * pyval) :=
  match l with
  | [] => []
  | (k, v) :: rest =>
      if String.eqb k name then remove_name name rest
      else (k, v) :: remove_name name rest
  end.

(** Modelled from the spec: [get(name)] answers the handle or a miss, and a
    hit makes [name] the most recently touched entry. *)
Definition get (name : string) (c : LRUCache) : option pyval * LRUCache :=
  match assoc name (entries c) with
  | Some handle =>
      (Some handle,
       {| capacity := capacity c;
          entries := (name, handle) :: remove_name name (entries c) |})
  | None => (None, c)
  end.

(** Modelled from the spec: [put(name, handle)] inserts or refreshes the
    entry as the most recently touched one; when the number of names then
    exceeds the capacity the least recently touched entry, the last of the
    list, is evicted. *)
Definition put (name : string) (handle : pyval) (c : LRUCache) : LRUCache :=
  let updated := (name, handle) :: remove_name name (entries c) in
  {| capacity := capacity c;
     entries :=
       if Nat.ltb (capacity c) (List.length updated) then removelast updated
       else updated |}.

(** The least recently touched name, if any. *)
Definition least_recent (c : LRUCache) : option string :=
  last (names c).

Inductive op :=
  | Get (name : string)
  | Put (name : string) (handle : pyval).

Definition step (c : LRUCache) (o : op) : LRUCache :=
  match o with
  | Get name => (get name c).2
  | Put name handle => put name handle c
  end.

Definition run (ops : list op) (c : LRUCache) : LRUCache :=
  foldl step c ops.

(** The puts of a list of names with their handles, in order. *)
Definition puts (kvs : list (string * pyval)) : list op :=
  (fun kv => Put kv.1 kv.2) <$> kvs.

(** [_table_cache = gcp._util.LRUCache(10)] *)
Definition _table_cache : LRUCache := LRUCache_new 10.

End Cache.

(** ** The notebook: namespace, table cache and printed output *)

Record Notebook := {
  user_ns : gmap string pyval;
  table_cache : Cache.LRUCache;
  stdout : list string
}.

(** A command runs against the notebook; what it changed before raising
    stays changed. *)
Definition Cmd (A : Type) : Type := Notebook -> result A * Notebook.

#[global] Instance Cmd_ret : MRet Cmd := fun A a nb => (Ok a, nb).
#[global] Instance Cmd_bind : MBind Cmd := fun A B k m nb =>
  match m nb with
  | (Ok a, nb') => k a nb'
  | (Raise e, nb') => (Raise e, nb')
  end.

Definition lift {A} (r : result A) : Cmd A := fun nb => (r, nb).
Definition raise {A} (e : exn) : Cmd A := lift (Raise e).

Definition print (line : string) : Cmd unit := fun nb =>
  (Ok tt, {| user_ns := user_ns nb; table_cache := table_cache nb;
             stdout := stdout nb ++ [line] |}).

(** [_notebook_environment()] *)
Definition _notebook_environment : Cmd (gmap string pyval) := fun nb =>
  (Ok (user_ns nb), nb).

(** [_notebook_environment()[name] = value] *)
Definition bind_name (name : string) (value : pyval) : Cmd unit := fun nb =>
  (Ok tt, {| user_ns := <[name := value]> (user_ns nb);
             table_cache := table_cache nb; stdout := stdout nb |}).

(** A dictionary that a command passes on as [env]: the namespace of the
    notebook itself, which [_notebook_environment()] returns, or a
    dictionary of the command's own. *)
Inductive environment :=
  | Live
  | Local (d : gmap string pyval).

(** What the dictionary holds now. *)
Definition contents (env : environment) : Cmd (gmap string pyval) :=
  match env with
  | Live => _notebook_environment
  | Local d => mret d
  end.

(** An update in place that leaves the dictionary with [updated]: of the
    namespace when the dictionary is the namespace, and otherwise of a
    dictionary that nobody reads again. *)
Definition store (env : environment) (updated : gmap string pyval)
    : Cmd unit :=
  match env with
  | Live => fun nb =>
      (Ok tt, {| user_ns := updated; table_cache := table_cache nb;
                 stdout := stdout nb |})
  | Local _ => mret tt
  end.

(** [_table_cache[name]], which raises [KeyError] on a miss. *)
Definition cache_getitem (name : string) : Cmd pyval := fun nb =>
  match Cache.get name (table_cache nb) with
  | (Some handle, c) =>
      (Ok handle, {| user_ns := user_ns nb; table_cache := c;
                     stdout := stdout nb |})
  | (None, c) =>
      (Raise (KeyError name), {| user_ns := user_ns nb; table_cache := c;
                                 stdout := stdout nb |})
  end.

(** [_table_cache[name] = table] *)
Definition cache_setitem (name : string) (table : pyval) : Cmd unit := fun nb =>
  (Ok tt, {| user_ns := user_ns nb;
             table_cache := Cache.put name table (table_cache nb);
             stdout := stdout nb |}).

(** [try: body except KeyError: handler] *)
Definition try_except_KeyError {A} (body : Cmd A) (handler : Cmd A) : Cmd A :=
  fun nb =>
    match body nb with
    | (Raise (KeyError _), nb') => handler nb'
    | other => other
    end.

(** ** The two patterns of the UDF declaration *)

Module Udf.

(** [re.findall(pattern, text)] for a pattern that never matches the empty
    string: [match_at] answers, for a match starting at the head of its
    argument, what [findall] reports for it and how many characters it
    spans. The scan tries every position from left to right and resumes
    behind each match; [skip] counts the characters of the current match
    that are still to be passed. *)
Fixpoint findall_from (match_at : string -> option (string * nat))
    (skip : nat) (text : string) : list string :=
  match text with
  | EmptyString => []
  | String _ rest =>
      match skip with
      | S k => findall_from match_at k rest
      | O =>
          match match_at text with
          | Some (reported, span) =>
              reported :: findall_from match_at (Nat.pred span) rest
          | None => findall_from match_at 0 rest
          end
      end
  end.

Definition findall (match_at : string -> option (string * nat))
    (text : string) : list string :=
  findall_from match_at 0 text.

(** The longest prefix whose characters all satisfy [p], and the rest. *)
Fixpoint span (p : ascii -> bool) (s : string) : string * string :=
  match s with
  | EmptyString => (EmptyString, EmptyString)
  | String c rest =>
      if p c then let '(run, tail) := span p rest in (String c run, tail)
      else (EmptyString, s)
  end.

Definition not_close_brace (c : ascii) : bool :=
  negb (Ascii.eqb c "}"%char).

(** [spec_pattern = r'\{\{([^}]+)\}\}']: two opening braces, the longest
    non-empty run without a closing brace (the group), two closing braces.
    A shorter run would be followed by a character that is not a closing
    brace, so backtracking finds no other match. *)
Definition spec_pattern (s : string) : option (string * nat) :=
  match s with
  | String "{"%char (String "{"%char body) =>
      let '(group, tail) := span not_close_brace body in
      if (negb (String.eqb group "") && startswith tail "}}")%bool
      then Some (group, (String.length group + 4)%nat)
      else None
  | _ => None
  end.

Definition is_letter (c : ascii) : bool :=
  let n := nat_of_ascii c in
  ((Nat.leb 97 n && Nat.leb n 122) || (Nat.leb 65 n && Nat.leb n 90))%bool.

Definition is_digit (c : ascii) : bool :=
  let n := nat_of_ascii c in (Nat.leb 48 n && Nat.leb n 57)%bool.

(** [[a-z_]] and [[a-z0-9_]] under [re.IGNORECASE] *)
Definition part_first (c : ascii) : bool :=
  (is_letter c || Ascii.eqb c "_"%char)%bool.
Definition part_next (c : ascii) : bool :=
  (part_first c || is_digit c)%bool.

(** [spec_part_pattern = r'[a-z_][a-z0-9_]*'] with [flags=re.IGNORECASE] *)
Definition spec_part_pattern (s : string) : option (string * nat) :=
  match s with
  | String c rest =>
      if part_first c then
        let token := String c (span part_next rest).1 in
        Some (token, String.length token)
      else None
  | EmptyString => None
  end.

(** [l[0::2]] and [l[1::2]] *)
Fixpoint slice_0_2 {A} (l : list A) : list A :=
  match l with
  | [] => []
  | x :: rest =>
      x :: match rest with
           | [] => []
           | _ :: rest' => slice_0_2 rest'
           end
  end.

Definition slice_1_2 {A} (l : list A) : list A := slice_0_2 (List.tl l).

Definition newline : string := String (ascii_of_nat 10) EmptyString.

Definition missing_spec_message : string :=
  "The JavaScript must declare the input row and output emitter parameters "
  ++ "using valid jsdoc format comments." ++ newline
  ++ "The input row param declaration must be typed as {{field:type, field2:type}} "
  ++ "and the output emitter param declaration must be typed as "
  ++ "function({{field:type, field2:type}}.".

Definition invalid_input_message : string :=
  "Invalid input row param declaration. The jsdoc type expression must "
  ++ "define an object with field and type pairs.".

Definition invalid_output_message : string :=
  "Invalid output emitter param declaration. The jsdoc type expression must "
  ++ "define a function accepting an an object with field and type pairs.".

Definition declaration_message : string :=
  "Declaration must be of the form %%bigquery udf --module <variable name>".

(** The part of [_udf_cell] that parses the input and output specification
    out of [js] and builds the UDF object, from [spec_pattern = ...] to
    [udf = gcp.bigquery.UDF(inputs, outputs, variable_name, js)]. *)
Definition parse_udf (js variable_name : string) : result pyval :=
  let specs := findall spec_pattern js in
  if Nat.ltb (List.length specs) 2 then Raise (Exception missing_spec_message)
  else
    let input_spec_parts := findall spec_part_pattern (nth 0 specs "") in
    if negb (Nat.eqb (List.length input_spec_parts mod 2) 0)
    then Raise (Exception invalid_input_message)
    else
      let inputs :=
        combine (slice_0_2 input_spec_parts) (slice_1_2 input_spec_parts) in
      let output_spec_parts := findall spec_part_pattern (nth 1 specs "") in
      if negb (Nat.eqb (List.length output_spec_parts mod 2) 0)
      then Raise (Exception invalid_output_message)
      else
        let outputs :=
          combine (slice_0_2 output_spec_parts) (slice_1_2 output_spec_parts) in
        Ok (PyUDF inputs outputs variable_name js).

(** [_udf_cell(args, js)]. The [--module] option is a string whenever the
    flag schema produced [args]; the namespace has no other keys. *)
Definition _udf_cell (args : gmap string pyval) (js : option string)
    : Cmd pyval :=
  variable_name ← lift (getitem args "module");
  if negb (truthy variable_name) then raise (Exception declaration_message)
  else
    match variable_name, js with
    | PyStr name, Some text =>
        udf ← lift (parse_udf text name);
        _ ← bind_name name udf;
        mret PyNone
    | _, None => raise (TypeError "expected string or buffer")
    | _, _ => raise (TypeError "the variable name is not a string")
    end.

End Udf.

(** ** The table viewer's page state *)

Module Viewer.

(** The correction of [total_count] in [_table_viewer]: a table without a
    length may still be small if fewer rows than asked for were fetched. *)
Definition corrected_total (total_count fetched_count rows_per_page : Z) : Z :=
  if total_count <? 0 then
    if fetched_count <? rows_per_page then fetched_count else total_count
  else total_count.

(** [chart = 'table' if 0 <= total_count <= rows_per_page else 'paged_table'] *)
Definition chart (total_count rows_per_page : Z) : string :=
  if ((0 <=? total_count) && (total_count <=? rows_per_page))%bool
  then "table" else "paged_table".

Section WithCollaborators.
Context `{Collaborators}.

(** [_table_viewer(table, rows_per_page, fields)]; the text of the page is
    the template filled with the chart style, the field list, the total and
    the first batch of rows. *)
Definition _table_viewer (table : pyval) (rows_per_page : Z) (fields : pyval)
    : result string :=
  exists_ ← table_exists table;
  if negb exists_ then Ok (str_of table ++ " does not exist")
  else
    fields ← (match fields with
              | PyNone => get_field_list fields table
              | _ => Ok fields
              end);
    '(data, total_count) ← get_data table fields 0 rows_per_page;
    total_count ←
      (if total_count <? 0 then
         rows ← subscript data "rows";
         fetched_count ← len rows;
         Ok (corrected_total total_count fetched_count rows_per_page)
       else Ok total_count);
    format_table_viewer table (chart total_count rows_per_page) fields
      total_count rows_per_page data.

End WithCollaborators.
End Viewer.

(** ** The commands *)

Module Commands.
Section WithCollaborators.
Context `{Collaborators}.

(** [_get_notebook_item(name)] *)
Definition _get_notebook_item (name : pyval) : Cmd pyval :=
  env ← _notebook_environment;
  mret (get_item env name).

(** What [env.update(config)] leaves in [env], and the exception if it
    raised: what was written before a failure stays. The callers store the
    dictionary where it is shared. *)
Definition dict_update (env : gmap string pyval) (config : pyval)
    : gmap string pyval * option exn :=
  match config with
  | PyDict kvs => (foldl (fun m kv => <[kv.1 := kv.2]> m) env kvs, None)
  | _ => update_from_non_dict env config
  end.

(** The end of an update: it raised or it left [updated]. *)
Definition updated_or_raised (updated : gmap string pyval)
    (failure : option exn) : Cmd (gmap string pyval) :=
  match failure with
  | Some e => raise e
  | None => mret updated
  end.

(** [_get_query_argument(args, config, env)]. The dictionary that the SQL
    module returns is updated in place: when it is the dictionary that was
    given, and that one is the namespace, the keys of the cell are written
    into the namespace. *)
Definition _get_query_argument (args : gmap string pyval) (config : pyval)
    (env : environment) : Cmd pyval :=
  sql_arg ← lift (getitem args "sql");
  item ← _get_notebook_item sql_arg;
  if isinstance item ClsQuery then mret item
  else
    given ← contents env;
    '(item, returned) ← lift (get_sql_statement_with_environment item given);
    env ← (match returned with
           | SameDict =>
               if truthy config then
                 let '(updated, failure) := dict_update given config in
                 _ ← store env updated;
                 updated_or_raised updated failure
               else mret given
           | OtherDict d =>
               if truthy config then
                 let '(updated, failure) := dict_update d config in
                 updated_or_raised updated failure
               else mret d
           end);
    lift (Query_new item env).

(** The choice of the sampling strategy in [_sample_cell]. *)
Definition sampling_of (args : gmap string pyval) : result Sampling :=
  count ← getitem args "count";
  method ← getitem args "method";
  if eq_str method "random" then
    percent ← getitem args "percent";
    Ok (SamplingRandom percent count)
  else if eq_str method "hashed" then
    field ← getitem args "field";
    percent ← getitem args "percent";
    Ok (SamplingHashed field percent count)
  else if eq_str method "sorted" then
    order ← getitem args "order";
    field ← getitem args "field";
    Ok (SamplingSorted field (eq_str order "ascending") count)
  else if eq_str method "limit" then Ok (SamplingDefault count)
  else Ok (SamplingDefault count).

(** [_sample_cell(args, config)] *)
Definition _sample_cell (args : gmap string pyval) (config : option string)
    : Cmd pyval :=
  env ← _notebook_environment;
  config ← lift (Config._parse_config config env);
  query ← _get_query_argument args config Live;
  sampling ← lift (sampling_of args);
  lift (query_sample query sampling).

(** [_dryrun_cell(args, config)] *)
Definition _dryrun_cell (args : gmap string pyval) (config : option string)
    : Cmd pyval :=
  env ← _notebook_environment;
  config ← lift (Config._parse_config config env);
  query ← _get_query_argument args config Live;
  lift (query_dry_run_stats query).

(** [query.execute(args['target'], table_mode=args['mode'],
    use_cache=not args['nocache'], allow_large_results=args['large']).results] *)
Definition execute_with (args : gmap string pyval) (query : pyval)
    : result pyval :=
  target ← getitem args "target";
  mode ← getitem args "mode";
  nocache ← getitem args "nocache";
  large ← getitem args "large";
  query_execute_results query target mode (negb (truthy nocache)) large.

(** [_execute_cell(args, config)] *)
Definition _execute_cell (args : gmap string pyval) (config : option string)
    : Cmd pyval :=
  env ← _notebook_environment;
  config ← lift (Config._parse_config config env);
  query ← _get_query_argument args config Live;
  lift (execute_with args query).

(** The loop of [_pipeline_cell] that builds its environment: the bindings
    of the notebook whose value is a [FunctionCall]. *)
Definition function_calls (ns : gmap string pyval) : gmap string pyval :=
  filter (fun kv => isinstance kv.2 ClsFunctionCall = true) ns.

(** [_pipeline_cell(args, config)] *)
Definition _pipeline_cell (args : gmap string pyval) (config : option string)
    : Cmd pyval :=
  action ← lift (getitem args "action");
  if eq_str action "deploy"
  then mret (PyStr "Deploying a pipeline is not yet supported")
  else
    ns ← _notebook_environment;
    let env := function_calls ns in
    config ← lift (Config._parse_config config env);
    query ← _get_query_argument args config (Local env);
    if eq_str action "dryrun" then
      sql ← lift (query_sql query);
      _ ← print sql;
      lift (query_dry_run_stats query)
    else if eq_str action "run" then lift (execute_with args query)
    else mret PyNone.

(** The names given to [_get_table] and used as cache keys are the strings
    that argparse stores for positional arguments. *)
Definition name_of (v : pyval) : result string :=
  match v with
  | PyStr s => Ok s
  | _ => Raise (TypeError "the name is not a string")
  end.

(** [_get_table(name)] *)
Definition _get_table (name : string) : Cmd pyval :=
  item ← _get_notebook_item (PyStr name);
  if isinstance item ClsTable then mret item
  else
    try_except_KeyError (cache_getitem name)
      (table ← lift (Table_new (PyStr name));
       exists_ ← lift (table_exists table);
       if exists_ : bool then
         _ ← cache_setitem name table;
         mret table
       else mret PyNone).

(** [s.split(',')] *)
Fixpoint split_comma (current : string) (s : string) : list string :=
  match s with
  | EmptyString => [current]
  | String c rest =>
      if Ascii.eqb c ","%char then current :: split_comma "" rest
      else split_comma (current ++ String c "") rest
  end.

(** [_table_line(args)] *)
Definition _table_line (args : gmap string pyval) : Cmd pyval :=
  name ← lift (getitem args "table");
  key ← lift (name_of name);
  table ← _get_table key;
  found ← (if truthy table then lift (table_exists table) else mret false);
  if found : bool then
    cols ← lift (getitem args "cols");
    fields ← lift (if truthy cols then
                     text ← name_of cols;
                     Ok (PyList (PyStr <$> split_comma "" text))
                   else Ok PyNone);
    rows ← lift (getitem args "rows");
    match rows with
    | PyInt rows_per_page =>
        html ← lift (Viewer._table_viewer table rows_per_page fields);
        mret (PyHTML html)
    | _ => raise (TypeError "%d format: a number is required")
    end
  else mret (PyStr (str_of name ++ " does not exist")).

(** [_get_schema(name)] *)
Definition _get_schema (name : string) : Cmd pyval :=
  item ← _get_notebook_item (PyStr name);
  item ← (if negb (truthy item) then _get_table name else mret item);
  if isinstance item ClsSchema then mret item
  else
    match schema_attr item with
    | Some schema => mret schema
    | None => mret PyNone
    end.

(** [_schema_line(args)] *)
Definition _schema_line (args : gmap string pyval) : Cmd pyval :=
  name ← lift (getitem args "item");
  key ← lift (name_of name);
  schema ← _get_schema key;
  if truthy schema then
    html ← lift (format_schema schema);
    mret (PyHTML html)
  else mret (PyStr (str_of name ++ " does not exist")).

Definition name_row (x : pyval) : pyval := PyDict [("Name", PyStr (str_of x))].

(** [_datasets_line(args)] *)
Definition _datasets_line (args : gmap string pyval) : Cmd pyval :=
  project ← lift (getitem args "project");
  datasets ← lift (DataSets project);
  html ← lift (render_table (name_row <$> datasets));
  mret (PyHTML html).

(** [_tables_line(args)] *)
Definition _tables_line (args : gmap string pyval) : Cmd pyval :=
  dataset ← lift (getitem args "dataset");
  project ← lift (getitem args "project");
  datasets ← lift (if truthy dataset then
                     d ← DataSet_new project dataset; Ok [d : pyval]
                   else DataSets project);
  tables ← lift (for_each (fun d => ts ← dataset_tables d;
                                      Ok (name_row <$> (ts : list pyval)))
                   datasets);
  html ← lift (render_table (concat tables));
  mret (PyHTML html).

(** ['CSV' if args['format'] == 'csv' else 'NEWLINE_DELIMITED_JSON'] *)
Definition format_name (format : pyval) : string :=
  if eq_str format "csv" then "CSV" else "NEWLINE_DELIMITED_JSON".

(** The end of [_extract_line] and of [_load_cell]: what is returned for a
    finished job. [verb] is ["Extract"] or ["Load"]. *)
Definition job_report (verb : string) (job : Job) : pyval :=
  if job_failed job
  then PyStr (verb ++ " failed: " ++ str_of (job_fatal_error job))
  else if truthy (job_errors job)
  then PyStr (verb ++ " completed with errors: " ++ str_of (job_errors job))
  else PyNone.

(** [_extract_line(args)] *)
Definition _extract_line (args : gmap string pyval) : Cmd pyval :=
  name ← lift (getitem args "source");
  source ← _get_notebook_item name;
  source ← (if negb (truthy source)
            then key ← lift (name_of name); _get_table key
            else mret source);
  if negb (truthy source)
  then mret (PyStr ("No such source: " ++ str_of name))
  else
    missing ← lift (if isinstance source ClsTable
                    then e ← table_exists source; Ok (negb e)
                    else Ok false);
    if missing : bool
    then mret (PyStr ("Source " ++ str_of name ++ " does not exist"))
    else
      destination ← lift (getitem args "destination");
      format ← lift (getitem args "format");
      compress ← lift (getitem args "compress");
      delimiter ← lift (getitem args "delimiter");
      header ← lift (getitem args "header");
      job ← lift (source_extract source destination (format_name format)
                    compress delimiter header);
      mret (job_report "Extract" job).

(** The call of [table.load] in [_load_cell]. *)
Definition load_job (args : gmap string pyval) (table : pyval) : result Job :=
  source ← getitem args "source";
  mode ← getitem args "mode";
  format ← getitem args "format";
  delimiter ← getitem args "delimiter";
  skip ← getitem args "skip";
  strict ← getitem args "strict";
  strict' ← getitem args "strict";
  quote ← getitem args "quote";
  table_load table source mode (format_name format) delimiter skip
    (negb (truthy strict)) (negb (truthy strict')) quote.

Definition cannot_load_message : string :=
  "Table does not exist, no schema specified in cell and no --infer flag; "
  ++ "cannot load".

(** [_load_cell(args, schema)] *)
Definition _load_cell (args : gmap string pyval) (schema : option string)
    : Cmd pyval :=
  name ← lift (getitem args "table");
  key ← lift (name_of name);
  table ← _get_table key;
  table ← (if negb (truthy table) then lift (Table_new name) else mret table);
  exists_ ← lift (table_exists table);
  let load : Cmd pyval :=
    job ← lift (load_job args table);
    mret (job_report "Load" job) in
  let without_schema : Cmd pyval :=
    infer ← lift (getitem args "infer");
    if negb (truthy infer) then mret (PyStr cannot_load_message) else load in
  if exists_ : bool then
    mode ← lift (getitem args "mode");
    if eq_str mode "create"
    then mret (PyStr (str_of name ++ " already exists; use --append or --overwrite"))
    else load
  else
    match schema with
    | Some text =>
        if negb (String.eqb text "") then
          parsed ← lift (json_loads text);
          _ ← lift (table_create table parsed);
          load
        else without_schema
    | None => without_schema
    end.

(** *** Dispatch *)

(** An actual argument of a handler call. *)
Inductive actual :=
  | ActualArgs (args : gmap string pyval)
  | ActualCell (cell : option string).

(** A handler is called with a list of actual arguments. *)
Definition Handler : Type := list actual -> Cmd pyval.

(** A function defined with one parameter, and with two. *)
Definition def1 (name : string) (body : gmap string pyval -> Cmd pyval)
    : Handler := fun actuals =>
  match actuals with
  | [ActualArgs args] => body args
  | _ => raise (TypeError (name ++ "() takes exactly 1 argument"))
  end.

Definition def2 (name : string)
    (body : gmap string pyval -> option string -> Cmd pyval) : Handler :=
  fun actuals =>
  match actuals with
  | [ActualArgs args; ActualCell cell] => body args cell
  | _ => raise (TypeError (name ++ "() takes exactly 2 arguments"))
  end.

(** [cell and len(cell.strip())] *)
Definition has_content (cell : option string) : bool :=
  match cell with
  | Some text =>
      (negb (String.eqb text "") && negb (Nat.eqb (String.length (strip text)) 0))%bool
  | None => false
  end.

(** [not cell] *)
Definition no_cell (cell : option string) : bool :=
  match cell with
  | Some text => String.eqb text ""
  | None => true
  end.

(** [_dispatch_handler(args, cell, parser, handler, cell_required,
    cell_prohibited)]; [command] names the sub-command of [parser]. *)
Definition _dispatch_handler (args : gmap string pyval) (cell : option string)
    (command : string) (handler : Handler)
    (cell_required cell_prohibited : bool) : Cmd pyval :=
  if cell_prohibited then
    if has_content cell then
      _ ← print (parser_help command);
      raise (Exception ("Additional data is not supported with the "
                        ++ parser_prog command ++ " command."))
    else handler [ActualArgs args]
  else if (cell_required && no_cell cell)%bool then
    _ ← print (parser_help command);
    raise (Exception ("The " ++ parser_prog command
                      ++ " command requires additional data"))
  else handler [ActualArgs args; ActualCell cell].

(** *** The flag schemas and the registry *)

(** One [add_argument]: the option strings (a single name for a positional
    argument) and the default; [store_true] flags default to [False] and
    arguments without a default to [None]. *)
Record Argument := {
  option_strings : list string;
  arg_default : pyval
}.

Record Subparser := {
  command : string;
  arguments : list Argument
}.

Definition flag (short long : string) (default : pyval) : Argument :=
  {| option_strings := [short; long]; arg_default := default |}.
Definition positional (name : string) (default : pyval) : Argument :=
  {| option_strings := [name]; arg_default := default |}.

Definition _create_sample_subparser : Subparser :=
  {| command := "sample";
     arguments :=
       [ flag "-q" "--sql" PyNone;
         flag "-c" "--count" (PyInt 10);
         flag "-m" "--method" (PyStr "limit");
         flag "-p" "--percent" (PyInt 1);
         flag "-f" "--field" PyNone;
         flag "-o" "--order" (PyStr "ascending") ] |}.

Definition _create_udf_subparser : Subparser :=
  {| command := "udf"; arguments := [ flag "-m" "--module" PyNone ] |}.

Definition _create_dry_run_subparser : Subparser :=
  {| command := "dryrun"; arguments := [ flag "-q" "--sql" PyNone ] |}.

Definition _create_execute_subparser (command : string) : Subparser :=
  {| command := command;
     arguments :=
       [ flag "-nc" "--nocache" (PyBool false);
         flag "-m" "--mode" (PyStr "create");
         flag "-l" "--large" (PyBool false);
         flag "-q" "--sql" PyNone;
         flag "-t" "--target" PyNone ] |}.

Definition _create_pipeline_subparser (command : string) : Subparser :=
  {| command := command;
     arguments :=
       [ flag "-n" "--name" PyNone;
         flag "-nc" "--nocache" (PyBool false);
         flag "-m" "--mode" (PyStr "create");
         flag "-l" "--large" (PyBool false);
         flag "-q" "--sql" PyNone;
         flag "-t" "--target" PyNone;
         positional "action" (PyStr "dryrun") ] |}.

Definition _create_table_subparser : Subparser :=
  {| command := "table";
     arguments :=
       [ flag "-r" "--rows" (PyInt 25);
         flag "-c" "--cols" PyNone ] |}.

Definition _create_schema_subparser : Subparser :=
  {| command := "schema"; arguments := [ positional "item" PyNone ] |}.

Definition _create_datasets_subparser : Subparser :=
  {| command := "datasets"; arguments := [ flag "-p" "--project" PyNone ] |}.

Definition _create_tables_subparser : Subparser :=
  {| command := "tables";
     arguments :=
       [ flag "-p" "--project" PyNone;
         flag "-d" "--dataset" PyNone ] |}.

Definition _create_extract_subparser : Subparser :=
  {| command := "extract";
     arguments :=
       [ positional "source" PyNone;
         flag "-f" "--format" (PyStr "csv");
         flag "-c" "--compress" (PyBool false);
         flag "-H" "--header" (PyBool false);
         flag "-d" "--delimiter" (PyStr ",");
         positional "destination" PyNone ] |}.

Definition double_quote : string := String (ascii_of_nat 34) EmptyString.

Definition _create_load_subparser : Subparser :=
  {| command := "load";
     arguments :=
       [ flag "-m" "--mode" (PyStr "create");
         flag "-f" "--format" (PyStr "csv");
         flag "-n" "--skip" (PyInt 0);
         flag "-s" "--strict" (PyBool false);
         flag "-d" "--delimiter" (PyStr ",");
         flag "-q" "--quote" (PyStr double_quote);
         flag "-i" "--infer" (PyBool false);
         positional "source" PyNone;
         positional "table" PyNone ] |}.

(** The key under which argparse stores an argument: the first long option
    without its dashes, else the first option string without its dashes. *)
Fixpoint strip_dashes (s : string) : string :=
  match s with
  | String "-"%char rest => strip_dashes rest
  | _ => s
  end.

Definition dest (a : Argument) : string :=
  match List.find (fun o => startswith o "--") (option_strings a) with
  | Some long => strip_dashes long
  | None => strip_dashes (List.hd "" (option_strings a))
  end.

(** Modelled from the spec: the parsing of a line ([CommandParser.parse] and
    [handle_magic_line]) is not part of this module. A ParsedArgs conforms
    to its command's schema: it has one key for each declared argument, and
    the key [func] that [set_defaults] adds. *)
Definition produced_by (p : Subparser) (args : gmap string pyval) : Prop :=
  dom args = list_to_set ("func" :: (dest <$> arguments p)).

(** One [set_defaults(func=lambda args, cell: _dispatch_handler(...))]. *)
Record Registration := {
  reg_parser : Subparser;
  reg_handler : Handler;
  reg_cell_required : bool;
  reg_cell_prohibited : bool
}.

Definition register (p : Subparser) (h : Handler)
    (cell_required cell_prohibited : bool) : Registration :=
  {| reg_parser := p; reg_handler := h;
     reg_cell_required := cell_required;
     reg_cell_prohibited := cell_prohibited |}.

(** [_create_bigquery_parser()] *)
Definition _create_bigquery_parser : list Registration :=
  [ register _create_sample_subparser (def2 "_sample_cell" _sample_cell)
      false false;
    register _create_dry_run_subparser (def2 "_dryrun_cell" _dryrun_cell)
      false true;
    register _create_udf_subparser (def2 "_udf_cell" Udf._udf_cell)
      true false;
    register (_create_execute_subparser "execute")
      (def2 "_execute_cell" _execute_cell) false false;
    register (_create_pipeline_subparser "pipeline")
      (def2 "_pipeline_cell" _pipeline_cell) false false;
    register _create_table_subparser (def1 "_table_line" _table_line)
      false true;
    register _create_schema_subparser (def1 "_schema_line" _schema_line)
      false true;
    register _create_datasets_subparser (def1 "_datasets_line" _datasets_line)
      false true;
    register _create_tables_subparser (def1 "_tables_line" _tables_line)
      false true;
    register _create_extract_subparser (def1 "_extract_line" _extract_line)
      false true;
    register _create_load_subparser (def2 "_load_cell" _load_cell)
      false false ].

(** The [func] default of a registration. *)
Definition func (r : Registration) (args : gmap string pyval)
    (cell : option string) : Cmd pyval :=
  _dispatch_handler args cell (command (reg_parser r)) (reg_handler r)
    (reg_cell_required r) (reg_cell_prohibited r).

End WithCollaborators.
End Commands.

(** ** Predicates and example data used by the statements *)

Module Shape.

(** No string of the tree starts with ['$']. *)
Fixpoint no_reference (v : pyval) : bool :=
  match v with
  | PyStr s => negb (startswith s "$")
  | PyList xs | PyTuple xs => forallb no_reference xs
  | PyDict kvs => forallb (fun kv => no_reference kv.2) kvs
  | _ => true
  end.

Definition is_str (v : pyval) : bool :=
  match v with PyStr _ => true | _ => false end.

(** No tuple of the tree holds a string directly. *)
Fixpoint no_str_in_tuple (v : pyval) : bool :=
  match v with
  | PyList xs => forallb no_str_in_tuple xs
  | PyTuple xs => forallb (fun x => negb (is_str x) && no_str_in_tuple x) xs
  | PyDict kvs => forallb (fun kv => no_str_in_tuple kv.2) kvs
  | _ => true
  end.

(** A result carries data when it is more than a message or [None]. *)
Definition carries_data (v : pyval) : bool :=
  match v with
  | PyStr _ | PyNone => false
  | _ => true
  end.

(** The three cell modes of a command. *)
Inductive CellMode := REQUIRED | PROHIBITED | OPTIONAL.

(** A handler returned, and returned something that carries data. *)
Definition returns_data (outcome : result pyval) : Prop :=
  exists v, outcome = Ok v /\ carries_data v = true.

(** Every character of the string satisfies [p]. *)
Fixpoint all_chars (p : ascii -> bool) (s : string) : bool :=
  match s with
  | EmptyString => true
  | String c rest => p c && all_chars p rest
  end.

(** [part] occurs in [text]. *)
Definition occurs_in (part text : string) : Prop :=
  exists before after, text = before ++ part ++ after.

(** The field list as the sequence of tokens it was paired from. *)
Definition tokens_of (fields : list (string * string)) : list string :=
  concat ((fun f => [f.1; f.2]) <$> fields).

(** The error of an item assignment to a tuple. *)
Definition tuple_assignment : exn :=
  TypeError "'tuple' object does not support item assignment".

(** The cell mode that a registration's two flags stand for. *)
Definition cell_mode (r : Commands.Registration) : CellMode :=
  if Commands.reg_cell_prohibited r then PROHIBITED
  else if Commands.reg_cell_required r then REQUIRED
  else OPTIONAL.

(** The number of actual arguments a registration's handler is called with. *)
Definition arity (m : CellMode) : nat :=
  match m with
  | PROHIBITED => 1
  | REQUIRED | OPTIONAL => 2
  end.

(** The notebook after the usage text of [command] was printed. *)
Definition helped `{Collaborators} (command : string) (nb : Notebook)
    : Notebook :=
  {| user_ns := user_ns nb; table_cache := table_cache nb;
     stdout := stdout nb ++ [parser_help command] |}.

End Shape.

(** The time of the last touch of every name, kept beside the cache while a
    sequence of operations runs: the clock advances with every operation,
    and an operation stamps the name it touches (a put, or a get that hits). *)
Module CacheTrace.
Import Cache.

Definition touches (c : LRUCache) (o : op) : option string :=
  match o with
  | Put name _ => Some name
  | Get name =>
      match assoc name (entries c) with
      | Some _ => Some name
      | None => None
      end
  end.

Record traced := {
  cache : LRUCache;
  clock : nat;
  stamps : gmap string nat
}.

Definition stamp_of (t : traced) (name : string) : nat :=
  default 0%nat (stamps t !! name).

Definition traced_step (t : traced) (o : op) : traced :=
  {| cache := step (cache t) o;
     clock := S (clock t);
     stamps :=
       match touches (cache t) o with
       | Some name => <[name := clock t]> (stamps t)
       | None => stamps t
       end |}.

Definition start (c : LRUCache) : traced :=
  {| cache := c; clock := 0; stamps := ∅ |}.

Definition trace (ops : list op) (c : LRUCache) : traced :=
  foldl traced_step (start c) ops.

(** [a] was touched after [b]. *)
Definition newer (t : traced) (a b : string) : Prop :=
  (stamp_of t b < stamp_of t a)%nat.

(** The invariant of a traced cache: the names are listed from the most to
    the least recently touched, every cached name was touched before now,
    and the capacity is respected. *)
Definition ordered (t : traced) : Prop :=
  StronglySorted (newer t) (names (cache t))
  /\ (forall k, k ∈ names (cache t) -> (stamp_of t k < clock t)%nat)
  /\ (List.length (entries (cache t)) <= capacity (cache t))%nat.

End CacheTrace.

(** A small world to run the commands in: YAML bodies are looked up in a
    table of parsed texts, [get_item] is the plain lookup of a name, the SQL
    module returns the statement and the dictionary it was given, every
    table exists, and a job reports what its source says. *)
Module Example.

Definition parsed_bodies : list (string * pyval) :=
  [ ("a: $x", PyDict [("a", PyStr "$x")]);
    ("a: !!python/tuple [b]", PyDict [("a", PyTuple [PyStr "b"])]);
    ("limit: 3", PyDict [("limit", PyInt 3)]) ].

Definition errors_job : Job :=
  {| job_failed := false; job_fatal_error := PyNone;
     job_errors := PyList [PyStr "bad row"] |}.

Definition failed_job : Job :=
  {| job_failed := true; job_fatal_error := PyStr "quota";
     job_errors := PyList [PyStr "quota"] |}.

Definition render (v : pyval) : string :=
  match v with
  | PyStr s => s
  | PyList [PyStr s] => "['" ++ s ++ "']"
  | _ => "<object>"
  end.

Definition world : Collaborators :=
  {| json_loads := fun _ => Raise (ExternalError "No JSON object could be decoded");
     yaml_load := fun text => lookup_item parsed_bodies text;
     get_item := fun env name =>
       match name with
       | PyStr k => default PyNone (env !! k)
       | _ => PyNone
       end;
     get_sql_statement_with_environment := fun item env => Ok (item, SameDict);
     update_from_non_dict := fun env _ => (env, Some (TypeError "not iterable"));
     Query_new := fun _ _ => Ok (PyObj ClsQuery 0);
     query_sample := fun q _ => Ok q;
     query_sql := fun _ => Ok "SELECT 1";
     query_dry_run_stats := fun q => Ok q;
     query_execute_results := fun q _ _ _ _ => Ok q;
     Table_new := fun _ => Ok (PyObj ClsTable 0);
     table_exists := fun _ => Ok true;
     table_create := fun _ _ => Ok tt;
     source_extract := fun source _ _ _ _ _ =>
       Ok (if isinstance source ClsQuery then errors_job else failed_job);
     table_load := fun _ _ _ _ _ _ _ _ _ => Ok errors_job;
     schema_attr := fun _ => None;
     DataSets := fun _ => Ok [];
     DataSet_new := fun _ _ => Ok PyNone;
     dataset_tables := fun _ => Ok [];
     get_field_list := fun fields _ => Ok fields;
     get_data := fun _ _ _ _ => Ok (PyDict [("rows", PyList [])], -1);
     format_table_viewer := fun _ chart _ _ _ _ => Ok chart;
     format_schema := fun _ => Ok "";
     render_table := fun _ => Ok "";
     str_of := render;
     parser_prog := fun command => "bigquery " ++ command;
     parser_help := fun command => "usage: bigquery " ++ command |}.

Definition empty_notebook : Notebook :=
  {| user_ns := ∅; table_cache := Cache._table_cache; stdout := [] |}.

Definition notebook_with (ns : gmap string pyval) : Notebook :=
  {| user_ns := ns; table_cache := Cache._table_cache; stdout := [] |}.

(** The arguments of [sample -c 5 -m random -p 10 -q myquery]. *)
Definition sample_args : gmap string pyval :=
  {[ "sql" := PyStr "myquery"; "count" := PyInt 5;
     "method" := PyStr "random"; "percent" := PyInt 10;
     "field" := PyNone; "order" := PyStr "ascending" ]}.

(** The arguments of [table] without options, as its schema yields them. *)
Definition table_args : gmap string pyval :=
  {[ "func" := PyNone; "rows" := PyInt 25; "cols" := PyNone ]}.

(** The arguments of [pipeline -q q run] and of [sample -q q]. *)
Definition pipeline_args : gmap string pyval :=
  {[ "func" := PyNone; "name" := PyNone; "nocache" := PyBool false;
     "mode" := PyStr "create"; "large" := PyBool false;
     "sql" := PyStr "q"; "target" := PyNone; "action" := PyStr "run" ]}.

Definition sample_q_args : gmap string pyval :=
  <["sql" := PyStr "q"]> sample_args.

(** The arguments of [extract q gs://bucket/out] with its defaults. *)
Definition extract_args : gmap string pyval :=
  {[ "func" := PyNone; "source" := PyStr "q"; "format" := PyStr "csv";
     "compress" := PyBool false; "header" := PyBool false;
     "delimiter" := PyStr ","; "destination" := PyStr "gs://bucket/out" ]}.

End Example.

(** ** Predicates on commands used by the further statements *)

Module Effects.

(** Whatever the command returns or raises, the notebook it leaves is
    related by [R] to the one it found. *)
Definition respects (R : Notebook -> Notebook -> Prop) {A} (m : Cmd A)
    : Prop :=
  forall nb, R nb (m nb).2.

(** Nothing changed. *)
Definition same_notebook (before after : Notebook) : Prop :=
  after = before.

(** The namespace and the table cache did not change; something may have
    been printed. *)
Definition printed_only (before after : Notebook) : Prop :=
  user_ns after = user_ns before /\ table_cache after = table_cache before.

(** The namespace and the printed output did not change; the table cache
    may have. *)
Definition cached_only (before after : Notebook) : Prop :=
  user_ns after = user_ns before /\ stdout after = stdout before.

(** The table cache and the printed output did not change; the namespace
    may have. *)
Definition namespace_only (before after : Notebook) : Prop :=
  table_cache after = table_cache before /\ stdout after = stdout before.

(** The notebook with another namespace. *)
Definition with_namespace (nb : Notebook) (ns : gmap string pyval)
    : Notebook :=
  {| user_ns := ns; table_cache := table_cache nb; stdout := stdout nb |}.

(** The notebook is as before, or the non-empty [config] was written into
    its namespace, as far as the update came. *)
Definition updated_by `{Collaborators} (config : pyval)
    (before after : Notebook) : Prop :=
  after = before
  \/ (truthy config = true
      /\ after = with_namespace before
                   (Commands.dict_update (user_ns before) config).1).

(** The dictionary that a command passes as [env]. *)
Definition dictionary_of (env : environment) (nb : Notebook)
    : gmap string pyval :=
  match env with
  | Live => user_ns nb
  | Local d => d
  end.

(** The dictionary that the SQL module handed back. *)
Definition resolved_in (env : environment) (returned : returned_env)
    (nb : Notebook) : gmap string pyval :=
  match returned with
  | SameDict => dictionary_of env nb
  | OtherDict d => d
  end.

(** The notebook after [env.update(config)] left [merged] in the returned
    dictionary: the namespace is that dictionary when it was passed and
    handed back, otherwise nothing of the notebook changed. *)
Definition after_update (env : environment) (returned : returned_env)
    (nb : Notebook) (merged : gmap string pyval) : Notebook :=
  match returned, env with
  | SameDict, Live => with_namespace nb merged
  | _, _ => nb
  end.

(** The source of an extract was found: the name is bound in the notebook
    to a value that counts as true, or it is not and [_get_table] answers
    such a value. [after] is the notebook that the search leaves. *)
Definition source_found `{Collaborators} (key : string) (nb : Notebook)
    (source : pyval) (after : Notebook) : Prop :=
  let item := get_item (user_ns nb) (PyStr key) in
  (source = item /\ truthy item = true /\ after = nb)
  \/ (truthy item = false
      /\ Commands._get_table key nb = (Ok source, after)
      /\ truthy source = true).

(** The load command starts its job: the table exists and the mode is not
    [create]; or the table does not exist and is created from the schema of
    the cell; or it does not exist, the cell is empty and [--infer] is
    set. *)
Definition load_goes_ahead `{Collaborators} (args : gmap string pyval)
    (schema : option string) (table : pyval) : Prop :=
  (exists mode,
     table_exists table = Ok true
     /\ args !! "mode" = Some mode /\ eq_str mode "create" = false)
  \/ (table_exists table = Ok false
      /\ exists text parsed,
           schema = Some text /\ text <> ""
           /\ json_loads text = Ok parsed
           /\ table_create table parsed = Ok tt)
  \/ (table_exists table = Ok false
      /\ Commands.no_cell schema = true
      /\ exists infer, args !! "infer" = Some infer /\ truthy infer = true).

(** At most the binding of [name] changed. *)
Definition bound_only (name : string) (before after : Notebook) : Prop :=
  (forall other, other <> name -> user_ns after !! other = user_ns before !! other)
  /\ table_cache after = table_cache before
  /\ stdout after = stdout before.

(** Every cached table is the one that [Table(name)] builds for its name,
    and it existed. *)
Definition cache_checked `{Collaborators} (c : Cache.LRUCache) : Prop :=
  forall name table,
    (name, table) ∈ Cache.entries c ->
    Table_new (PyStr name) = Ok table /\ table_exists table = Ok true.

(** A property of the table cache that holds afterwards if it held before. *)
Definition cache_keeps (P : Cache.LRUCache -> Prop) (before after : Notebook)
    : Prop :=
  P (table_cache before) -> P (table_cache after).

(** The keys that a ParsedArgs of the schema [p] is sure to have. *)
Definition declared (p : Commands.Subparser) : list string :=
  Commands.dest <$> Commands.arguments p.

(** The value of the last pair with key [k], as a dictionary built from the
    pairs in order holds it. *)
Fixpoint last_value (kvs : list (string * pyval)) (k : string)
    : option pyval :=
  match kvs with
  | [] => None
  | (k', v) :: rest =>
      match last_value rest k with
      | Some later => Some later
      | None => if String.eqb k' k then Some v else None
      end
  end.

(** The names of the fields of a UDF, inputs then outputs, each followed by
    its type. *)
Definition udf_tokens (udf : pyval) : list string :=
  match udf with
  | PyUDF inputs outputs _ _ =>
      (Shape.tokens_of inputs ++ Shape.tokens_of outputs)%list
  | _ => []
  end.

(** An identifier: a letter or underscore, then letters, digits and
    underscores. *)
Definition is_identifier (s : string) : bool :=
  match s with
  | String c rest => Udf.part_first c && Shape.all_chars Udf.part_next rest
  | EmptyString => false
  end.

(** Any character but the opening brace. *)
Definition not_open_brace (c : ascii) : bool :=
  negb (Ascii.eqb c "{"%char).

End Effects.

(** A second world: as [Example.world], but every table is gone. *)
Module Scenario.

Definition gone_world : Collaborators :=
  {| json_loads := json_loads (Collaborators := Example.world);
     yaml_load := yaml_load (Collaborators := Example.world);
     get_item := get_item (Collaborators := Example.world);
     get_sql_statement_with_environment :=
       get_sql_statement_with_environment (Collaborators := Example.world);
     update_from_non_dict :=
       update_from_non_dict (Collaborators := Example.world);
     Query_new := Query_new (Collaborators := Example.world);
     query_sample := query_sample (Collaborators := Example.world);
     query_sql := query_sql (Collaborators := Example.world);
     query_dry_run_stats := query_dry_run_stats (Collaborators := Example.world);
     query_execute_results :=
       query_execute_results (Collaborators := Example.world);
     Table_new := Table_new (Collaborators := Example.world);
     table_exists := fun _ => Ok false;
     table_create := table_create (Collaborators := Example.world);
     source_extract := source_extract (Collaborators := Example.world);
     table_load := table_load (Collaborators := Example.world);
     schema_attr := schema_attr (Collaborators := Example.world);
     DataSets := DataSets (Collaborators := Example.world);
     DataSet_new := DataSet_new (Collaborators := Example.world);
     dataset_tables := dataset_tables (Collaborators := Example.world);
     get_field_list := get_field_list (Collaborators := Example.world);
     get_data := get_data (Collaborators := Example.world);
     format_table_viewer := format_table_viewer (Collaborators := Example.world);
     format_schema := format_schema (Collaborators := Example.world);
     render_table := render_table (Collaborators := Example.world);
     str_of := str_of (Collaborators := Example.world);
     parser_prog := parser_prog (Collaborators := Example.world);
     parser_help := parser_help (Collaborators := Example.world) |}.

(** The arguments of [sample] with its defaults, and of
    [load gs://bucket/in t]. *)
Definition sample_defaults : gmap string pyval :=
  {[ "func" := PyNone; "sql" := PyNone; "count" := PyInt 10;
     "method" := PyStr "limit"; "percent" := PyInt 1; "field" := PyNone;
     "order" := PyStr "ascending" ]}.

Definition load_defaults : gmap string pyval :=
  {[ "func" := PyNone; "mode" := PyStr "create"; "format" := PyStr "csv";
     "skip" := PyInt 0; "strict" := PyBool false; "delimiter" := PyStr ",";
     "quote" := PyStr Commands.double_quote; "infer" := PyBool false;
     "source" := PyStr "gs://bucket/in"; "table" := PyStr "t" ]}.

Definition execute_defaults : gmap string pyval :=
  {[ "func" := PyNone; "nocache" := PyBool false; "mode" := PyStr "create";
     "large" := PyBool false; "sql" := PyStr "q"; "target" := PyNone ]}.

End Scenario.

(** ** Properties of the configuration resolver *)

Module ConfigFacts.
Import Config Shape.

(** Induction on a value with the hypotheses for the elements of its
    containers. *)
Lemma pyval_nested_ind (P : pyval -> Prop) :
  P PyNone -> (forall b, P (PyBool b)) -> (forall z, P (PyInt z)) ->
  (forall s, P (PyStr s)) ->
  (forall xs, Forall P xs -> P (PyList xs)) ->
  (forall xs, Forall P xs -> P (PyTuple xs)) ->
  (forall kvs, Forall (fun kv => P kv.2) kvs -> P (PyDict kvs)) ->
  (forall c o, P (PyObj c o)) ->
  (forall i o n j, P (PyUDF i o n j)) ->
  (forall h, P (PyHTML h)) ->
  forall v, P v.
Proof.
  intros HNone HBool HInt HStr HList HTuple HDict HObj HUdf HHtml.
  fix IH 1.
  intros [ | b | z | s | xs | xs | kvs | c o | i o n j | h ];
    [ exact HNone | apply HBool | apply HInt | apply HStr | apply HList
    | apply HTuple | apply HDict | apply HObj | apply HUdf | apply HHtml ].
  - induction xs as [ | x xs IHxs ]; constructor; [ apply IH | exact IHxs ].
  - induction xs as [ | x xs IHxs ]; constructor; [ apply IH | exact IHxs ].
  - induction kvs as [ | [k x] kvs IHkvs ]; constructor;
      [ apply IH | exact IHkvs ].
Qed.

Section WithCollaborators.
Context `{Collaborators}.

Lemma expand_var_plain (v : string) (env : gmap string pyval) :
  startswith v "$" = false -> expand_var v env = Ok (PyStr v).
Proof. intros Hv. unfold expand_var. now rewrite Hv. Qed.

(** The misspelt method is looked up before anything else happens to a
    reference, so every string that starts with ['$'] raises. *)
Lemma expand_var_reference (v : string) (env : gmap string pyval) :
  startswith v "$" = true ->
  expand_var v env = Raise (AttributeError "startwith").
Proof. intros Hv. unfold expand_var. now rewrite Hv. Qed.

Lemma for_each_fixed {A} (f : A -> result A) (l : list A) :
  Forall (fun x => f x = Ok x) l -> for_each f l = Ok l.
Proof.
  induction 1 as [ | x l Hx _ IH ]; simpl; [ reflexivity | ].
  rewrite Hx. simpl. now rewrite IH.
Qed.

Lemma replace_slot_fixed (env : gmap string pyval) (assignable : bool)
    (x : pyval) :
  replace_vars env x = Ok x ->
  no_reference x = true ->
  (assignable = true \/ is_str x = false) ->
  replace_slot (replace_vars env) env assignable x = Ok x.
Proof.
  intros Hrec Href Hassign. unfold replace_slot.
  destruct x; simpl in *; try reflexivity; try exact Hrec.
  rewrite expand_var_plain by now apply negb_true_iff.
  simpl. destruct Hassign as [-> | ?]; [ reflexivity | discriminate ].
Qed.

(** On a tree without references, and without a string directly inside a
    tuple, the substitution changes nothing. *)
Lemma replace_vars_fixed (env : gmap string pyval) (v : pyval) :
  no_reference v = true -> no_str_in_tuple v = true ->
  replace_vars env v = Ok v.
Proof.
  induction v as [ | | | | xs IH | xs IH | kvs IH | | | ]
    using pyval_nested_ind; intros Hr Ht; try reflexivity.
  - simpl in *. rewrite for_each_fixed; [ reflexivity | ].
    rewrite forallb_forall in Hr, Ht. rewrite Forall_forall in *.
    intros x Hx. apply list_elem_of_In in Hx as Hin.
    apply replace_slot_fixed; auto.
  - simpl in *. rewrite for_each_fixed; [ reflexivity | ].
    rewrite forallb_forall in Hr, Ht. rewrite Forall_forall in *.
    intros x Hx. apply list_elem_of_In in Hx as Hin.
    specialize (Ht x Hin). apply andb_true_iff in Ht as [Hs Ht].
    apply replace_slot_fixed; auto.
    right. now apply negb_true_iff.
  - simpl in *. rewrite for_each_fixed; [ reflexivity | ].
    rewrite forallb_forall in Hr, Ht. rewrite Forall_forall in *.
    intros [k x] Hx. apply list_elem_of_In in Hx as Hin.
    rewrite replace_slot_fixed; [ reflexivity | | | now left ].
    + apply (IH _ Hx); [ apply (Hr _ Hin) | apply (Ht _ Hin) ].
    + apply (Hr _ Hin).
Qed.

Lemma for_each_raise {A B} (f : A -> result B) (l : list A) (e : exn) :
  for_each f l = Raise e -> exists x, x ∈ l /\ f x = Raise e.
Proof.
  induction l as [ | x l IH ]; simpl; [ discriminate | ].
  destruct (f x) as [ y | e' ] eqn:Hx; simpl.
  - destruct (for_each f l) as [ ys | e'' ]; simpl; [ discriminate | ].
    intros [= ->]. destruct IH as (x' & Hin & Hx'); [ reflexivity | ].
    exists x'. split; [ now right | exact Hx' ].
  - intros [= ->]. exists x. split; [ now left | exact Hx ].
Qed.

Lemma replace_slot_raise (env : gmap string pyval) (assignable : bool)
    (x : pyval) (e : exn) :
  (replace_vars env x = Raise e ->
   e = AttributeError "startwith" \/ e = tuple_assignment) ->
  replace_slot (replace_vars env) env assignable x = Raise e ->
  e = AttributeError "startwith" \/ e = tuple_assignment.
Proof.
  intros Hrec. unfold replace_slot.
  destruct x; simpl; try discriminate; try exact Hrec.
  unfold expand_var. destruct (startswith s "$"); simpl.
  - intros [= <-]. now left.
  - destruct assignable; [ discriminate | ]. intros [= <-]. now right.
Qed.

(** The substitution raises nothing but the two errors of its slips: the
    message [Cannot expand variable] is never produced. *)
Lemma replace_vars_raises_only (env : gmap string pyval) (v : pyval) (e : exn) :
  replace_vars env v = Raise e ->
  e = AttributeError "startwith" \/ e = tuple_assignment.
Proof.
  revert e.
  induction v as [ | | | | xs IH | xs IH | kvs IH | | | ]
    using pyval_nested_ind; intros e; simpl; try discriminate.
  - destruct (for_each _ xs) as [ ys | e' ] eqn:Hxs; simpl; [ discriminate | ].
    intros [= ->]. apply for_each_raise in Hxs as (x & Hin & Hx).
    rewrite Forall_forall in IH. eapply replace_slot_raise; eauto.
  - destruct (for_each _ xs) as [ ys | e' ] eqn:Hxs; simpl; [ discriminate | ].
    intros [= ->]. apply for_each_raise in Hxs as (x & Hin & Hx).
    rewrite Forall_forall in IH. eapply replace_slot_raise; eauto.
  - destruct (for_each _ kvs) as [ ys | e' ] eqn:Hxs; simpl; [ discriminate | ].
    intros [= ->]. apply for_each_raise in Hxs as ([k x] & Hin & Hx).
    rewrite Forall_forall in IH. specialize (IH _ Hin). simpl in IH.
    destruct (replace_slot _ env true x) as [ y | e' ] eqn:Hslot;
      simpl in Hx; [ discriminate | ].
    injection Hx as ->. eapply replace_slot_raise; eauto.
Qed.

Lemma for_each_ok_inv {A B} (f : A -> result B) (l : list A) (l' : list B) :
  for_each f l = Ok l' -> forall x, x ∈ l -> exists y, f x = Ok y.
Proof.
  revert l'. induction l as [ | x l IH ]; intros l' Hl y Hy.
  - inversion Hy.
  - simpl in Hl. destruct (f x) as [ x' | ] eqn:Hx; simpl in Hl;
      [ | discriminate ].
    destruct (for_each f l) as [ ys | ] eqn:Hys; simpl in Hl;
      [ | discriminate ].
    apply elem_of_cons in Hy as [ -> | Hy ]; [ eauto | ].
    eapply IH; eauto.
Qed.

(** A mapping with a reference among its values is never substituted. *)
Lemma replace_vars_reference_fails (env : gmap string pyval)
    (kvs : list (string * pyval)) (k s : string) :
  (k, PyStr s) ∈ kvs -> startswith s "$" = true ->
  is_ok (replace_vars env (PyDict kvs)) = false.
Proof.
  intros Hin Hs. simpl.
  destruct (for_each _ kvs) as [ kvs' | e ] eqn:Hkvs; simpl; [ | reflexivity ].
  destruct (for_each_ok_inv _ _ _ Hkvs _ Hin) as (y & Hy).
  simpl in Hy. unfold replace_slot in Hy. simpl in Hy.
  rewrite expand_var_reference in Hy by exact Hs. discriminate.
Qed.

Lemma for_each_ok_same {A} (f : A -> result A) (l l' : list A) :
  Forall (fun x => forall y, f x = Ok y -> y = x) l ->
  for_each f l = Ok l' -> l' = l.
Proof.
  intros Hall. revert l'.
  induction Hall as [ | x l Hx _ IH ]; intros l'; simpl.
  - now intros [= <-].
  - destruct (f x) as [ y | ] eqn:Hy; simpl; [ | discriminate ].
    destruct (for_each f l) as [ ys | ]; simpl; [ | discriminate ].
    intros [= <-]. now rewrite (Hx y eq_refl), (IH ys eq_refl).
Qed.

Lemma replace_slot_ok_same (env : gmap string pyval) (assignable : bool)
    (x y : pyval) :
  (forall y, replace_vars env x = Ok y -> y = x) ->
  replace_slot (replace_vars env) env assignable x = Ok y -> y = x.
Proof.
  intros Hrec. unfold replace_slot.
  destruct x; simpl; try (now intros [= <-]); try apply Hrec.
  unfold expand_var. destruct (startswith s "$"); simpl; [ discriminate | ].
  destruct assignable; [ now intros [= <-] | discriminate ].
Qed.

(** Whenever the substitution returns, it returns the tree it was given:
    as the code stands no value is ever substituted. *)
Lemma replace_vars_ok_same (env : gmap string pyval) (v v' : pyval) :
  replace_vars env v = Ok v' -> v' = v.
Proof.
  revert v'.
  induction v as [ | | | | xs IH | xs IH | kvs IH | | | ]
    using pyval_nested_ind; intros v'; simpl; try (now intros [= <-]).
  - destruct (for_each _ xs) as [ ys | ] eqn:Hxs; simpl; [ | discriminate ].
    intros [= <-]. f_equal. eapply for_each_ok_same; [ | exact Hxs ].
    eapply Forall_impl; [ exact IH | ].
    intros x Hx y. now apply replace_slot_ok_same.
  - destruct (for_each _ xs) as [ ys | ] eqn:Hxs; simpl; [ | discriminate ].
    intros [= <-]. f_equal. eapply for_each_ok_same; [ | exact Hxs ].
    eapply Forall_impl; [ exact IH | ].
    intros x Hx y. now apply replace_slot_ok_same.
  - destruct (for_each _ kvs) as [ ys | ] eqn:Hxs; simpl; [ | discriminate ].
    intros [= <-]. f_equal. eapply for_each_ok_same; [ | exact Hxs ].
    eapply Forall_impl; [ exact IH | ].
    intros [k x] Hx [k' y]. simpl in *.
    destruct (replace_slot _ env true x) as [ z | ] eqn:Hz; simpl;
      [ | discriminate ].
    intros [= <- <-]. f_equal. eapply replace_slot_ok_same; eauto.
Qed.

End WithCollaborators.
End ConfigFacts.

Module ConfigClaims.
Import Config Shape ConfigFacts.

(** C1 (the code departs from the claim). The claim: a value ["$x"] of the
    mapping is replaced by the environment's value of [x] when [x] is
    bound, and an unresolved-variable error naming [x] is raised when it is
    not. The code: [expand_var] calls the misspelt method [startwith] on
    the name, so substituting [{"a": "$x"}] raises [AttributeError] whether
    the environment binds [x] to 5 or is empty; no substitution ever raises
    anything but [AttributeError] or the tuple assignment error, a mapping
    holding any reference is never substituted, and a substitution that
    returns gives back the tree it was given. *)
Theorem C1_reference_raises_AttributeError :
  replace_vars {[ "x" := PyInt 5 ]} (PyDict [("a", PyStr "$x")])
    = Raise (AttributeError "startwith")
  /\ replace_vars ∅ (PyDict [("a", PyStr "$x")])
       = Raise (AttributeError "startwith")
  /\ _parse_config (H := Example.world) (Some "a: $x") {[ "x" := PyInt 5 ]}
       = Raise (AttributeError "startwith")
  /\ (forall env config e,
        replace_vars env config = Raise e ->
        e <> Exception ("Cannot expand variable $" ++ "x"))
  /\ (forall env kvs k s,
        (k, PyStr s) ∈ kvs -> startswith s "$" = true ->
        is_ok (replace_vars env (PyDict kvs)) = false)
  /\ (forall env config config',
        replace_vars env config = Ok config' -> config' = config).
Proof.
  split; [ reflexivity | ]. split; [ reflexivity | ].
  split; [ reflexivity | ]. split; [ | split ].
  - intros env config e He name.
    destruct (replace_vars_raises_only env config e He) as [ -> | -> ];
      discriminate.
  - apply replace_vars_reference_fails.
  - apply replace_vars_ok_same.
Qed.

(** C8 (the code departs from the claim). The claim: on a node without a
    ['$']-prefixed string the substitution returns the node unchanged. The
    code: the loop over a list or tuple assigns every string element back
    to its index, which a tuple refuses; the node [{"a": ("b",)}], which
    YAML writes [a: !!python/tuple [b]], holds no reference and raises
    [TypeError]. Without a string directly inside a tuple the claim holds
    ([replace_vars_fixed]). *)
Theorem C8_string_in_tuple_raises_TypeError :
  no_reference (PyDict [("a", PyTuple [PyStr "b"])]) = true
  /\ (forall env,
        replace_vars env (PyDict [("a", PyTuple [PyStr "b"])])
          = Raise (TypeError "'tuple' object does not support item assignment"))
  /\ (forall env,
        _parse_config (H := Example.world) (Some "a: !!python/tuple [b]") env
          = Raise (TypeError "'tuple' object does not support item assignment")).
Proof. repeat split; reflexivity. Qed.

End ConfigClaims.

(** ** Properties of the UDF declaration parser *)

Module UdfFacts.
Import Udf Shape.

Lemma span_split (p : ascii -> bool) (s : string) :
  s = (span p s).1 ++ (span p s).2 /\ all_chars p (span p s).1 = true.
Proof.
  induction s as [ | c s [IHs IHp] ]; simpl; [ now split | ].
  destruct (p c) eqn:Hc; [ | now split ].
  destruct (span p s) as [run tail]; simpl in *.
  split; [ rewrite IHs at 1; reflexivity | now rewrite Hc ].
Qed.

Lemma append_cons (c : ascii) (a b : string) :
  String c a ++ b = String c (a ++ b).
Proof. reflexivity. Qed.

Lemma append_assoc (a b c : string) : (a ++ b) ++ c = a ++ (b ++ c).
Proof.
  induction a as [ | x a IH ]; [ reflexivity | ].
  rewrite !append_cons. now rewrite IH.
Qed.

Lemma startswith_split (s p : string) :
  startswith s p = true -> exists tail, s = p ++ tail.
Proof.
  revert s. induction p as [ | c p IH ]; intros s.
  - intros _. now exists s.
  - destruct s as [ | d s ]; [ discriminate | ]. simpl.
    intros Hp. apply andb_true_iff in Hp as [Hc Hp].
    apply Ascii.eqb_eq in Hc as ->.
    destruct (IH _ Hp) as [tail ->]. now exists tail.
Qed.

(** What a match of [spec_pattern] at the head of [s] reports: a non-empty
    group without closing brace that stands in [s] between two opening and
    two closing braces. *)
Lemma spec_pattern_sound (s group : string) (n : nat) :
  spec_pattern s = Some (group, n) ->
  (exists tail, s = "{{" ++ group ++ "}}" ++ tail)
  /\ group <> ""
  /\ all_chars not_close_brace group = true
  /\ n = (String.length group + 4)%nat.
Proof.
  unfold spec_pattern.
  destruct s as [ | c1 [ | c2 body ] ]; try discriminate.
  - destruct c1 as [[] [] [] [] [] [] [] []]; discriminate.
  - destruct (ascii_dec c1 "{"%char) as [ -> | Hc1 ];
      [ | destruct c1 as [[] [] [] [] [] [] [] []]; try discriminate;
          now contradict Hc1 ].
    destruct (ascii_dec c2 "{"%char) as [ -> | Hc2 ];
      [ | destruct c2 as [[] [] [] [] [] [] [] []]; try discriminate;
          now contradict Hc2 ].
    pose proof (span_split not_close_brace body) as [Hbody Hrun].
    destruct (span not_close_brace body) as [run tail]; simpl in *.
    destruct (String.eqb run "") eqn:Hempty; simpl; [ discriminate | ].
    destruct (startswith tail "}}") eqn:Htail; [ | discriminate ].
    intros [= <- <-]. apply startswith_split in Htail as [rest ->].
    repeat split; try assumption.
    + exists rest. now rewrite Hbody.
    + intros ->. discriminate.
Qed.

Lemma findall_from_step (match_at : string -> option (string * nat))
    (skip : nat) (c : ascii) (text : string) :
  findall_from match_at skip (String c text) =
    match skip with
    | S k => findall_from match_at k text
    | O =>
        match match_at (String c text) with
        | Some (reported, span) =>
            reported :: findall_from match_at (Nat.pred span) text
        | None => findall_from match_at 0 text
        end
    end.
Proof. reflexivity. Qed.

(** Every group that [findall] reports for [spec_pattern] is written in the
    text between double braces. *)
Lemma findall_spec_occurs (text group : string) :
  group ∈ findall spec_pattern text ->
  occurs_in ("{{" ++ group ++ "}}") text
  /\ group <> "" /\ all_chars not_close_brace group = true.
Proof.
  unfold findall. generalize 0%nat as skip.
  induction text as [ | c text IH ]; intros skip.
  - intros Hin. inversion Hin.
  - rewrite findall_from_step.
    assert (Hlater : forall k, group ∈ findall_from spec_pattern k text ->
              occurs_in ("{{" ++ group ++ "}}") (String c text)
              /\ group <> "" /\ all_chars not_close_brace group = true).
    { intros k Hk. destruct (IH k Hk) as ((before & after & ->) & Hne & Hall).
      split; [ | now split ]. now exists (String c before), after. }
    destruct skip as [ | k ]; [ | apply Hlater ].
    destruct (spec_pattern (String c text)) as [ [reported span] | ] eqn:Hm;
      [ | apply Hlater ].
    intros Hin. apply elem_of_cons in Hin as [ -> | Hin ]; [ | eauto ].
    apply spec_pattern_sound in Hm as ((tail & ->) & Hne & Hall & _).
    split; [ | now split ]. exists "", tail.
    change ("" ++ ?x) with x. now rewrite !append_assoc.
Qed.

(** Every token that [findall] reports for [spec_part_pattern] is an
    identifier: a letter or underscore, then letters, digits, underscores. *)
Lemma findall_part_identifier (text token : string) :
  token ∈ findall spec_part_pattern text ->
  exists c rest, token = String c rest /\ part_first c = true
                 /\ all_chars part_next rest = true.
Proof.
  unfold findall. generalize 0%nat as skip.
  induction text as [ | c text IH ]; intros skip.
  - intros Hin. inversion Hin.
  - rewrite findall_from_step.
    destruct skip as [ | k ]; [ | apply IH ].
    unfold spec_part_pattern.
    destruct (part_first c) eqn:Hc; [ | apply IH ].
    intros Hin. apply elem_of_cons in Hin as [ -> | Hin ]; [ | eauto ].
    exists c, (span part_next text).1. repeat split; [ exact Hc | ].
    apply span_split.
Qed.

(** Zipping the even and the odd positions of a list of even length pairs
    its elements consecutively. *)
Lemma pairs_of_even_list (l : list string) :
  Nat.Even (List.length l) ->
  tokens_of (combine (slice_0_2 l) (slice_1_2 l)) = l.
Proof.
  intros [n Hn]. revert l Hn.
  induction n as [ | n IH ]; intros l Hn.
  - destruct l; [ reflexivity | discriminate ].
  - destruct l as [ | a [ | b l ] ]; simpl in Hn; try lia.
    unfold slice_1_2, tokens_of in *. simpl. f_equal. f_equal.
    destruct l as [ | x l' ]; [ reflexivity | ].
    apply (IH (x :: l')). simpl in *. lia.
Qed.

Lemma parity_test (n : nat) :
  negb (Nat.eqb (n mod 2) 0) = true <-> Nat.Odd n.
Proof.
  rewrite negb_true_iff, Nat.eqb_neq, <- Nat.odd_spec.
  rewrite <- Nat.negb_even, negb_true_iff.
  destruct (Nat.even n) eqn:He.
  - apply Nat.even_spec in He as [m ->]. split; [ | discriminate ].
    intros Hm. exfalso. apply Hm.
    now rewrite Nat.mul_comm, Nat.Div0.mod_mul.
  - split; [ reflexivity | ]. intros _ Hm.
    apply Nat.Div0.mod_divides in Hm as [m ->].
    assert (Nat.even (2 * m) = true) by (apply Nat.even_spec; now exists m).
    congruence.
Qed.

Lemma parity_test_even (n : nat) :
  negb (Nat.eqb (n mod 2) 0) = false <-> Nat.Even n.
Proof.
  rewrite negb_false_iff, Nat.eqb_eq. unfold Nat.Even.
  apply Nat.Div0.mod_divides.
Qed.

End UdfFacts.

Module UdfClaims.
Import Udf Shape UdfFacts.

(** C4. For every source text and binding name: with fewer than two
    [{{ ... }}] groups the parser raises the missing-specification error;
    otherwise an odd number of identifier tokens in the first or in the
    second group raises the corresponding malformed-specification error,
    and with even counts the parser returns the UDF whose input fields are
    the tokens of the first group paired consecutively, in order, and whose
    output fields are those of the second group. In particular
    [{{a:int,b:string}}{{c:float}}] bound to [u] has the inputs
    [(a,int); (b,string)] and the outputs [(c,float)]. The cell handler
    gives the parser its body and its non-empty [--module] name, binds the
    name to the UDF and raises what the parser raises. *)
Theorem C4_parse_udf (js name : string) :
  let specs := findall spec_pattern js in
  ((List.length specs < 2)%nat ->
     parse_udf js name = Raise (Exception missing_spec_message))
  /\ (forall first second rest,
        specs = first :: second :: rest ->
        let input_parts := findall spec_part_pattern first in
        let output_parts := findall spec_part_pattern second in
        (Nat.Odd (List.length input_parts) ->
           parse_udf js name = Raise (Exception invalid_input_message))
        /\ (Nat.Even (List.length input_parts) ->
            Nat.Odd (List.length output_parts) ->
              parse_udf js name = Raise (Exception invalid_output_message))
        /\ (Nat.Even (List.length input_parts) ->
            Nat.Even (List.length output_parts) ->
              exists inputs outputs,
                parse_udf js name = Ok (PyUDF inputs outputs name js)
                /\ tokens_of inputs = input_parts
                /\ tokens_of outputs = output_parts))
  /\ parse_udf "{{a:int,b:string}}{{c:float}}" "u"
       = Ok (PyUDF [("a", "int"); ("b", "string")] [("c", "float")] "u"
               "{{a:int,b:string}}{{c:float}}")
  /\ (forall args nb,
        args !! "module" = Some (PyStr name) -> name <> "" ->
        _udf_cell args (Some js) nb =
          match parse_udf js name with
          | Ok udf =>
              (Ok PyNone,
               {| user_ns := <[name := udf]> (user_ns nb);
                  table_cache := table_cache nb; stdout := stdout nb |})
          | Raise e => (Raise e, nb)
          end).
Proof.
  intros specs. split; [ | split; [ | split; [ reflexivity | ] ] ].
  - intros Hfew. unfold parse_udf. fold specs.
    apply Nat.ltb_lt in Hfew. now rewrite Hfew.
  - intros first second rest Hspecs input_parts output_parts.
    unfold parse_udf. fold specs. rewrite Hspecs.
    change (nth 0 (first :: second :: rest) "") with first.
    change (nth 1 (first :: second :: rest) "") with second.
    change (Nat.ltb _ 2) with false. cbv iota.
    fold input_parts output_parts.
    repeat split.
    + intros Hodd. apply parity_test in Hodd. now rewrite Hodd.
    + intros Heven Hodd. apply parity_test_even in Heven.
      apply parity_test in Hodd. now rewrite Heven, Hodd.
    + intros Hin Hout.
      pose proof (pairs_of_even_list _ Hin) as Hi.
      pose proof (pairs_of_even_list _ Hout) as Ho.
      apply parity_test_even in Hin, Hout. rewrite Hin, Hout.
      eexists _, _. split; [ reflexivity | ]. now split.
  - intros args nb Hmodule Hname.
    unfold _udf_cell, mbind, Cmd_bind, lift, getitem. rewrite Hmodule.
    assert (Htruthy : truthy (PyStr name) = true).
    { simpl. apply negb_true_iff. now apply String.eqb_neq. }
    rewrite Htruthy. simpl.
    now destruct (parse_udf js name).
Qed.

End UdfClaims.

(** ** Properties of the page state *)

Module ViewerClaims.
Import Viewer.

Section WithCollaborators.
Context `{Collaborators}.

(** What [_table_viewer] hands to the template for an existing table whose
    first batch is [rows]: the corrected total and the chart chosen for it. *)
Lemma table_viewer_page_state (table fields data : pyval) (rows : list pyval)
    (total_count rows_per_page : Z) :
  table_exists table = Ok true ->
  fields <> PyNone ->
  get_data table fields 0 rows_per_page = Ok (data, total_count) ->
  subscript data "rows" = Ok (PyList rows) ->
  let total :=
    corrected_total total_count (Z.of_nat (List.length rows)) rows_per_page in
  _table_viewer table rows_per_page fields =
    format_table_viewer table (chart total rows_per_page) fields total
      rows_per_page data.
Proof.
  intros Hex Hfields Hdata Hrows total. unfold _table_viewer.
  rewrite Hex. simpl.
  assert (Hf : match fields with
               | PyNone => get_field_list fields table
               | _ => Ok fields
               end = Ok fields) by (destruct fields; congruence).
  rewrite Hf. simpl. rewrite Hdata. simpl.
  destruct (total_count <? 0) eqn:Hneg.
  - rewrite Hrows. reflexivity.
  - simpl. subst total. unfold corrected_total. now rewrite Hneg.
Qed.

End WithCollaborators.

(** C5. A known, non-negative row count hint is the total. When the hint
    is the unknown sentinel (negative) and fewer rows than a page were
    fetched the total becomes the fetched count; otherwise it stays
    unknown. The chart is the single-page ["table"] exactly when
    [0 <= total <= rowsPerPage] and the paged one otherwise. With hint -1,
    3 fetched rows and 25 rows per page the total is 3 on a single page;
    with hint 1000, 25 fetched and 25 per page the chart is paged. *)
Theorem C5_page_state (rowCountHint fetchedRowCount rowsPerPage : Z) :
  let totalRows := corrected_total rowCountHint fetchedRowCount rowsPerPage in
  (0 <= rowCountHint -> totalRows = rowCountHint)
  /\ (rowCountHint < 0 -> fetchedRowCount < rowsPerPage ->
        totalRows = fetchedRowCount)
  /\ (rowCountHint < 0 -> rowsPerPage <= fetchedRowCount ->
        totalRows = rowCountHint /\ totalRows < 0)
  /\ (chart totalRows rowsPerPage = "table" <->
        0 <= totalRows <= rowsPerPage)
  /\ (chart totalRows rowsPerPage = "paged_table" <->
        ~ (0 <= totalRows <= rowsPerPage))
  /\ (corrected_total (-1) 3 25 = 3 /\ chart 3 25 = "table")
  /\ chart (corrected_total 1000 25 25) 25 = "paged_table".
Proof.
  intros totalRows. subst totalRows. unfold corrected_total, chart.
  repeat split; try reflexivity; intros;
    repeat match goal with
           | |- context [ ?a <? ?b ] => destruct (Z.ltb_spec a b)
           | |- context [ ?a <=? ?b ] => destruct (Z.leb_spec a b)
           | H : context [ ?a <? ?b ] |- _ => destruct (Z.ltb_spec a b)
           | H : context [ ?a <=? ?b ] |- _ => destruct (Z.leb_spec a b)
           end; simpl in *; try lia; try discriminate; try reflexivity.
Qed.

End ViewerClaims.

(** ** Properties of the table cache *)

Module CacheFacts.
Import Cache CacheTrace.

Lemma names_remove_name (name : string) (l : list (string * pyval)) :
  (remove_name name l).*1 = filter (fun k => k <> name) l.*1.
Proof.
  induction l as [ | [k v] l IH ]; [ reflexivity | ]. simpl.
  destruct (String.eqb_spec k name) as [ -> | Hne ].
  - rewrite filter_cons_False by (intros Hk; now apply Hk). exact IH.
  - rewrite filter_cons_True by exact Hne. simpl. f_equal. exact IH.
Qed.

Lemma assoc_Some_name (name : string) (l : list (string * pyval)) (v : pyval) :
  assoc name l = Some v -> name ∈ l.*1.
Proof.
  induction l as [ | [k x] l IH ]; simpl; [ discriminate | ].
  destruct (String.eqb_spec k name) as [ -> | Hne ]; intros Hv.
  - now left.
  - right. now apply IH.
Qed.

Lemma assoc_None_name (name : string) (l : list (string * pyval)) :
  assoc name l = None <-> name ∉ l.*1.
Proof.
  induction l as [ | [k x] l IH ]; simpl.
  - split; [ intros _ Hin; inversion Hin | reflexivity ].
  - rewrite not_elem_of_cons.
    destruct (String.eqb_spec k name) as [ -> | Hne ].
    + split; [ discriminate | intros [Hk _]; now contradict Hk ].
    + rewrite IH. split; [ intros Hn; split; [ congruence | exact Hn ] | tauto ].
Qed.

Lemma length_remove_name (name : string) (l : list (string * pyval)) :
  (List.length (remove_name name l) <= List.length l)%nat.
Proof.
  induction l as [ | [k v] l IH ]; simpl; [ lia | ].
  destruct (String.eqb k name); simpl; lia.
Qed.

Lemma remove_name_absent (name : string) (l : list (string * pyval)) :
  name ∉ l.*1 -> remove_name name l = l.
Proof.
  induction l as [ | [k v] l IH ]; simpl; [ reflexivity | ].
  rewrite not_elem_of_cons. intros [Hne Hl].
  destruct (String.eqb_spec k name) as [ -> | _ ]; [ now contradict Hne | ].
  now rewrite IH.
Qed.

Lemma length_remove_name_present (name : string) (l : list (string * pyval)) :
  name ∈ l.*1 -> (List.length (remove_name name l) < List.length l)%nat.
Proof.
  induction l as [ | [k v] l IH ]; simpl; [ intros Hin; inversion Hin | ].
  intros Hin. destruct (String.eqb_spec k name) as [ -> | Hne ].
  - pose proof (length_remove_name name l). lia.
  - apply elem_of_cons in Hin as [ Heq | Hin ]; [ now contradict Hne | ].
    specialize (IH Hin). simpl. lia.
Qed.

Lemma length_removelast {A} (l : list A) :
  List.length (removelast l) = Nat.pred (List.length l).
Proof.
  induction l as [ | x [ | y l ] IH ]; try reflexivity.
  change (List.length (removelast (x :: y :: l)))
    with (S (List.length (removelast (y :: l)))).
  rewrite IH. reflexivity.
Qed.

(** A list with a last element is its [removelast] followed by it. *)
Lemma split_at_last {A} (l : list A) (x : A) :
  last l = Some x -> l = (removelast l ++ [x])%list.
Proof.
  induction l as [ | y [ | z l ] IH ]; [ discriminate | | ].
  - intros [= ->]. reflexivity.
  - intros Hl. change (removelast (y :: z :: l)) with (y :: removelast (z :: l)).
    simpl. f_equal. now apply IH.
Qed.

Lemma last_is_Some {A} (l : list A) :
  l <> [] -> exists x, last l = Some x.
Proof.
  induction l as [ | y [ | z l ] IH ]; [ congruence | eauto | ].
  intros _. destruct IH as [x Hx]; [ discriminate | ]. now exists x.
Qed.

Lemma fmap_removelast {A B} (f : A -> B) (l : list A) :
  f <$> removelast l = removelast (f <$> l).
Proof.
  induction l as [ | y [ | z l ] IH ]; try reflexivity.
  change (removelast (y :: z :: l)) with (y :: removelast (z :: l)).
  rewrite fmap_cons, IH. reflexivity.
Qed.

(** Filtering a sorted list keeps it sorted, also for a relation that
    agrees with the first on the elements kept. *)
Lemma sorted_filter {A} (R R' : A -> A -> Prop) (P : A -> Prop)
    `{forall x, Decision (P x)} (l : list A) :
  StronglySorted R l ->
  (forall a b, a ∈ l -> b ∈ l -> P a -> P b -> R a b -> R' a b) ->
  StronglySorted R' (filter P l).
Proof.
  induction 1 as [ | a l Hsorted IH Hall ]; intros Hagree.
  - constructor.
  - assert (Htail : StronglySorted R' (filter P l)).
    { apply IH. intros x y Hx Hy. apply Hagree; now right. }
    destruct (decide (P a)) as [Ha | Ha].
    + rewrite filter_cons_True by exact Ha. constructor; [ exact Htail | ].
      apply Forall_forall. intros b Hb.
      apply list_elem_of_filter in Hb as [HPb Hb].
      rewrite Forall_forall in Hall.
      apply Hagree; auto; [ now left | now right ].
    + now rewrite filter_cons_False by exact Ha.
Qed.

Lemma ordered_start (n : nat) : ordered (start (LRUCache_new n)).
Proof.
  repeat split; simpl.
  - constructor.
  - intros k Hk. inversion Hk.
  - lia.
Qed.

(** Moving a name to the front and stamping it with the current time keeps
    the list ordered. *)
Lemma touch_ordered (t : traced) (name : string) (handle : pyval) :
  ordered t ->
  let names' := name :: (remove_name name (entries (cache t))).*1 in
  let stamps' := <[name := clock t]> (stamps t) in
  StronglySorted
    (fun a b => (default 0%nat (stamps' !! b) < default 0%nat (stamps' !! a))%nat)
    names'
  /\ (forall k, k ∈ names' -> (default 0%nat (stamps' !! k) < S (clock t))%nat).
Proof.
  intros (Hsorted & Hstamped & _) names' stamps'.
  assert (Hother : forall k, k ∈ (remove_name name (entries (cache t))).*1 ->
            k <> name /\ k ∈ names (cache t)
            /\ default 0%nat (stamps' !! k) = stamp_of t k).
  { intros k Hk. rewrite names_remove_name in Hk.
    apply list_elem_of_filter in Hk as [Hne Hk].
    repeat split; [ exact Hne | exact Hk | ].
    unfold stamps', stamp_of. now rewrite lookup_insert_ne. }
  assert (Hname : default 0%nat (stamps' !! name) = clock t).
  { unfold stamps'. now rewrite lookup_insert_eq. }
  split.
  - constructor.
    + rewrite names_remove_name.
      eapply sorted_filter; [ exact Hsorted | ].
      intros a b Ha Hb Hane Hbne Hab. unfold newer, stamp_of in Hab.
      unfold stamps'. now rewrite !lookup_insert_ne.
    + apply Forall_forall. intros k Hk.
      destruct (Hother k Hk) as (_ & Hin & ->). rewrite Hname.
      now apply Hstamped.
  - intros k Hk. apply elem_of_cons in Hk as [ -> | Hk ].
    + rewrite Hname. lia.
    + destruct (Hother k Hk) as (_ & Hin & ->).
      specialize (Hstamped k Hin). lia.
Qed.

Lemma sorted_removelast {A} (R : A -> A -> Prop) (l : list A) :
  StronglySorted R l -> StronglySorted R (removelast l).
Proof.
  intros Hl. destruct (decide (l = [])) as [ -> | Hne ]; [ constructor | ].
  destruct (last_is_Some l Hne) as [x Hx].
  rewrite (split_at_last l x Hx) in Hl.
  now apply StronglySorted_app_1_l in Hl.
Qed.

Lemma elem_of_removelast {A} (l : list A) (x : A) :
  x ∈ removelast l -> x ∈ l.
Proof.
  intros Hx. destruct (decide (l = [])) as [ -> | Hne ]; [ exact Hx | ].
  destruct (last_is_Some l Hne) as [y Hy].
  rewrite (split_at_last l y Hy). apply elem_of_app. now left.
Qed.

Lemma step_ordered (t : traced) (o : op) :
  ordered t -> ordered (traced_step t o).
Proof.
  intros Ht. pose proof Ht as (Hsorted & Hstamped & Hbound).
  destruct o as [ name | name handle ].
  - (* get *)
    unfold traced_step, ordered, newer, stamp_of, names. simpl.
    unfold get. destruct (assoc name (entries (cache t))) as [ handle | ] eqn:Hfind.
    + simpl. destruct (touch_ordered t name handle Ht) as [Hs Hc].
      repeat split; [ exact Hs | exact Hc | ].
      apply assoc_Some_name in Hfind.
      pose proof (length_remove_name_present _ _ Hfind). simpl. lia.
    + simpl. repeat split; [ exact Hsorted | | exact Hbound ].
      intros k Hk. specialize (Hstamped k Hk). unfold stamp_of in Hstamped. lia.
  - (* put *)
    destruct (touch_ordered t name handle Ht) as [Hs Hc].
    pose proof (length_remove_name name (entries (cache t))) as Hlen.
    set (updated := (name, handle) :: remove_name name (entries (cache t))).
    assert (Hentries : entries (cache (traced_step t (Put name handle))) =
              if Nat.ltb (capacity (cache t)) (List.length updated)
              then removelast updated else updated) by reflexivity.
    unfold ordered, newer, stamp_of, names. rewrite Hentries.
    change (stamps (traced_step t (Put name handle)))
      with (<[name := clock t]> (stamps t)).
    change (clock (traced_step t (Put name handle))) with (S (clock t)).
    change (capacity (cache (traced_step t (Put name handle))))
      with (capacity (cache t)).
    change (name :: (remove_name name (entries (cache t))).*1)
      with (updated.*1) in Hs, Hc.
    destruct (Nat.ltb_spec (capacity (cache t)) (List.length updated))
      as [Hfull | Hroom].
    + rewrite fmap_removelast. repeat split.
      * apply sorted_removelast. exact Hs.
      * intros k Hk. apply Hc. now apply elem_of_removelast.
      * rewrite length_removelast. subst updated. simpl in *. lia.
    + repeat split; [ exact Hs | exact Hc | exact Hroom ].
Qed.

Lemma trace_snoc (ops : list op) (o : op) (c : LRUCache) :
  trace (ops ++ [o]) c = traced_step (trace ops c) o.
Proof. unfold trace. now rewrite foldl_snoc. Qed.

Lemma trace_ordered (ops : list op) (n : nat) :
  ordered (trace ops (LRUCache_new n)).
Proof.
  induction ops as [ | o ops IH ] using rev_ind.
  - apply ordered_start.
  - rewrite trace_snoc. now apply step_ordered.
Qed.

(** The trace runs the cache just as [run] does. *)
Lemma trace_cache (ops : list op) (c : LRUCache) :
  cache (trace ops c) = run ops c.
Proof.
  induction ops as [ | o ops IH ] using rev_ind; [ reflexivity | ].
  rewrite trace_snoc. unfold run. rewrite foldl_snoc. simpl.
  now rewrite IH.
Qed.

Lemma step_capacity (c : LRUCache) (o : op) :
  capacity (step c o) = capacity c.
Proof.
  destruct o as [ name | name handle ]; simpl; [ | reflexivity ].
  unfold get. now destruct (assoc name (entries c)).
Qed.

Lemma run_capacity (ops : list op) (c : LRUCache) :
  capacity (run ops c) = capacity c.
Proof.
  induction ops as [ | o ops IH ] using rev_ind; [ reflexivity | ].
  unfold run in *. rewrite foldl_snoc, step_capacity. exact IH.
Qed.

(** An ordered list has no name twice. *)
Lemma ordered_NoDup (t : traced) : ordered t -> NoDup (names (cache t)).
Proof.
  intros (Hsorted & _ & _).
  induction Hsorted as [ | a l Hl IH Hall ]; constructor; [ | exact IH ].
  intros Hin. rewrite Forall_forall in Hall. specialize (Hall a Hin).
  unfold newer in Hall. lia.
Qed.

(** In an ordered list the last name is older than every other one. *)
Lemma ordered_last_oldest (t : traced) (victim k : string) :
  ordered t -> last (names (cache t)) = Some victim ->
  k ∈ names (cache t) -> k <> victim -> newer t k victim.
Proof.
  intros (Hsorted & _ & _) Hlast Hk Hne.
  rewrite (split_at_last _ _ Hlast) in Hsorted, Hk.
  apply elem_of_app in Hk as [ Hk | Hk ].
  - eapply StronglySorted_app_1_elem_of; [ exact Hsorted | exact Hk | ].
    now left.
  - apply list_elem_of_singleton in Hk. contradiction.
Qed.

Lemma put_entries (name : string) (handle : pyval) (c : LRUCache) :
  entries (put name handle c) =
    if Nat.ltb (capacity c)
         (List.length ((name, handle) :: remove_name name (entries c)))
    then removelast ((name, handle) :: remove_name name (entries c))
    else (name, handle) :: remove_name name (entries c).
Proof. reflexivity. Qed.

Lemma names_step (c : LRUCache) (o : op) (k : string) :
  k ∈ names (step c o) -> touches c o = Some k \/ k ∈ names c.
Proof.
  destruct o as [ name | name handle ]; unfold names.
  - simpl. unfold get. destruct (assoc name (entries c)) as [ handle | ];
      [ | now right ].
    change (entries (Some handle, _).2)
      with ((name, handle) :: remove_name name (entries c)).
    rewrite fmap_cons, elem_of_cons, names_remove_name.
    intros [ -> | Hk ]; [ now left | right ].
    now apply list_elem_of_filter in Hk as [_ Hk].
  - change (step c (Put name handle)) with (put name handle c).
    rewrite put_entries.
    set (updated := (name, handle) :: remove_name name (entries c)).
    assert (Hsub : k ∈ updated.*1 ->
              touches c (Put name handle) = Some k \/ k ∈ (entries c).*1).
    { unfold updated. rewrite fmap_cons, elem_of_cons, names_remove_name.
      intros [ -> | Hk ]; [ now left | right ].
      now apply list_elem_of_filter in Hk as [_ Hk]. }
    destruct (Nat.ltb (capacity c) (List.length updated)); [ | exact Hsub ].
    rewrite fmap_removelast. intros Hk. apply Hsub.
    now apply elem_of_removelast.
Qed.

(** What the put of a new name into a full cache leaves: the new name in
    front of the old list without its last entry. *)
Lemma put_full (c : LRUCache) (name : string) (handle : pyval) :
  name ∉ names c -> entries c <> [] ->
  List.length (entries c) = capacity c ->
  names (put name handle c) = name :: removelast (names c).
Proof.
  intros Hfresh Hne Hfull. unfold names. rewrite put_entries.
  rewrite (remove_name_absent _ _ Hfresh).
  assert (Hlt : Nat.ltb (capacity c)
                  (List.length ((name, handle) :: entries c)) = true)
    by (apply Nat.ltb_lt; simpl; lia).
  rewrite Hlt. rewrite fmap_removelast.
  destruct (entries c) as [ | e l ]; [ congruence | reflexivity ].
Qed.

Lemma get_hit_entries (c : LRUCache) (k : string) :
  k ∈ names c ->
  exists handle,
    entries (get k c).2 = (k, handle) :: remove_name k (entries c).
Proof.
  intros Hk. unfold get.
  destruct (assoc k (entries c)) as [ handle | ] eqn:Hfind.
  - now exists handle.
  - apply assoc_None_name in Hfind. contradiction.
Qed.

Lemma removelast_keeps_second {A} (a b : A) (l : list A) :
  l <> [] -> b ∈ removelast (a :: b :: l).
Proof.
  intros Hl. destruct l as [ | x l ]; [ congruence | ].
  change (removelast (a :: b :: x :: l)) with (a :: b :: removelast (x :: l)).
  right. now left.
Qed.

Lemma put_front (c : LRUCache) (name : string) (handle : pyval) :
  (0 < capacity c)%nat ->
  exists rest, entries (put name handle c) = (name, handle) :: rest.
Proof.
  intros Hcap. rewrite put_entries.
  destruct (Nat.ltb_spec (capacity c)
              (List.length ((name, handle) :: remove_name name (entries c))))
    as [Hover | _]; [ | eauto ].
  destruct (remove_name name (entries c)) as [ | x l ];
    [ simpl in Hover; lia | ].
  now exists (removelast (x :: l)).
Qed.

Lemma assoc_head (name : string) (handle : pyval)
    (rest : list (string * pyval)) :
  assoc name ((name, handle) :: rest) = Some handle.
Proof. simpl. now rewrite String.eqb_refl. Qed.

Lemma get_after_put (c : LRUCache) (name : string) (handle : pyval) :
  (0 < capacity c)%nat -> (get name (put name handle c)).1 = Some handle.
Proof.
  intros Hcap. destruct (put_front c name handle Hcap) as [rest Hrest].
  unfold get. now rewrite Hrest, assoc_head.
Qed.

Lemma get_answer (c : LRUCache) (k : string) :
  (get k c).1 = assoc k (entries c).
Proof. unfold get. now destruct (assoc k (entries c)). Qed.

Lemma get_names (c : LRUCache) (k k' : string) :
  k' ∈ names (get k c).2 <-> k' ∈ names c.
Proof.
  unfold get, names. destruct (assoc k (entries c)) eqn:Hfind;
    [ | reflexivity ].
  cbn [snd entries]. rewrite fmap_cons. cbn [fst].
  rewrite elem_of_cons, names_remove_name, list_elem_of_filter. split.
  - intros [ -> | [_ Hk] ]; [ eapply assoc_Some_name; eauto | exact Hk ].
  - intros Hk. destruct (decide (k' = k)); [ now left | now right ].
Qed.

Lemma put_fresh_entries (c : LRUCache) (name : string) (handle : pyval) :
  (List.length (entries c) <= capacity c)%nat -> name ∉ names c ->
  entries (put name handle c)
    = take (capacity c) ((name, handle) :: entries c).
Proof.
  intros Hlen Hfresh. rewrite put_entries, (remove_name_absent _ _ Hfresh).
  destruct (Nat.ltb_spec (capacity c)
              (List.length ((name, handle) :: entries c))) as [Hover | Hroom].
  - rewrite removelast_firstn_len. f_equal. simpl in *. lia.
  - symmetry. now apply take_ge.
Qed.

Lemma run_snoc (ops : list op) (o : op) (c : LRUCache) :
  run (ops ++ [o]) c = step (run ops c) o.
Proof. unfold run. now rewrite foldl_snoc. Qed.

(** Putting names that are new and distinct, one after the other: they go
    in front, the latest first, and what exceeds the capacity falls off the
    end. *)
Lemma puts_fresh_entries (kvs : list (string * pyval)) (c : LRUCache) :
  (List.length (entries c) <= capacity c)%nat -> NoDup kvs.*1 ->
  (forall k, k ∈ kvs.*1 -> k ∉ names c) ->
  entries (run (puts kvs) c) = take (capacity c) (reverse kvs ++ entries c).
Proof.
  intros Hlen. induction kvs as [ | kv kvs IH ] using rev_ind;
    intros Hnodup Hfresh.
  - symmetry. now apply take_ge.
  - rewrite fmap_app in Hnodup, Hfresh.
    apply NoDup_app in Hnodup as (Hnd & Hdisj & _).
    assert (IH' : entries (run (puts kvs) c)
                  = take (capacity c) (reverse kvs ++ entries c)).
    { apply IH; [ exact Hnd | ]. intros k Hk. apply Hfresh.
      apply elem_of_app. now left. }
    unfold puts. rewrite fmap_app. fold (puts kvs).
    change ((fun kv0 : string * pyval => Put kv0.1 kv0.2) <$> [kv])
      with [Put kv.1 kv.2].
    rewrite run_snoc. cbn [step].
    rewrite put_fresh_entries.
    + rewrite run_capacity, IH', reverse_snoc.
      destruct kv as [k v]. cbn [fst snd].
      destruct (capacity c) as [ | n ]; [ reflexivity | ].
      change (((k, v) :: reverse kvs) ++ entries c)%list
        with ((k, v) :: (reverse kvs ++ entries c))%list.
      change (take (S n) ((k, v) :: take (S n) (reverse kvs ++ entries c)))
        with ((k, v) :: take n (take (S n) (reverse kvs ++ entries c))).
      change (take (S n) ((k, v) :: (reverse kvs ++ entries c)))
        with ((k, v) :: take n (reverse kvs ++ entries c)).
      rewrite take_take. do 2 f_equal. lia.
    + rewrite run_capacity, IH', length_take. lia.
    + unfold names. rewrite IH'. intros Hin.
      rewrite fmap_take in Hin. apply (subseteq_take (capacity c)) in Hin.
      rewrite fmap_app, elem_of_app, fmap_reverse, elem_of_reverse in Hin.
      destruct Hin as [Hin | Hin].
      * apply (Hdisj _ Hin). simpl. now left.
      * revert Hin. apply Hfresh. apply elem_of_app. right. simpl. now left.
Qed.

Lemma length_remove_name_NoDup (name : string) (l : list (string * pyval)) :
  NoDup l.*1 -> name ∈ l.*1 ->
  S (List.length (remove_name name l)) = List.length l.
Proof.
  induction l as [ | [k v] l IH ]; simpl; [ intros _ Hin; inversion Hin | ].
  intros Hnodup Hin. apply NoDup_cons in Hnodup as [Hk Hnodup].
  destruct (String.eqb_spec k name) as [ -> | Hne ].
  - now rewrite (remove_name_absent _ _ Hk).
  - simpl. f_equal. apply IH; [ exact Hnodup | ].
    apply elem_of_cons in Hin as [ | ]; [ congruence | assumption ].
Qed.

(** A name that was just got is still cached after the put of another
    name, in a cache of capacity two or more. *)
Lemma get_protects (c : LRUCache) (k name : string) (handle : pyval) :
  (2 <= capacity c)%nat -> k ∈ names c -> name <> k ->
  k ∈ names (put name handle (get k c).2).
Proof.
  intros Hcap Hk Hne.
  destruct (get_hit_entries c k Hk) as [h Hget].
  unfold names. rewrite put_entries, Hget.
  assert (Hupd : remove_name name ((k, h) :: remove_name k (entries c))
                 = (k, h) :: remove_name name (remove_name k (entries c))).
  { simpl. destruct (String.eqb_spec k name); [ congruence | reflexivity ]. }
  rewrite Hupd.
  set (rest := remove_name name (remove_name k (entries c))).
  destruct (Nat.ltb_spec (capacity (get k c).2)
              (List.length ((name, handle) :: (k, h) :: rest)))
    as [Hover | Hroom].
  - rewrite fmap_removelast. simpl.
    apply removelast_keeps_second.
    assert (Hc : capacity (get k c).2 = capacity c).
    { change (get k c).2 with (step c (Get k)). apply step_capacity. }
    rewrite Hc in Hover. simpl in Hover.
    destruct rest; [ simpl in Hover; lia | discriminate ].
  - simpl. right. now left.
Qed.

(** Ten distinct names are put into the empty table cache, one of them is
    got, and a further name is put: the new name and the name that was got
    lead the cache, and of the eight others the least recently put one has
    left. *)
Lemma put_after_get_full (kvs : list (string * pyval)) (k name : string)
    (handle : pyval) :
  NoDup kvs.*1 -> List.length kvs = 10%nat -> k ∈ kvs.*1 -> name ∉ kvs.*1 ->
  names (run (puts kvs ++ [Get k; Put name handle]) _table_cache)
    = name :: k :: take 8 (filter (fun x => x <> k) (reverse kvs.*1)).
Proof.
  intros Hnodup Hlen Hk Hname.
  assert (Hfilled : entries (run (puts kvs) _table_cache) = reverse kvs).
  { rewrite puts_fresh_entries; [ | simpl; lia | exact Hnodup | ].
    - change (entries _table_cache) with (@nil (string * pyval)).
      rewrite app_nil_r. apply take_ge. rewrite length_reverse.
      change (capacity _table_cache) with 10%nat. lia.
    - intros x _ Hx. inversion Hx. }
  unfold run. rewrite foldl_app. fold (run (puts kvs) _table_cache).
  set (c0 := run (puts kvs) _table_cache) in *.
  change (foldl step c0 [Get k; Put name handle])
    with (put name handle (get k c0).2).
  assert (Hcap : capacity c0 = 10%nat) by apply (run_capacity (puts kvs)).
  assert (Hk0 : k ∈ names c0).
  { unfold names. rewrite Hfilled, fmap_reverse. now apply elem_of_reverse. }
  assert (Hnd0 : NoDup (entries c0).*1).
  { rewrite Hfilled, fmap_reverse. now rewrite reverse_Permutation. }
  destruct (get_hit_entries c0 k Hk0) as [h Hget].
  assert (Hcap1 : capacity (get k c0).2 = 10%nat).
  { change (get k c0).2 with (step c0 (Get k)).
    now rewrite step_capacity. }
  pose proof (length_remove_name_NoDup k (entries c0) Hnd0 Hk0) as Hlen0.
  rewrite Hfilled, length_reverse, Hlen in Hlen0.
  unfold names. rewrite put_fresh_entries.
  - rewrite Hcap1, Hget, Hfilled, fmap_take.
    rewrite !fmap_cons, names_remove_name, fmap_reverse. reflexivity.
  - rewrite Hcap1, Hget, Hfilled. simpl. lia.
  - intros Hin. apply get_names in Hin. unfold names in Hin.
    rewrite Hfilled, fmap_reverse, elem_of_reverse in Hin. contradiction.
Qed.

(** Eleven tables are looked up one after the other: the first one has
    left the cache, the ten others are there, the latest first. *)
Lemma eleven_tables :
  names (run (puts ((fun name => (name, PyObj ClsTable 0)) <$>
                      ["t0"; "t1"; "t2"; "t3"; "t4"; "t5"; "t6"; "t7"; "t8";
                       "t9"; "t10"]))
           _table_cache)
    = ["t10"; "t9"; "t8"; "t7"; "t6"; "t5"; "t4"; "t3"; "t2"; "t1"].
Proof. reflexivity. Qed.

End CacheFacts.

Module CacheClaims.
Import Cache CacheTrace CacheFacts Commands.

(** Whatever [_get_table] does to the table cache is at most one get or
    put, so the properties of all operation sequences hold for the cache
    of the notebook. *)
Lemma get_table_cache_ops `{Collaborators} (name : string) (nb : Notebook) :
  exists ops, table_cache (_get_table name nb).2 = run ops (table_cache nb).
Proof.
  unfold _get_table, _get_notebook_item, _notebook_environment, mbind,
    Cmd_bind, mret, Cmd_ret, try_except_KeyError, cache_getitem,
    cache_setitem, lift.
  destruct (isinstance _ ClsTable); [ now exists [] | ].
  unfold get. destruct (assoc name (entries (table_cache nb))) eqn:Hfind.
  - exists [Get name]. unfold run. simpl. unfold get. now rewrite Hfind.
  - simpl. destruct (Table_new (PyStr name)) as [ table | e ];
      [ | now exists [] ].
    destruct (table_exists table) as [ [ | ] | e ]; simpl;
      [ now exists [Put name table] | now exists [] | now exists [] ].
Qed.

(** C6. Run any sequence of gets and puts on the table cache, of capacity
    10, and keep the time of the last touch of every name beside it. The
    cache never holds more than 10 entries and no name twice. When
    it holds 10 and a further, distinct name is put, exactly one entry
    leaves, the last of the list, which was touched before every other
    cached name; the new name and the nine others stay. Every put and
    every get that hits stamps its name with the current time, which makes
    it newer than every other cached name; hence a name that was just got
    is still cached after the next put of another name.

    A put does store: its name leads the cache afterwards and a get of it
    answers the handle that was put; a get answers what is stored and
    neither adds nor removes a name. Putting names that are new and
    distinct places them in front, the latest first, and keeps the first 10
    of the list. So after 11 distinct names were put into the empty cache,
    the first one has left and the ten others are cached; and after 10
    distinct names, a get of one of them and the put of an 11th, the name
    that was got is cached behind the new one and the least recently put of
    the others has left. *)
Theorem C6_lru_cache (ops : list op) :
  let t := trace ops _table_cache in
  let c := run ops _table_cache in
  cache t = c
  /\ capacity c = 10%nat
  /\ (List.length (entries c) <= 10)%nat
  /\ NoDup (names c)
  /\ (forall name handle,
        List.length (entries c) = 10%nat -> name ∉ names c ->
        exists victim,
          least_recent c = Some victim
          /\ (forall k, k ∈ names c -> k <> victim -> newer t k victim)
          /\ (forall k, k ∈ names (put name handle c) <->
                        k = name \/ (k ∈ names c /\ k <> victim)))
  /\ (forall o name,
        touches c o = Some name ->
        stamp_of (traced_step t o) name = clock t
        /\ (forall k, k ∈ names (step c o) -> k <> name ->
                      newer (traced_step t o) name k))
  /\ (forall k name handle,
        k ∈ names c -> name <> k ->
        k ∈ names (put name handle (get k c).2))
  /\ (forall name handle,
        (exists rest, entries (put name handle c) = (name, handle) :: rest)
        /\ (get name (put name handle c)).1 = Some handle
        /\ forall other handle',
             other <> name ->
             name ∈ names (put other handle' (get name (put name handle c)).2))
  /\ (forall k,
        (get k c).1 = assoc k (entries c)
        /\ ((get k c).1 = None <-> k ∉ names c)
        /\ forall k', k' ∈ names (get k c).2 <-> k' ∈ names c)
  /\ (forall kvs,
        NoDup kvs.*1 -> (forall k, k ∈ kvs.*1 -> k ∉ names c) ->
        entries (run (puts kvs) c) = take 10 (reverse kvs ++ entries c))
  /\ (forall first rest,
        NoDup (first :: rest).*1 -> List.length rest = 10%nat ->
        entries (run (puts (first :: rest)) _table_cache) = reverse rest)
  /\ (forall kvs k name handle,
        NoDup kvs.*1 -> List.length kvs = 10%nat ->
        k ∈ kvs.*1 -> name ∉ kvs.*1 ->
        names (run (puts kvs ++ [Get k; Put name handle]) _table_cache)
          = name :: k :: take 8 (filter (fun x => x <> k) (reverse kvs.*1))).
Proof.
  intros t c.
  pose proof (trace_ordered ops 10) as Hord.
  pose proof (trace_cache ops _table_cache) as Hcache.
  fold t in Hcache. fold c in Hcache.
  change (trace ops (LRUCache_new 10)) with t in Hord.
  pose proof (run_capacity ops _table_cache) as Hcap. fold c in Hcap.
  change (capacity _table_cache) with 10%nat in Hcap.
  pose proof (ordered_NoDup t Hord) as Hnodup.
  pose proof Hord as (Hsorted & Hstamped & Hbound).
  rewrite Hcache in Hsorted, Hstamped, Hbound, Hnodup. rewrite Hcap in Hbound.
  split; [ exact Hcache | ].
  split; [ exact Hcap | ]. split; [ exact Hbound | ].
  split; [ exact Hnodup | ].
  refine (conj _ (conj _ (conj _ (conj _ (conj _ (conj _ (conj _ _))))))).
  - (* eviction *)
    intros name handle Hfull Hfresh.
    assert (Hne : entries c <> []) by (intros E; rewrite E in Hfull; discriminate).
    assert (Hnames : names c <> []).
    { unfold names. destruct (entries c); [ congruence | discriminate ]. }
    destruct (last_is_Some _ Hnames) as [victim Hvictim].
    exists victim. split; [ exact Hvictim | ]. split.
    + intros k Hk Hkv. eapply ordered_last_oldest; eauto;
        now rewrite Hcache.
    + intros k. rewrite put_full by (auto; lia).
      pose proof (split_at_last _ _ Hvictim) as Hsplit.
      rewrite elem_of_cons.
      assert (Hrest : k ∈ removelast (names c) <-> k ∈ names c /\ k <> victim).
      { rewrite Hsplit in Hnodup. apply NoDup_app in Hnodup as (_ & Hdisj & _).
        rewrite Hsplit at 2. rewrite elem_of_app, list_elem_of_singleton.
        split.
        - intros Hk. split; [ now left | ]. intros ->.
          apply (Hdisj victim Hk). now left.
        - intros [[Hk | Hk] Hkv]; [ exact Hk | contradiction ]. }
      now rewrite Hrest.
  - (* touches *)
    intros o name Htouch.
    assert (Hstamp : stamp_of (traced_step t o) name = clock t).
    { unfold stamp_of, traced_step. simpl. rewrite Hcache, Htouch.
      now rewrite lookup_insert_eq. }
    split; [ exact Hstamp | ].
    intros k Hk Hkn. unfold newer. rewrite Hstamp.
    apply names_step in Hk as [ Hk | Hk ]; [ congruence | ].
    specialize (Hstamped k Hk).
    unfold stamp_of, traced_step in *. simpl. rewrite Hcache, Htouch.
    now rewrite lookup_insert_ne by congruence.
  - (* a get protects its name *)
    intros k name handle Hk Hne. apply get_protects; [ lia | exact Hk | exact Hne ].
  - (* a put stores *)
    intros name handle.
    assert (Hpos : (0 < capacity c)%nat) by lia.
    destruct (put_front c name handle Hpos) as [rest Hrest].
    split; [ now exists rest | ].
    split; [ now apply get_after_put | ].
    intros other handle' Hother. apply get_protects.
    + change (put name handle c) with (step c (Put name handle)).
      rewrite step_capacity. lia.
    + unfold names. rewrite Hrest. now left.
    + exact Hother.
  - (* a get reads *)
    intros k. split; [ apply get_answer | ].
    split; [ rewrite get_answer; apply assoc_None_name | ].
    intros k'. apply get_names.
  - (* fresh names go in front *)
    intros kvs Hnd Hfresh. rewrite <- Hcap.
    apply puts_fresh_entries; [ lia | exact Hnd | exact Hfresh ].
  - (* eleven puts *)
    intros first rest Hnd Hlen.
    rewrite puts_fresh_entries; [ | simpl; lia | exact Hnd | ].
    + change (entries _table_cache) with (@nil (string * pyval)).
      change (capacity _table_cache) with 10%nat.
      rewrite app_nil_r, take_reverse. f_equal.
      simpl. rewrite Hlen. reflexivity.
    + intros x _ Hx. inversion Hx.
  - (* ten puts, a get, a put *)
    intros kvs k name handle. apply put_after_get_full.
Qed.

End CacheClaims.

(** ** Properties of the commands *)

Module CommandFacts.
Import Commands Shape Effects.

Lemma strip_empty : strip "" = "".
Proof. reflexivity. Qed.

(** The white space of a [unicode] text below U+0100: next to the blanks
    of ASCII, the separators U+001C to U+001F, U+0085 and U+00A0 are
    trimmed; their neighbours are not. *)
Lemma strip_unicode_space :
  Forall (fun n => strip (String (ascii_of_nat n) " ") = "")
    [9; 10; 11; 12; 13; 28; 29; 30; 31; 32; 133; 160]%nat
  /\ Forall (fun n => strip (String (ascii_of_nat n) " ") <> "")
       [0; 8; 14; 27; 33; 127; 132; 134; 159; 161; 255]%nat.
Proof. split; repeat constructor; discriminate. Qed.

(** A cell that holds a unit separator only has no content. *)
Lemma unit_separator_is_no_content :
  has_content (Some (String (ascii_of_nat 31) "")) = false.
Proof. reflexivity. Qed.

Lemma length_zero (s : string) : String.length s = 0%nat <-> s = "".
Proof. destruct s; split; intros; [ easy | easy | discriminate | discriminate ]. Qed.

Lemma has_content_spec (cell : option string) :
  has_content cell = true <-> exists text, cell = Some text /\ strip text <> "".
Proof.
  destruct cell as [ text | ]; simpl.
  - rewrite andb_true_iff, !negb_true_iff, Nat.eqb_neq, length_zero.
    split.
    + intros [_ Hs]. now exists text.
    + intros (t & [= <-] & Hs). split; [ | exact Hs ].
      destruct (String.eqb_spec text "") as [ -> | ]; [ | reflexivity ].
      now contradict Hs.
  - split; [ discriminate | intros (t & Ht & _); discriminate ].
Qed.

Lemma no_cell_spec (cell : option string) :
  no_cell cell = true <-> cell = None \/ cell = Some "".
Proof.
  destruct cell as [ text | ]; simpl.
  - rewrite String.eqb_eq. split; [ intros ->; now right | ].
    intros [ | [= ->] ]; [ discriminate | reflexivity ].
  - split; [ now left | reflexivity ].
Qed.

Section WithCollaborators.
Context `{Collaborators}.

Lemma bind_Ok_inv {A B} (m : Cmd A) (k : A -> Cmd B) (nb nb' : Notebook)
    (r : B) :
  (m ≫= k) nb = (Ok r, nb') ->
  exists a nb1, m nb = (Ok a, nb1) /\ k a nb1 = (Ok r, nb').
Proof.
  unfold mbind, Cmd_bind. destruct (m nb) as [[ a | e ] nb1]; [ eauto | ].
  discriminate.
Qed.

Lemma lift_Ok_inv {A} (x : result A) (nb nb' : Notebook) (a : A) :
  lift x nb = (Ok a, nb') -> x = Ok a /\ nb' = nb.
Proof. unfold lift. now intros [= -> ->]. Qed.

Lemma ret_Ok_inv {A} (x a : A) (nb nb' : Notebook) :
  (mret x : Cmd A) nb = (Ok a, nb') -> a = x /\ nb' = nb.
Proof. unfold mret, Cmd_ret. now intros [= -> ->]. Qed.

Lemma getitem_Some (d : gmap string pyval) (key : string) (v : pyval) :
  d !! key = Some v -> getitem d key = Ok v.
Proof. unfold getitem. now intros ->. Qed.

Lemma bind_environment {B} (k : gmap string pyval -> Cmd B)
    (nb : Notebook) :
  (_notebook_environment ≫= k) nb = k (user_ns nb) nb.
Proof. reflexivity. Qed.

Lemma bind_lift_Ok {A B} (a : A) (k : A -> Cmd B) (nb : Notebook) :
  (lift (Ok a) ≫= k) nb = k a nb.
Proof. reflexivity. Qed.

Lemma bind_lift_Raise {A B} (e : exn) (k : A -> Cmd B) (nb : Notebook) :
  (lift (Raise e : result A) ≫= k) nb = (Raise e, nb).
Proof. reflexivity. Qed.

Lemma bind_run {A B} (m : Cmd A) (k : A -> Cmd B) (nb nb1 : Notebook)
    (a : A) :
  m nb = (Ok a, nb1) -> (m ≫= k) nb = k a nb1.
Proof. intros Hm. unfold mbind, Cmd_bind. now rewrite Hm. Qed.

(** The resolver returns a bound query whatever the configuration. *)
Lemma get_query_argument_bound (args : gmap string pyval) (name config : pyval)
    (env : environment) (nb : Notebook) :
  args !! "sql" = Some name ->
  isinstance (get_item (user_ns nb) name) ClsQuery = true ->
  _get_query_argument args config env nb
    = (Ok (get_item (user_ns nb) name), nb).
Proof.
  intros Hsql Hquery.
  unfold _get_query_argument, _get_notebook_item, _notebook_environment,
    mbind, Cmd_bind, mret, Cmd_ret, lift.
  rewrite (getitem_Some _ _ _ Hsql). now rewrite Hquery.
Qed.

(** The extract command returns the report of the job that the warehouse
    returned. *)
Lemma extract_reports (args : gmap string pyval) (key : string)
    (nb : Notebook) (source : pyval) (nb1 : Notebook)
    (destination format compress delimiter header : pyval) (job : Job) :
  args !! "source" = Some (PyStr key) ->
  source_found key nb source nb1 ->
  (isinstance source ClsTable = true -> table_exists source = Ok true) ->
  args !! "destination" = Some destination ->
  args !! "format" = Some format ->
  args !! "compress" = Some compress ->
  args !! "delimiter" = Some delimiter ->
  args !! "header" = Some header ->
  source_extract source destination (format_name format) compress
    delimiter header = Ok job ->
  _extract_line args nb = (Ok (job_report "Extract" job), nb1).
Proof.
  intros Hsource Hfound Hexists Hdest Hformat Hcompress Hdelim Hheader Hjob.
  unfold source_found in Hfound. cbv zeta in Hfound.
  assert (Htruthy : truthy source = true).
  { destruct Hfound as [ (-> & Ht & _) | (_ & _ & Ht) ]; exact Ht. }
  assert (Hresolved :
            (if negb (truthy (get_item (user_ns nb) (PyStr key)))
             then key' ← lift (name_of (PyStr key)); _get_table key'
             else mret (get_item (user_ns nb) (PyStr key))) nb
            = (Ok source, nb1)).
  { destruct Hfound as [ (-> & Hitem & ->) | (Hitem & Hlookup & _) ].
    - now rewrite Hitem.
    - rewrite Hitem. cbn [negb name_of]. now rewrite bind_lift_Ok. }
  assert (Hmissing :
            (if isinstance source ClsTable
             then e ← table_exists source; Ok (negb e)
             else Ok false) = Ok false).
  { destruct (isinstance source ClsTable); [ | reflexivity ].
    now rewrite Hexists. }
  unfold _extract_line.
  rewrite (getitem_Some _ _ _ Hsource), bind_lift_Ok.
  rewrite (bind_run (_get_notebook_item (PyStr key)) _ nb nb _ eq_refl).
  rewrite (bind_run _ _ nb nb1 source Hresolved).
  rewrite Htruthy. cbn [negb]. cbv iota.
  rewrite Hmissing, bind_lift_Ok. cbv iota.
  rewrite (getitem_Some _ _ _ Hdest), bind_lift_Ok.
  rewrite (getitem_Some _ _ _ Hformat), bind_lift_Ok.
  rewrite (getitem_Some _ _ _ Hcompress), bind_lift_Ok.
  rewrite (getitem_Some _ _ _ Hdelim), bind_lift_Ok.
  rewrite (getitem_Some _ _ _ Hheader), bind_lift_Ok.
  now rewrite Hjob, bind_lift_Ok.
Qed.

(** The load command returns the report of the job that the warehouse
    returned. *)
Lemma load_reports (args : gmap string pyval) (schema : option string)
    (key : string) (found table : pyval) (nb nb1 : Notebook) (job : Job) :
  args !! "table" = Some (PyStr key) ->
  _get_table key nb = (Ok found, nb1) ->
  (if truthy found then Ok found else Table_new (PyStr key)) = Ok table ->
  load_goes_ahead args schema table ->
  load_job args table = Ok job ->
  _load_cell args schema nb = (Ok (job_report "Load" job), nb1).
Proof.
  intros Hname Hlookup Htable Hahead Hjob.
  assert (Hresolved :
            (if negb (truthy found) then lift (Table_new (PyStr key))
             else mret found) nb1 = (Ok table, nb1)).
  { destruct (truthy found); simpl.
    - now injection Htable as ->.
    - unfold lift. now rewrite Htable. }
  unfold _load_cell. cbv zeta.
  rewrite (getitem_Some _ _ _ Hname), bind_lift_Ok.
  cbn [name_of]. rewrite bind_lift_Ok.
  rewrite (bind_run _ _ nb nb1 found Hlookup).
  rewrite (bind_run _ _ nb1 nb1 table Hresolved).
  destruct Hahead as [ (mode & Hexists & Hmode & Hcreate)
                     | [ (Hexists & text & parsed & -> & Htext & Hparsed
                          & Hcreated)
                       | (Hexists & Hschema & infer & Hinfer & Hset) ] ];
    rewrite Hexists, bind_lift_Ok; cbv iota.
  - rewrite (getitem_Some _ _ _ Hmode), bind_lift_Ok, Hcreate.
    now rewrite Hjob, bind_lift_Ok.
  - apply String.eqb_neq in Htext. rewrite Htext. cbn [negb].
    rewrite Hparsed, bind_lift_Ok, Hcreated, bind_lift_Ok.
    now rewrite Hjob, bind_lift_Ok.
  - assert (Hwithout :
              (infer' ← lift (getitem args "infer");
               if negb (truthy infer') then mret (PyStr cannot_load_message)
               else job' ← lift (load_job args table);
                    mret (job_report "Load" job')) nb1
              = (Ok (job_report "Load" job), nb1)).
    { rewrite (getitem_Some _ _ _ Hinfer), bind_lift_Ok, Hset. cbn [negb].
      now rewrite Hjob, bind_lift_Ok. }
    destruct schema as [ text | ]; [ | exact Hwithout ].
    simpl in Hschema. rewrite Hschema. exact Hwithout.
Qed.

(** The environment of a pipeline: the bindings that are function calls. *)
Lemma function_calls_lookup (ns : gmap string pyval) (k : string) (v : pyval) :
  function_calls ns !! k = Some v <->
  ns !! k = Some v /\ isinstance v ClsFunctionCall = true.
Proof. unfold function_calls. apply map_lookup_filter_Some. Qed.

(** A binding of another kind is not in the pipeline's environment. *)
Lemma function_calls_hides (ns : gmap string pyval) (k : string) (v : pyval) :
  ns !! k = Some v -> isinstance v ClsFunctionCall = false ->
  function_calls ns !! k = None.
Proof.
  intros Hk Hv. destruct (function_calls ns !! k) as [ w | ] eqn:Hw;
    [ | reflexivity ].
  apply function_calls_lookup in Hw as [Hw Hcall]. congruence.
Qed.

(** The environment that the pipeline passes to the configuration parser
    and to the resolver. *)
Lemma pipeline_environment (args : gmap string pyval) (action : pyval)
    (body : option string) (nb : Notebook) :
  args !! "action" = Some action -> eq_str action "deploy" = false ->
  _pipeline_cell args body nb =
    (config ← lift (Config._parse_config body (function_calls (user_ns nb)));
     query ← _get_query_argument args config
               (Local (function_calls (user_ns nb)));
     if eq_str action "dryrun" then
       sql ← lift (query_sql query);
       _ ← print sql;
       lift (query_dry_run_stats query)
     else if eq_str action "run" then lift (execute_with args query)
     else mret PyNone) nb.
Proof.
  intros Haction Hdeploy. unfold _pipeline_cell.
  unfold mbind at 1. unfold Cmd_bind at 1. unfold lift at 1.
  rewrite (getitem_Some _ _ _ Haction), Hdeploy. reflexivity.
Qed.

End WithCollaborators.
End CommandFacts.

Module CommandClaims.
Import Commands Shape Effects CommandFacts Example.

(** C2. When the name given with [--sql] is bound in the notebook to a
    query object, [_get_query_argument] returns that very object for every
    configuration and environment and leaves the notebook as it was; the
    configuration is not applied. In the sample command the body only
    decides whether parsing it raises: when it does not, the query that is
    sampled is the bound object, the same for any two bodies. *)
Theorem C2_bound_query_is_returned `{Collaborators}
    (args : gmap string pyval) (name : pyval) (nb : Notebook) :
  args !! "sql" = Some name ->
  isinstance (get_item (user_ns nb) name) ClsQuery = true ->
  let bound := get_item (user_ns nb) name in
  (forall config env, _get_query_argument args config env nb = (Ok bound, nb))
  /\ (forall body,
        _sample_cell args body nb =
          (_ ← Config._parse_config body (user_ns nb);
           sampling ← sampling_of args;
           query_sample bound sampling, nb))
  /\ (forall body body',
        is_ok (Config._parse_config body (user_ns nb)) = true ->
        is_ok (Config._parse_config body' (user_ns nb)) = true ->
        _sample_cell args body nb = _sample_cell args body' nb).
Proof.
  intros Hsql Hquery bound.
  assert (Hsample : forall body,
            _sample_cell args body nb =
              (_ ← Config._parse_config body (user_ns nb);
               sampling ← sampling_of args;
               query_sample bound sampling, nb)).
  { intros body. unfold _sample_cell, _notebook_environment.
    unfold mbind at 1. unfold Cmd_bind at 1.
    unfold mbind at 1. unfold Cmd_bind at 1. unfold lift at 1.
    destruct (Config._parse_config body (user_ns nb)) as [ config | e ];
      [ | reflexivity ].
    unfold mbind at 1. unfold Cmd_bind at 1.
    rewrite (get_query_argument_bound _ _ _ _ _ Hsql Hquery).
    unfold mbind, Cmd_bind, lift, result_bind.
    now destruct (sampling_of args). }
  split; [ | split ].
  - intros config env. now apply get_query_argument_bound.
  - exact Hsample.
  - intros body body' Hok Hok'. rewrite !Hsample.
    destruct (Config._parse_config body (user_ns nb)); [ | discriminate ].
    destruct (Config._parse_config body' (user_ns nb)); [ | discriminate ].
    reflexivity.
Qed.

Lemma C2_bound_query_witness :
  let nb := notebook_with {[ "myquery" := PyObj ClsQuery 7 ]} in
  _get_query_argument (H := world) sample_args
    (PyDict [("limit", PyInt 3)]) Live nb
  = (Ok (PyObj ClsQuery 7), nb).
Proof.
  intros nb.
  exact (proj1 (C2_bound_query_is_returned (H := world) sample_args
                  (PyStr "myquery") nb eq_refl eq_refl)
               (PyDict [("limit", PyInt 3)]) Live).
Defined.

(** C3. A command registered as prohibiting a cell raises the
    unexpected-body error when the body is not empty after trimming; one
    registered as requiring a cell raises the missing-body error when the
    body is absent or empty; both after printing the usage text. In every
    other case the registered handler is called, with the parsed arguments
    alone for a prohibiting registration and with the parsed arguments and
    the body otherwise: the number of arguments depends on the registration
    only. *)
Theorem C3_dispatch `{Collaborators} (r : Registration)
    (args : gmap string pyval) (cell : option string) (nb : Notebook) :
  let name := command (reg_parser r) in
  (cell_mode r = PROHIBITED ->
   (exists text, cell = Some text /\ strip text <> "") ->
     func r args cell nb =
       (Raise (Exception ("Additional data is not supported with the "
                          ++ parser_prog name ++ " command.")),
        helped name nb))
  /\ (cell_mode r = REQUIRED -> cell = None \/ cell = Some "" ->
        func r args cell nb =
          (Raise (Exception ("The " ++ parser_prog name
                             ++ " command requires additional data")),
           helped name nb))
  /\ ((cell_mode r = PROHIBITED /\
       (forall text, cell = Some text -> strip text = ""))
      \/ (cell_mode r = REQUIRED /\ cell <> None /\ cell <> Some "")
      \/ cell_mode r = OPTIONAL ->
        exists actuals,
          func r args cell nb = reg_handler r actuals nb
          /\ List.length actuals = arity (cell_mode r)
          /\ actuals = if reg_cell_prohibited r then [ActualArgs args]
                       else [ActualArgs args; ActualCell cell]).
Proof.
  intros name. unfold func, _dispatch_handler, cell_mode. fold name.
  destruct (reg_cell_prohibited r), (reg_cell_required r);
    (split; [ | split ]); try discriminate.
  all: try (intros _ Hcontent; apply has_content_spec in Hcontent;
            now rewrite Hcontent).
  all: try (intros _ Hnone; apply no_cell_spec in Hnone; simpl;
            now rewrite Hnone).
  all: intros Hcase.
  all: try (assert (Hquiet : has_content cell = false);
            [ destruct Hcase as [ [_ Hblank] | [ [? _] | ? ] ];
              try discriminate;
              destruct (has_content cell) eqn:Hc; [ | reflexivity ];
              apply has_content_spec in Hc as (text & -> & Hs);
              now contradict Hs; apply Hblank
            | rewrite Hquiet; eexists; repeat split ]).
  - assert (Hsome : no_cell cell = false).
    { destruct Hcase as [ [? _] | [ (_ & Hn & He) | ? ] ]; try discriminate.
      destruct (no_cell cell) eqn:Hc; [ | reflexivity ].
      apply no_cell_spec in Hc as [ | ]; contradiction. }
    simpl. rewrite Hsome. eexists; repeat split.
  - simpl. eexists; repeat split.
Qed.

Lemma C3_dispatch_witness :
  let r := register _create_table_subparser
             (def1 "_table_line" (_table_line (H := world)))
             false true in
  func (H := world) r (∅ : gmap string pyval) (Some " x ")
    empty_notebook =
    (Raise (Exception "Additional data is not supported with the bigquery table command."),
     helped (H := world) "table" empty_notebook).
Proof.
  intros r.
  refine (proj1 (C3_dispatch (H := world) r
                   (∅ : gmap string pyval) (Some " x ")
                   empty_notebook) eq_refl _).
  exists " x ". split; [ reflexivity | discriminate ].
Defined.

(** The cell modes of the registered commands, in the order of their
    registration. *)
Lemma registered_cell_modes `{Collaborators} :
  (fun r => (command (reg_parser r), cell_mode r)) <$> _create_bigquery_parser
  = [ ("sample", OPTIONAL); ("dryrun", PROHIBITED); ("udf", REQUIRED);
      ("execute", OPTIONAL); ("pipeline", OPTIONAL); ("table", PROHIBITED);
      ("schema", PROHIBITED); ("datasets", PROHIBITED);
      ("tables", PROHIBITED); ("extract", PROHIBITED); ("load", OPTIONAL) ].
Proof. reflexivity. Qed.

(** The dry run is registered as prohibiting a cell, so its handler, which
    is defined with two parameters, is called with one. *)
Lemma dryrun_called_with_one_argument `{Collaborators}
    (args : gmap string pyval) (nb : Notebook) :
  func (register _create_dry_run_subparser (def2 "_dryrun_cell" _dryrun_cell)
          false true) args None nb
  = (Raise (TypeError "_dryrun_cell() takes exactly 2 arguments"), nb).
Proof. reflexivity. Qed.

(** C9. The schema of the table command declares [--rows] and [--cols]
    only, so the arguments parsed with it have no key [table]: the first
    statement of [_table_line] raises [KeyError] and the command, however
    it is dispatched, ends in an error and never returns a rendered table. *)
Theorem C9_table_line_raises_KeyError `{Collaborators}
    (args : gmap string pyval) (nb : Notebook) :
  produced_by _create_table_subparser args ->
  args !! "table" = None
  /\ _table_line args nb = (Raise (KeyError "table"), nb)
  /\ (forall cell,
        exists e nb',
          func (register _create_table_subparser
                  (def1 "_table_line" _table_line) false true) args cell nb
          = (Raise e, nb')).
Proof.
  intros Hargs.
  assert (Hnone : args !! "table" = None).
  { apply not_elem_of_dom. rewrite Hargs. vm_compute.
    intros Hin. repeat (apply elem_of_cons in Hin as [ Hin | Hin ];
                        [ discriminate | ]).
    inversion Hin. }
  assert (Hline : _table_line args nb = (Raise (KeyError "table"), nb)).
  { unfold _table_line, mbind, Cmd_bind, lift, getitem. now rewrite Hnone. }
  split; [ exact Hnone | ]. split; [ exact Hline | ].
  intros cell. unfold func, _dispatch_handler. simpl.
  destruct (has_content cell); [ eauto | ].
  rewrite Hline. eauto.
Qed.

Lemma C9_table_line_witness :
  _table_line (H := world) table_args empty_notebook
    = (Raise (KeyError "table"), empty_notebook).
Proof.
  refine (proj1 (proj2 (C9_table_line_raises_KeyError (H := world)
                          table_args empty_notebook _))).
  unfold produced_by. vm_compute. reflexivity.
Defined.

(** C10 (the code departs from the claim). The claim: a pipeline run
    substitutes the body in the environment of the function-call bindings
    only, so a reference [$x] to a binding of another kind fails as an
    unresolved variable, while the sample command, with the whole
    notebook, resolves it. The code: the pipeline does build that
    environment ([pipeline_environment], [function_calls_hides]), but the
    misspelt [startwith] of [expand_var] (see C1) raises [AttributeError]
    for the reference before any environment is consulted, in the pipeline
    and in the sample command alike. Here [x] is bound to 5 and [q] to a
    query, and the body is [a: $x]. *)
Theorem C10_pipeline_reference_raises_AttributeError :
  let session : gmap string pyval :=
    {[ "x" := PyInt 5; "q" := PyObj ClsQuery 1 ]} in
  let nb := notebook_with session in
  function_calls session !! "x" = None
  /\ session !! "x" = Some (PyInt 5)
  /\ _pipeline_cell (H := world) pipeline_args (Some "a: $x") nb
       = (Raise (AttributeError "startwith"), nb)
  /\ _sample_cell (H := world) sample_q_args (Some "a: $x") nb
       = (Raise (AttributeError "startwith"), nb).
Proof.
  intros session nb. split; [ | split; [ reflexivity | ] ].
  - now apply (function_calls_hides session "x" (PyInt 5)).
  - split.
    + rewrite (pipeline_environment (H := world) pipeline_args
                 (PyStr "run") _ nb eq_refl eq_refl).
      reflexivity.
    + reflexivity.
Qed.

Ltac cmd_inversion :=
  repeat match goal with
         | H : (_ ≫= _) _ = (Ok _, _) |- _ =>
             apply bind_Ok_inv in H as (? & ? & ? & ?)
         | H : lift _ _ = (Ok _, _) |- _ =>
             apply lift_Ok_inv in H as [? ?]; subst
         | H : mret _ _ = (Ok _, _) |- _ =>
             apply ret_Ok_inv in H as [? ?]; subst
         | H : (if ?b then _ else _) _ = (Ok _, _) |- _ =>
             destruct b eqn:?
         | H : (match ?x with Some _ => _ | None => _ end) _ = (Ok _, _) |- _ =>
             destruct x eqn:?
         end.

Lemma job_report_message `{Collaborators} (verb : string) (job : Job) :
  carries_data (job_report verb job) = false.
Proof.
  unfold job_report. destruct (job_failed job); [ reflexivity | ].
  now destruct (truthy (job_errors job)).
Qed.

(** C7 (amended). A failed job makes the
    command return the text [<Verb> failed: <fatal error>] instead of
    raising; a job that did not fail and has errors makes it return
    [<Verb> completed with errors: <errors>]. That text is the whole value
    returned: whenever the extract or the load command returns, the value
    is one of the messages given before any job runs or the report of the
    job that the warehouse returned, and it never carries data.

    The commands do return then. An extract whose source is found, as a
    binding of the notebook or by [_get_table], and is not a table that is
    missing, and whose job the warehouse returns, returns the report of
    that job and does not raise: the failure text for a failed job, the
    completed-with-errors text for a job with errors. So does a load that
    goes ahead (the table exists and the mode is not [create]; or it does
    not exist and is created from the schema of the cell; or it does not
    exist, there is no schema and [--infer] is set) and whose job the
    warehouse returns. *)
Theorem C7_job_outcome_is_a_message `{Collaborators} :
  (forall verb job,
     job_failed job = true ->
     job_report verb job
       = PyStr (verb ++ " failed: " ++ str_of (job_fatal_error job)))
  /\ (forall verb job,
        job_failed job = false -> truthy (job_errors job) = true ->
        job_report verb job
          = PyStr (verb ++ " completed with errors: "
                   ++ str_of (job_errors job)))
  /\ (forall args nb value nb',
        _extract_line args nb = (Ok value, nb') ->
        carries_data value = false
        /\ ((exists name,
               value = PyStr ("No such source: " ++ str_of name)
               \/ value = PyStr ("Source " ++ str_of name ++ " does not exist"))
            \/ exists source destination format compress delimiter header job,
                 source_extract source destination format compress delimiter
                   header = Ok job
                 /\ value = job_report "Extract" job))
  /\ (forall args schema nb value nb',
        _load_cell args schema nb = (Ok value, nb') ->
        carries_data value = false
        /\ ((exists name,
               value = PyStr (str_of name
                              ++ " already exists; use --append or --overwrite"))
            \/ value = PyStr cannot_load_message
            \/ exists table job,
                 load_job args table = Ok job
                 /\ value = job_report "Load" job))
  /\ (forall args key nb source nb1 destination format compress delimiter
             header job,
        args !! "source" = Some (PyStr key) ->
        source_found key nb source nb1 ->
        (isinstance source ClsTable = true -> table_exists source = Ok true) ->
        args !! "destination" = Some destination ->
        args !! "format" = Some format ->
        args !! "compress" = Some compress ->
        args !! "delimiter" = Some delimiter ->
        args !! "header" = Some header ->
        source_extract source destination (format_name format) compress
          delimiter header = Ok job ->
        _extract_line args nb = (Ok (job_report "Extract" job), nb1)
        /\ (job_failed job = true ->
            _extract_line args nb
              = (Ok (PyStr ("Extract failed: "
                            ++ str_of (job_fatal_error job))), nb1))
        /\ (job_failed job = false -> truthy (job_errors job) = true ->
            _extract_line args nb
              = (Ok (PyStr ("Extract completed with errors: "
                            ++ str_of (job_errors job))), nb1)))
  /\ (forall args schema key found table nb nb1 job,
        args !! "table" = Some (PyStr key) ->
        _get_table key nb = (Ok found, nb1) ->
        (if truthy found then Ok found else Table_new (PyStr key)) = Ok table ->
        load_goes_ahead args schema table ->
        load_job args table = Ok job ->
        _load_cell args schema nb = (Ok (job_report "Load" job), nb1)
        /\ (job_failed job = true ->
            _load_cell args schema nb
              = (Ok (PyStr ("Load failed: "
                            ++ str_of (job_fatal_error job))), nb1))
        /\ (job_failed job = false -> truthy (job_errors job) = true ->
            _load_cell args schema nb
              = (Ok (PyStr ("Load completed with errors: "
                            ++ str_of (job_errors job))), nb1))).
Proof.
  assert (Hfailed : forall verb job,
            job_failed job = true ->
            job_report verb job
              = PyStr (verb ++ " failed: " ++ str_of (job_fatal_error job))).
  { intros verb job Hjob. unfold job_report. now rewrite Hjob. }
  assert (Herrors : forall verb job,
            job_failed job = false -> truthy (job_errors job) = true ->
            job_report verb job
              = PyStr (verb ++ " completed with errors: "
                       ++ str_of (job_errors job))).
  { intros verb job Hjob Herr. unfold job_report. now rewrite Hjob, Herr. }
  refine (conj Hfailed (conj Herrors (conj _ (conj _ (conj _ _))))).
  - intros args nb value nb' Hrun. unfold _extract_line in Hrun.
    cmd_inversion;
      first [ solve [ split; [ reflexivity | left; eexists; eauto ] ]
            | split; [ apply job_report_message
                     | right; repeat eexists; eassumption ] ].
  - intros args schema nb value nb' Hrun. unfold _load_cell in Hrun.
    cbv zeta in Hrun.
    cmd_inversion;
      first [ solve [ split; [ reflexivity | left; eexists; eauto ] ]
            | solve [ split; [ reflexivity | right; left; reflexivity ] ]
            | split; [ apply job_report_message
                     | right; right; eexists _, _;
                       split; [ eassumption | reflexivity ] ] ].
  - intros args key nb source nb1 destination format compress delimiter
      header job Hsource Hfound Hexists Hdest Hformat Hcompress Hdelim
      Hheader Hjob.
    assert (Hrun : _extract_line args nb
                   = (Ok (job_report "Extract" job), nb1)).
    { now apply (extract_reports args key nb source nb1 destination format
               compress delimiter header job). }
    rewrite Hrun. split; [ reflexivity | ]. split.
    + intros Hf. now rewrite (Hfailed _ _ Hf).
    + intros Hf He. now rewrite (Herrors _ _ Hf He).
  - intros args schema key found table nb nb1 job Hname Hlookup Htable
      Hahead Hjob.
    assert (Hrun : _load_cell args schema nb
                   = (Ok (job_report "Load" job), nb1)).
    { now apply (load_reports args schema key found table nb nb1 job). }
    rewrite Hrun. split; [ reflexivity | ]. split.
    + intros Hf. now rewrite (Hfailed _ _ Hf).
    + intros Hf He. now rewrite (Herrors _ _ Hf He).
Qed.

(** A table of the notebook is extracted and the warehouse returns a job
    that failed for its quota: the command returns the failure text. *)
Lemma C7_failed_job_witness :
  let nb := notebook_with {[ "q" := PyObj ClsTable 1 ]} in
  job_failed failed_job = true
  /\ _extract_line (H := world) extract_args nb
       = (Ok (PyStr "Extract failed: quota"), nb).
Proof.
  intros nb. split; [ reflexivity | ].
  refine (proj1 (proj2 (proj1 (proj2 (proj2 (proj2 (proj2
            (C7_job_outcome_is_a_message (H := world))))))
            extract_args "q" nb (PyObj ClsTable 1) nb (PyStr "gs://bucket/out")
            (PyStr "csv") (PyBool false) (PyStr ",") (PyBool false) failed_job
            eq_refl _ _ eq_refl eq_refl eq_refl eq_refl eq_refl eq_refl))
          eq_refl).
  - left. now split.
  - reflexivity.
Defined.

(** C7 (counterexample). The job of this extract did not fail and has the
    errors [['bad row']]; the command returns the text
    [Extract completed with errors: ['bad row']] and nothing else, so no
    partial data is returned. *)
Lemma C7_completed_with_errors_returns_no_data :
  let nb := notebook_with {[ "q" := PyObj ClsQuery 1 ]} in
  let outcome := (_extract_line (H := world) extract_args nb).1 in
  source_extract (Collaborators := world) (PyObj ClsQuery 1)
    (PyStr "gs://bucket/out") "CSV" (PyBool false) (PyStr ",") (PyBool false)
    = Ok errors_job
  /\ job_failed errors_job = false
  /\ truthy (job_errors errors_job) = true
  /\ outcome = Ok (PyStr "Extract completed with errors: ['bad row']")
  /\ ~ returns_data outcome.
Proof.
  intros nb outcome. repeat split.
  intros (v & Hv & Hdata). vm_compute in Hv. injection Hv as <-.
  discriminate.
Qed.

End CommandClaims.

(** ** Further properties of the configuration resolver *)

Module ConfigMore.
Import Config Shape ConfigFacts.

Lemma lstrip_blank (s : string) :
  all_chars is_space s = true -> lstrip s = "".
Proof.
  induction s as [ | c s IH ]; simpl; [ reflexivity | ].
  intros Hs. apply andb_true_iff in Hs as [Hc Hs]. rewrite Hc. now apply IH.
Qed.

Lemma lstrip_head (s rest : string) (c : ascii) :
  lstrip s = String c rest -> is_space c = false.
Proof.
  induction s as [ | d s IH ]; simpl; [ discriminate | ].
  destruct (is_space d) eqn:Hd; [ exact IH | ].
  now intros [= <- _].
Qed.

Lemma rstrip_head (c : ascii) (rest : string) :
  is_space c = false -> exists kept, rstrip (String c rest) = String c kept.
Proof.
  intros Hc. simpl. destruct (rstrip rest) as [ | d kept ].
  - rewrite Hc. now exists "".
  - now exists (String d kept).
Qed.

Section WithCollaborators.
Context `{Collaborators}.

(** A no-break space before the brace is trimmed like a blank: the body
    goes to [json.loads]. A body of a unit separator is blank. *)
Lemma parse_config_unicode_space (env : gmap string pyval) :
  _parse_config (Some (String (ascii_of_nat 160) "{}")) env
    = (parsed ← json_loads (String (ascii_of_nat 160) "{}");
       replace_vars env parsed)
  /\ _parse_config (Some (String (ascii_of_nat 31) "")) env = Ok (PyDict []).
Proof. split; reflexivity. Qed.

(** X1. A body made of white space only is the empty mapping: neither
    parser is consulted and the environment plays no part. *)
Theorem X1_blank_body_is_empty_mapping (text : string)
    (env : gmap string pyval) :
  all_chars is_space text = true ->
  _parse_config (Some text) env = Ok (PyDict []).
Proof.
  intros Hblank. unfold _parse_config, strip.
  now rewrite (lstrip_blank _ Hblank).
Qed.

(** X2. The first character of the body that is not white space selects
    the parser: an opening brace sends the whole, unstripped body to
    [json.loads], anything else sends it to [yaml.load]; what the parser
    raises is raised, and what it returns goes through the substitution. *)
Theorem X2_first_character_selects_parser (text rest : string) (c : ascii)
    (env : gmap string pyval) :
  lstrip text = String c rest ->
  _parse_config (Some text) env =
    (parsed ← (if Ascii.eqb c "{"%char then json_loads text
               else yaml_load text);
     replace_vars env parsed).
Proof.
  intros Hhead. unfold _parse_config, strip. rewrite Hhead.
  destruct (rstrip_head c rest (lstrip_head _ _ _ Hhead)) as [kept ->].
  reflexivity.
Qed.

End WithCollaborators.

Lemma X1_blank_body_witness :
  _parse_config (H := Example.world) (Some ("  " ++ Udf.newline)) ∅
    = Ok (PyDict []).
Proof.
  exact (X1_blank_body_is_empty_mapping (H := Example.world)
           ("  " ++ Udf.newline) ∅ eq_refl).
Defined.

Lemma X2_first_character_witness :
  _parse_config (H := Example.world) (Some " a: $x") ∅
    = (parsed ← yaml_load (Collaborators := Example.world) " a: $x";
       replace_vars ∅ parsed).
Proof.
  exact (X2_first_character_selects_parser (H := Example.world)
           " a: $x" ": $x" "a"%char ∅ eq_refl).
Defined.

Lemma for_each_ext {A B} (f g : A -> result B) (l : list A) :
  Forall (fun x => f x = g x) l -> for_each f l = for_each g l.
Proof.
  induction 1 as [ | x l Hx _ IH ]; simpl; [ reflexivity | ].
  now rewrite Hx, IH.
Qed.

Lemma replace_slot_any_env (env env' : gmap string pyval) (a : bool)
    (x : pyval) :
  replace_vars env x = replace_vars env' x ->
  replace_slot (replace_vars env) env a x
  = replace_slot (replace_vars env') env' a x.
Proof.
  intros Hx. unfold replace_slot.
  destruct x; simpl; try reflexivity; exact Hx.
Qed.

Lemma replace_vars_any_env (env env' : gmap string pyval) (v : pyval) :
  replace_vars env v = replace_vars env' v.
Proof.
  induction v as [ | | | | xs IH | xs IH | kvs IH | | | ]
    using pyval_nested_ind; simpl; try reflexivity.
  - rewrite (for_each_ext _ (replace_slot (replace_vars env') env' true) xs);
      [ reflexivity | ].
    eapply Forall_impl; [ exact IH | ].
    intros x Hx. now apply replace_slot_any_env.
  - rewrite (for_each_ext _ (replace_slot (replace_vars env') env' false) xs);
      [ reflexivity | ].
    eapply Forall_impl; [ exact IH | ].
    intros x Hx. now apply replace_slot_any_env.
  - erewrite for_each_ext; [ reflexivity | ].
    eapply Forall_impl; [ exact IH | ].
    intros [k x] Hx. simpl in *.
    now rewrite (replace_slot_any_env env env' true x Hx).
Qed.

Lemma replace_slot_ok_shape (env : gmap string pyval) (a : bool)
    (x y : pyval) :
  (forall y, replace_vars env x = Ok y -> is_container x = true ->
             no_reference x = true /\ no_str_in_tuple x = true) ->
  replace_slot (replace_vars env) env a x = Ok y ->
  no_reference x = true /\ no_str_in_tuple x = true
  /\ (a = true \/ is_str x = false).
Proof.
  intros Hrec. unfold replace_slot.
  destruct x; simpl; try (intros _; repeat split; now right).
  - unfold expand_var. destruct (startswith s "$"); simpl; [ discriminate | ].
    destruct a; [ | discriminate ]. intros _. repeat split. now left.
  - intros Hy. destruct (Hrec _ Hy eq_refl). repeat split; auto.
  - intros Hy. destruct (Hrec _ Hy eq_refl). repeat split; auto.
  - intros Hy. destruct (Hrec _ Hy eq_refl). repeat split; auto.
Qed.

Lemma replace_vars_ok_shape (env : gmap string pyval) (v v' : pyval) :
  replace_vars env v = Ok v' -> is_container v = true ->
  no_reference v = true /\ no_str_in_tuple v = true.
Proof.
  revert v'.
  induction v as [ | | | | xs IH | xs IH | kvs IH | | | ]
    using pyval_nested_ind; intros v'; simpl; try discriminate.
  - destruct (for_each _ xs) as [ ys | ] eqn:Hxs; simpl; [ | discriminate ].
    intros _ _. rewrite !forallb_forall. rewrite Forall_forall in IH.
    split; intros x Hx; apply list_elem_of_In in Hx;
      destruct (for_each_ok_inv _ _ _ Hxs x Hx) as [y Hy];
      apply (replace_slot_ok_shape env true x y (IH x Hx) Hy).
  - destruct (for_each _ xs) as [ ys | ] eqn:Hxs; simpl; [ | discriminate ].
    intros _ _. rewrite !forallb_forall. rewrite Forall_forall in IH.
    split; intros x Hx; apply list_elem_of_In in Hx;
      destruct (for_each_ok_inv _ _ _ Hxs x Hx) as [y Hy];
      destruct (replace_slot_ok_shape env false x y (IH x Hx) Hy)
        as (Hr & Ht & [ | Hs ]); try discriminate; [ exact Hr | ].
    now rewrite Hs, Ht.
  - destruct (for_each _ kvs) as [ ys | ] eqn:Hxs; simpl; [ | discriminate ].
    intros _ _. rewrite !forallb_forall. rewrite Forall_forall in IH.
    split; intros [k x] Hx; apply list_elem_of_In in Hx;
      destruct (for_each_ok_inv _ _ _ Hxs _ Hx) as [[k' y] Hy]; simpl in Hy;
      destruct (replace_slot _ env true x) as [ z | ] eqn:Hz;
      try discriminate;
      apply (replace_slot_ok_shape env true x z (IH _ Hx) Hz).
Qed.

(** X3. What the substitution does to a parsed body, as the code stands.
    A list, tuple or mapping is returned, unchanged, exactly when none of
    its strings starts with ['$'] and none of its tuples holds a string;
    otherwise an error is raised. A body that is a single scalar is
    returned as it is, even the string [$x]. The environment never
    matters. *)
Theorem X3_substitution_outcome (env : gmap string pyval) (v : pyval) :
  (is_container v = true ->
     is_ok (replace_vars env v) = no_reference v && no_str_in_tuple v
     /\ (is_ok (replace_vars env v) = true -> replace_vars env v = Ok v))
  /\ (is_container v = false -> replace_vars env v = Ok v)
  /\ (forall env', replace_vars env' v = replace_vars env v).
Proof.
  split; [ | split ].
  - intros Hc. split.
    + destruct (replace_vars env v) as [ v' | e ] eqn:Hv; simpl.
      * destruct (replace_vars_ok_shape env v v' Hv Hc) as [-> ->].
        reflexivity.
      * destruct (no_reference v) eqn:Hr; [ | reflexivity ].
        destruct (no_str_in_tuple v) eqn:Ht; [ | reflexivity ].
        rewrite (replace_vars_fixed env v Hr Ht) in Hv. discriminate.
    + destruct (replace_vars env v) as [ v' | e ] eqn:Hv; [ | discriminate ].
      intros _. now rewrite (replace_vars_ok_same env v v' Hv).
  - intros Hc. destruct v; try reflexivity; discriminate.
  - intros env'. apply replace_vars_any_env.
Qed.

End ConfigMore.

(** ** What the commands leave of the notebook *)

Module Frame.
Import Commands Effects.

Section Rules.
Context (R : Notebook -> Notebook -> Prop).
Context (R_refl : forall nb, R nb nb).
Context (R_trans : forall a b c, R a b -> R b c -> R a c).

Lemma respects_bind {A B} (m : Cmd A) (k : A -> Cmd B) :
  respects R m -> (forall a, respects R (k a)) -> respects R (m ≫= k).
Proof.
  intros Hm Hk nb. unfold mbind, Cmd_bind. specialize (Hm nb).
  destruct (m nb) as [[ a | e ] nb1]; simpl in *; [ | exact Hm ].
  eapply R_trans; [ exact Hm | apply Hk ].
Qed.

Lemma respects_lift {A} (r : result A) : respects R (lift r).
Proof. intros nb. apply R_refl. Qed.

Lemma respects_ret {A} (a : A) : respects R (mret a : Cmd A).
Proof. intros nb. apply R_refl. Qed.

Lemma respects_raise {A} (e : exn) : respects R (raise e : Cmd A).
Proof. intros nb. apply R_refl. Qed.

Lemma respects_environment : respects R _notebook_environment.
Proof. intros nb. apply R_refl. Qed.

Lemma respects_contents (env : environment) : respects R (contents env).
Proof. intros nb. destruct env; apply R_refl. Qed.

Lemma respects_updated_or_raised (updated : gmap string pyval)
    (failure : option exn) :
  respects R (updated_or_raised updated failure).
Proof. intros nb. destruct failure; apply R_refl. Qed.

Lemma respects_try {A} (body handler : Cmd A) :
  respects R body -> respects R handler ->
  respects R (try_except_KeyError body handler).
Proof.
  intros Hb Hh nb. unfold try_except_KeyError. specialize (Hb nb).
  destruct (body nb) as [[ a | [] ] nb1]; simpl in *; try exact Hb.
  eapply R_trans; [ exact Hb | apply Hh ].
Qed.

End Rules.

(** Follows the structure of a command: binds, lifted results, returns,
    raises and the conditionals between them. *)
Ltac frame_step :=
  first
    [ match goal with
      | H : forall x, respects _ (_ x) |- respects _ (_ _) => apply H
      | H : forall x y, respects _ (_ x y) |- respects _ (_ _ _) => apply H
      | H : forall x y z, respects _ (_ x y z) |- respects _ (_ _ _ _) =>
          apply H
      end
    | apply respects_lift; solve [ auto ]
    | apply respects_ret; solve [ auto ]
    | apply respects_raise; solve [ auto ]
    | apply respects_environment; solve [ auto ]
    | apply respects_contents; solve [ auto ]
    | apply respects_updated_or_raised; solve [ auto ]
    | apply respects_bind; [ solve [ auto ] | | intros ]
    | apply respects_try; [ solve [ auto ] | | ]
    | match goal with
      | |- respects _ (if ?b then _ else _) => destruct b
      | |- respects _ (match ?x with _ => _ end) => destruct x
      | |- respects _ (let '(_, _) := ?x in _) => destruct x
      end ].

Ltac frame := repeat frame_step.

Lemma same_refl (nb : Notebook) : same_notebook nb nb.
Proof. reflexivity. Qed.

Lemma same_trans (a b c : Notebook) :
  same_notebook a b -> same_notebook b c -> same_notebook a c.
Proof. unfold same_notebook. congruence. Qed.

Lemma printed_refl (nb : Notebook) : printed_only nb nb.
Proof. now split. Qed.

Lemma printed_trans (a b c : Notebook) :
  printed_only a b -> printed_only b c -> printed_only a c.
Proof. unfold printed_only. intros [] []. split; congruence. Qed.

Lemma cached_refl (nb : Notebook) : cached_only nb nb.
Proof. now split. Qed.

Lemma cached_trans (a b c : Notebook) :
  cached_only a b -> cached_only b c -> cached_only a c.
Proof. unfold cached_only. intros [] []. split; congruence. Qed.

Lemma same_printed (a b : Notebook) : same_notebook a b -> printed_only a b.
Proof. intros ->. apply printed_refl. Qed.

Section WithCollaborators.
Context `{Collaborators}.

Lemma namespace_refl (nb : Notebook) : namespace_only nb nb.
Proof. now split. Qed.

Lemma namespace_trans (a b c : Notebook) :
  namespace_only a b -> namespace_only b c -> namespace_only a c.
Proof. unfold namespace_only. intros [] []. split; congruence. Qed.

Lemma store_namespace (env : environment) (updated : gmap string pyval) :
  respects namespace_only (store env updated).
Proof. intros nb. destruct env; now split. Qed.

Lemma store_local_same (d updated : gmap string pyval) :
  respects same_notebook (store (Local d) updated).
Proof. intros nb. reflexivity. Qed.

Lemma get_query_argument_namespace (args : gmap string pyval)
    (config : pyval) (env : environment) :
  respects namespace_only (_get_query_argument args config env).
Proof.
  pose proof namespace_refl. pose proof namespace_trans.
  pose proof store_namespace.
  unfold _get_query_argument, _get_notebook_item. frame.
Qed.

Lemma get_query_argument_local (args : gmap string pyval) (config : pyval)
    (d : gmap string pyval) :
  respects same_notebook (_get_query_argument args config (Local d)).
Proof.
  pose proof same_refl. pose proof same_trans.
  unfold _get_query_argument, _get_notebook_item. frame.
Qed.

(** What the resolver does to the notebook when it is given the namespace
    itself. *)
Lemma get_query_argument_live (args : gmap string pyval) (config : pyval)
    (nb : Notebook) :
  updated_by config nb (_get_query_argument args config Live nb).2.
Proof.
  unfold _get_query_argument, _get_notebook_item, _notebook_environment,
    contents, store, mbind, Cmd_bind, mret, Cmd_ret, lift.
  destruct (getitem args "sql") as [ sql_arg | ]; [ | now left ].
  match goal with
  | |- context [isinstance ?item ClsQuery] =>
      destruct (isinstance item ClsQuery); [ now left | ]
  end.
  unfold _notebook_environment. cbv beta iota.
  match goal with
  | |- context [get_sql_statement_with_environment ?item ?given] =>
      destruct (get_sql_statement_with_environment item given)
        as [ [statement [ | d ]] | ]; try (now left)
  end.
  - destruct (truthy config) eqn:Hconfig;
      [ | now destruct (Query_new statement (user_ns nb)); left ].
    right. split; [ exact Hconfig | ].
    destruct (dict_update (user_ns nb) config) as [updated [ e | ]];
      [ reflexivity | ].
    cbn [updated_or_raised fst]. now destruct (Query_new statement updated).
  - destruct (truthy config); [ | now destruct (Query_new statement d); left ].
    destruct (dict_update d config) as [merged [ e | ]]; [ now left | ].
    now destruct (Query_new statement merged); left.
Qed.

Lemma bind_tail_same {A B} (m : Cmd A) (k : A -> Cmd B) (nb : Notebook) :
  (forall a, respects same_notebook (k a)) -> ((m ≫= k) nb).2 = (m nb).2.
Proof.
  intros Hk. unfold mbind, Cmd_bind.
  destruct (m nb) as [[ a | e ] nb1]; [ apply Hk | reflexivity ].
Qed.

(** After a command of the shape "parse the body in the namespace, resolve
    the query in the namespace, then only call collaborators". *)
Lemma query_command_effect (args : gmap string pyval) (body : option string)
    (k : pyval -> Cmd pyval) (nb : Notebook) :
  (forall query, respects same_notebook (k query)) ->
  let after :=
    ((env ← _notebook_environment;
      config ← lift (Config._parse_config body env);
      query ← _get_query_argument args config Live;
      k query) nb).2 in
  after = nb
  \/ exists config,
       Config._parse_config body (user_ns nb) = Ok config
       /\ updated_by config nb after.
Proof.
  intros Hk after. subst after. rewrite CommandFacts.bind_environment.
  destruct (Config._parse_config body (user_ns nb)) as [ config | e ] eqn:Hparse;
    [ | left; now rewrite CommandFacts.bind_lift_Raise ].
  right. exists config. split; [ reflexivity | ].
  rewrite CommandFacts.bind_lift_Ok, (bind_tail_same _ _ nb Hk).
  apply get_query_argument_live.
Qed.

(** X4. What the commands that resolve a query leave of the notebook.
    The listings of data sets and tables change nothing, and a pipeline,
    which works on a dictionary of its own, at most prints. sample, dryrun
    and execute never touch the table cache or the printed output; they
    leave the namespace as it is too, unless the body parsed to a non-empty
    configuration that [env.update(config)] wrote into the namespace, which
    happens when the SQL module returns the dictionary it was given. When
    [--sql] names a bound query nothing changes. *)
Theorem X4_what_query_commands_change (args : gmap string pyval)
    (body : option string) :
  respects namespace_only (_sample_cell args body)
  /\ respects namespace_only (_dryrun_cell args body)
  /\ respects namespace_only (_execute_cell args body)
  /\ respects same_notebook (_datasets_line args)
  /\ respects same_notebook (_tables_line args)
  /\ respects printed_only (_pipeline_cell args body)
  /\ (forall nb after,
        after = (_sample_cell args body nb).2
        \/ after = (_dryrun_cell args body nb).2
        \/ after = (_execute_cell args body nb).2 ->
        after = nb
        \/ exists config,
             Config._parse_config body (user_ns nb) = Ok config
             /\ updated_by config nb after)
  /\ (forall nb name,
        args !! "sql" = Some name ->
        isinstance (get_item (user_ns nb) name) ClsQuery = true ->
        (_sample_cell args body nb).2 = nb
        /\ (_dryrun_cell args body nb).2 = nb
        /\ (_execute_cell args body nb).2 = nb).
Proof.
  pose proof same_refl as Hsr. pose proof same_trans as Hst.
  assert (Htail : forall k : pyval -> result pyval,
            forall query : pyval, respects same_notebook (lift (k query))).
  { intros k query nb. reflexivity. }
  assert (Hsample : forall query : pyval,
            respects same_notebook
              (sampling ← lift (sampling_of args);
               lift (query_sample query sampling))).
  { intros query. frame. }
  refine (conj _ (conj _ (conj _ (conj _ (conj _ (conj _ (conj _ _))))))).
  - clear Hsr Hst. pose proof namespace_refl. pose proof namespace_trans.
    pose proof get_query_argument_namespace.
    unfold _sample_cell. frame.
  - clear Hsr Hst. pose proof namespace_refl. pose proof namespace_trans.
    pose proof get_query_argument_namespace.
    unfold _dryrun_cell. frame.
  - clear Hsr Hst. pose proof namespace_refl. pose proof namespace_trans.
    pose proof get_query_argument_namespace.
    unfold _execute_cell. frame.
  - unfold _datasets_line. frame.
  - unfold _tables_line. frame.
  - clear Hsr Hst Hsample Htail.
    pose proof printed_refl. pose proof printed_trans.
    assert (Hq : forall a c d,
              respects printed_only (_get_query_argument a c (Local d))).
    { intros a c d nb. apply same_printed, get_query_argument_local. }
    unfold _pipeline_cell. frame.
    intros nb. now split.
  - intros nb after [ -> | [ -> | -> ] ].
    + apply (query_command_effect args body _ nb Hsample).
    + apply (query_command_effect args body _ nb
               (Htail (fun query => query_dry_run_stats query))).
    + apply (query_command_effect args body _ nb
               (Htail (fun query => execute_with args query))).
  - intros nb name Hsql Hquery.
    assert (Hbound : forall (k : pyval -> Cmd pyval),
              (forall query, respects same_notebook (k query)) ->
              ((env ← _notebook_environment;
                config ← lift (Config._parse_config body env);
                query ← _get_query_argument args config Live;
                k query) nb).2 = nb).
    { intros k Hk. rewrite CommandFacts.bind_environment.
      destruct (Config._parse_config body (user_ns nb));
        [ | now rewrite CommandFacts.bind_lift_Raise ].
      rewrite CommandFacts.bind_lift_Ok, (bind_tail_same _ _ nb Hk).
      now rewrite (CommandFacts.get_query_argument_bound _ _ _ _ _ Hsql Hquery). }
    refine (conj _ (conj _ _)).
    + apply (Hbound _ Hsample).
    + apply (Hbound _ (Htail (fun query => query_dry_run_stats query))).
    + apply (Hbound _ (Htail (fun query => execute_with args query))).
Qed.

Lemma cache_getitem_cached (name : string) :
  respects cached_only (cache_getitem name).
Proof.
  intros nb. unfold cache_getitem.
  now destruct (Cache.get name (table_cache nb)) as [[ handle | ] c].
Qed.

Lemma cache_setitem_cached (name : string) (table : pyval) :
  respects cached_only (cache_setitem name table).
Proof. intros nb. now split. Qed.

Lemma get_table_cached (name : string) :
  respects cached_only (_get_table name).
Proof.
  pose proof cached_refl. pose proof cached_trans.
  pose proof cache_getitem_cached. pose proof cache_setitem_cached.
  unfold _get_table, _get_notebook_item. frame.
Qed.

(** X5. The commands that look a table up use the table cache and nothing
    else of the notebook: whatever [_get_table], table, schema, extract and
    load return or raise, the bindings of the notebook and its printed
    output are as before. *)
Theorem X5_table_commands_touch_only_the_cache (args : gmap string pyval)
    (name : string) (schema : option string) :
  respects cached_only (_get_table name)
  /\ respects cached_only (_table_line args)
  /\ respects cached_only (_schema_line args)
  /\ respects cached_only (_extract_line args)
  /\ respects cached_only (_load_cell args schema).
Proof.
  pose proof cached_refl. pose proof cached_trans.
  pose proof get_table_cached as Htable.
  refine (conj _ (conj _ (conj _ (conj _ _)))).
  - apply Htable.
  - unfold _table_line. frame.
  - unfold _schema_line, _get_schema, _get_notebook_item. frame.
  - unfold _extract_line, _get_notebook_item. frame.
  - unfold _load_cell. cbv zeta. frame.
Qed.

Lemma checked_refl (nb : Notebook) : cache_keeps cache_checked nb nb.
Proof. now intros ?. Qed.

Lemma checked_trans (a b c : Notebook) :
  cache_keeps cache_checked a b -> cache_keeps cache_checked b c ->
  cache_keeps cache_checked a c.
Proof. unfold cache_keeps. auto. Qed.

Lemma elem_of_remove_name (name : string) (l : list (string * pyval))
    (e : string * pyval) :
  e ∈ Cache.remove_name name l -> e ∈ l.
Proof.
  induction l as [ | [k v] l IH ]; simpl; [ easy | ].
  destruct (String.eqb k name).
  - intros He. right. now apply IH.
  - intros He. apply elem_of_cons in He as [ -> | He ]; [ now left | ].
    right. now apply IH.
Qed.

Lemma assoc_elem_of (name : string) (l : list (string * pyval)) (v : pyval) :
  Cache.assoc name l = Some v -> (name, v) ∈ l.
Proof.
  induction l as [ | [k x] l IH ]; simpl; [ discriminate | ].
  destruct (String.eqb_spec k name) as [ -> | ].
  - intros [= ->]. now left.
  - intros Hv. right. now apply IH.
Qed.

Lemma get_table_checked (name : string) :
  respects (cache_keeps cache_checked) (_get_table name).
Proof.
  intros nb Hchecked.
  unfold _get_table, _get_notebook_item, _notebook_environment, mbind,
    Cmd_bind, mret, Cmd_ret, try_except_KeyError, cache_getitem,
    cache_setitem, lift.
  destruct (isinstance _ ClsTable); [ exact Hchecked | ].
  unfold Cache.get.
  destruct (Cache.assoc name (Cache.entries (table_cache nb))) as [ h | ]
    eqn:Hfind; simpl.
  - intros k t Hin. apply elem_of_cons in Hin as [ [= -> ->] | Hin ].
    + apply Hchecked. now apply assoc_elem_of.
    + apply Hchecked. now apply elem_of_remove_name in Hin.
  - destruct (Table_new (PyStr name)) as [ table | e ] eqn:Hnew;
      [ | exact Hchecked ].
    destruct (table_exists table) as [ [ | ] | e ] eqn:Hex; simpl;
      try exact Hchecked.
    intros k t Hin. rewrite CacheFacts.put_entries in Hin.
    assert (Hupd : (k, t) ∈ (name, table)
                     :: Cache.remove_name name (Cache.entries (table_cache nb))).
    { destruct (Nat.ltb _ _); [ | exact Hin ].
      now apply CacheFacts.elem_of_removelast. }
    apply elem_of_cons in Hupd as [ [= -> ->] | Hupd ]; [ now split | ].
    apply Hchecked. now apply elem_of_remove_name in Hupd.
Qed.

(** X6. The table cache only ever holds tables that were checked: it
    starts empty, and after any of the commands that use it every cached
    entry is still the table that [Table(name)] builds for its name, and
    one that existed when asked. A table that does not exist is never
    cached. *)
Theorem X6_cache_holds_checked_tables (args : gmap string pyval)
    (name : string) (schema : option string) :
  cache_checked Cache._table_cache
  /\ respects (cache_keeps cache_checked) (_get_table name)
  /\ respects (cache_keeps cache_checked) (_table_line args)
  /\ respects (cache_keeps cache_checked) (_schema_line args)
  /\ respects (cache_keeps cache_checked) (_extract_line args)
  /\ respects (cache_keeps cache_checked) (_load_cell args schema).
Proof.
  pose proof checked_refl. pose proof checked_trans.
  pose proof get_table_checked as Htable.
  refine (conj _ (conj _ (conj _ (conj _ (conj _ _))))).
  - intros k t Hin. inversion Hin.
  - apply Htable.
  - unfold _table_line. frame.
  - unfold _schema_line, _get_schema, _get_notebook_item. frame.
  - unfold _extract_line, _get_notebook_item. frame.
  - unfold _load_cell. cbv zeta. frame.
Qed.

End WithCollaborators.

(** The cell [limit: 3] of a sample of the statement bound to [q]: the SQL
    module hands the namespace back, and the key of the cell is in the
    namespace afterwards. *)
Lemma sample_writes_the_cell_into_the_namespace :
  let ns : gmap string pyval := {[ "q" := PyStr "SELECT * FROM t" ]} in
  let after := (_sample_cell (H := Example.world) Example.sample_q_args
                  (Some "limit: 3") (Example.notebook_with ns)).2 in
  user_ns after = <["limit" := PyInt 3]> ns
  /\ table_cache after = Cache._table_cache /\ stdout after = [].
Proof. intros ns after. repeat split. Qed.

End Frame.

(** ** Further properties of the commands *)

Module CommandMore.
Import Commands Shape Effects CommandFacts.

Lemma produced_by_key (p : Subparser) (args : gmap string pyval) (k : string) :
  produced_by p args -> k ∈ declared p -> exists v, args !! k = Some v.
Proof.
  intros Hargs Hk.
  assert (Hdom : k ∈ dom args).
  { rewrite Hargs. apply elem_of_list_to_set. now right. }
  now apply elem_of_dom in Hdom.
Qed.

Ltac declared_key Hargs k :=
  let v := fresh "v" in
  let Hv := fresh "Hv" in
  destruct (produced_by_key _ _ k Hargs) as [v Hv];
  [ vm_compute; repeat first [ apply list_elem_of_here
                             | apply list_elem_of_further ]
  | ].

Lemma update_lookup (kvs : list (string * pyval)) (env : gmap string pyval)
    (k : string) :
  foldl (fun m kv => <[kv.1 := kv.2]> m) env kvs !! k =
    match last_value kvs k with
    | Some v => Some v
    | None => env !! k
    end.
Proof.
  revert env. induction kvs as [ | [k' v] kvs IH ]; intros env;
    [ reflexivity | ].
  simpl. rewrite IH. destruct (last_value kvs k); [ reflexivity | ].
  destruct (String.eqb_spec k' k) as [ -> | Hne ].
  - now rewrite lookup_insert_eq.
  - now rewrite lookup_insert_ne.
Qed.

Section WithCollaborators.
Context `{Collaborators}.

(** X7. When the name given with [--sql] is not a query object, the query
    is built from the statement and the parameters that the SQL module
    resolves for it, with the mapping of the cell on top: a key of the cell
    has the cell's value (the last one written), every other key keeps its
    resolved value. The update is made in place: when the SQL module hands
    back the dictionary it was given and that dictionary is the namespace
    of the notebook, the namespace holds the merged mapping afterwards; in
    every other case the notebook is as before. An empty mapping or no
    body updates nothing. *)
Theorem X7_cell_overrides_the_defaults (args : gmap string pyval)
    (name statement : pyval) (env : environment) (returned : returned_env)
    (nb : Notebook) :
  args !! "sql" = Some name ->
  isinstance (get_item (user_ns nb) name) ClsQuery = false ->
  get_sql_statement_with_environment (get_item (user_ns nb) name)
      (dictionary_of env nb)
    = Ok (statement, returned) ->
  let defaults := resolved_in env returned nb in
  (forall kv kvs,
     exists merged,
       _get_query_argument args (PyDict (kv :: kvs)) env nb
         = (Query_new statement merged, after_update env returned nb merged)
       /\ forall k, merged !! k = match last_value (kv :: kvs) k with
                                  | Some v => Some v
                                  | None => defaults !! k
                                  end)
  /\ _get_query_argument args (PyDict []) env nb
       = (Query_new statement defaults, nb)
  /\ _get_query_argument args PyNone env nb
       = (Query_new statement defaults, nb).
Proof.
  intros Hsql Hitem Hresolve defaults. subst defaults.
  assert (Hstart : forall config,
            _get_query_argument args config env nb =
              (env' ← (match returned with
                       | SameDict =>
                           if truthy config then
                             let '(updated, failure) :=
                               dict_update (dictionary_of env nb) config in
                             _ ← store env updated;
                             updated_or_raised updated failure
                           else mret (dictionary_of env nb)
                       | OtherDict d =>
                           if truthy config then
                             let '(updated, failure) := dict_update d config in
                             updated_or_raised updated failure
                           else mret d
                       end);
               lift (Query_new statement env')) nb).
  { intros config.
    assert (Hgiven : contents env nb = (Ok (dictionary_of env nb), nb))
      by now destruct env.
    unfold _get_query_argument.
    rewrite (getitem_Some _ _ _ Hsql), bind_lift_Ok.
    rewrite (bind_run (_get_notebook_item name) _ nb nb _ eq_refl).
    rewrite Hitem. cbv beta iota.
    rewrite (bind_run _ _ nb nb _ Hgiven).
    now rewrite Hresolve, bind_lift_Ok. }
  refine (conj _ (conj _ _)).
  - intros kv kvs. rewrite Hstart. clear Hstart.
    exists (foldl (fun m kv => <[kv.1 := kv.2]> m)
              (resolved_in env returned nb) (kv :: kvs)).
    split; [ | intros k; apply update_lookup ].
    destruct returned as [ | d ], env as [ | local ]; reflexivity.
  - rewrite Hstart. destruct returned, env; reflexivity.
  - rewrite Hstart. destruct returned, env; reflexivity.
Qed.

(** X8. With the arguments that the schema of the sample command yields,
    choosing the sampling never fails for a missing key, and every method
    other than [random], [hashed] and [sorted] gives the default sampling
    of [--count] rows. *)
Theorem X8_sampling_of_parsed_arguments (args : gmap string pyval) :
  produced_by _create_sample_subparser args ->
  exists count method sampling,
    args !! "count" = Some count /\ args !! "method" = Some method
    /\ sampling_of args = Ok sampling
    /\ (eq_str method "random" = false -> eq_str method "hashed" = false ->
        eq_str method "sorted" = false -> sampling = SamplingDefault count).
Proof.
  intros Hargs.
  declared_key Hargs "count". declared_key Hargs "method".
  declared_key Hargs "percent". declared_key Hargs "field".
  declared_key Hargs "order".
  exists v, v0. unfold sampling_of, getitem. rewrite Hv, Hv0, Hv1, Hv2, Hv3.
  simpl.
  destruct (eq_str v0 "random") eqn:Hr; [ eexists; repeat split; congruence | ].
  destruct (eq_str v0 "hashed") eqn:Hh; [ eexists; repeat split; congruence | ].
  destruct (eq_str v0 "sorted") eqn:Hs; [ eexists; repeat split; congruence | ].
  destruct (eq_str v0 "limit"); eexists; repeat split; reflexivity.
Qed.

(** X9. With the arguments that their schemas yield, starting the job of
    the load command and running the query of the execute command never
    fail for a missing key. The load allows jagged rows and ignores unknown
    values exactly when [--strict] is not given, and reads CSV only for the
    format [csv]; the execute uses the cache exactly when [--nocache] is
    not given. *)
Theorem X9_jobs_of_parsed_arguments (args : gmap string pyval)
    (subject : pyval) :
  (produced_by _create_load_subparser args ->
   exists source mode format delimiter skip strict quote,
     args !! "strict" = Some strict /\ args !! "format" = Some format
     /\ load_job args subject =
          table_load subject source mode
            (if eq_str format "csv" then "CSV" else "NEWLINE_DELIMITED_JSON")
            delimiter skip (negb (truthy strict)) (negb (truthy strict)) quote)
  /\ (produced_by (_create_execute_subparser "execute") args ->
      exists target mode nocache large,
        args !! "nocache" = Some nocache
        /\ execute_with args subject =
             query_execute_results subject target mode
               (negb (truthy nocache)) large).
Proof.
  split; intros Hargs.
  - declared_key Hargs "source". declared_key Hargs "mode".
    declared_key Hargs "format". declared_key Hargs "delimiter".
    declared_key Hargs "skip". declared_key Hargs "strict".
    declared_key Hargs "quote".
    exists v, v0, v1, v2, v3, v4, v5. repeat split; try assumption.
    unfold load_job, getitem. now rewrite Hv, Hv0, Hv1, Hv2, Hv3, Hv4, Hv5.
  - declared_key Hargs "target". declared_key Hargs "mode".
    declared_key Hargs "nocache". declared_key Hargs "large".
    exists v, v0, v1, v2. split; [ assumption | ].
    unfold execute_with, getitem. now rewrite Hv, Hv0, Hv1, Hv2.
Qed.

End WithCollaborators.

Lemma X7_cell_overrides_witness :
  let ns : gmap string pyval :=
    {[ "q" := PyStr "SELECT * FROM t LIMIT $limit";
       "limit" := PyInt 10; "x" := PyInt 1 ]} in
  let nb := Example.notebook_with ns in
  exists merged,
    _get_query_argument (H := Example.world) Example.pipeline_args
        (PyDict [("limit", PyInt 3)]) Live nb
      = (Query_new (Collaborators := Example.world)
           (PyStr "SELECT * FROM t LIMIT $limit") merged,
         with_namespace nb merged)
    /\ merged !! "limit" = Some (PyInt 3)
    /\ merged !! "x" = Some (PyInt 1)
    /\ user_ns nb !! "limit" = Some (PyInt 10).
Proof.
  intros ns nb.
  destruct (proj1 (X7_cell_overrides_the_defaults (H := Example.world)
                     Example.pipeline_args (PyStr "q")
                     (PyStr "SELECT * FROM t LIMIT $limit") Live SameDict nb
                     eq_refl eq_refl eq_refl)
                  ("limit", PyInt 3) []) as [merged [Hrun Hmerged]].
  exists merged. split; [ exact Hrun | ].
  split; [ now rewrite Hmerged | ]. split; [ now rewrite Hmerged | ].
  reflexivity.
Defined.

Lemma X8_sampling_witness :
  exists count method sampling,
    Scenario.sample_defaults !! "count" = Some count
    /\ Scenario.sample_defaults !! "method" = Some method
    /\ sampling_of Scenario.sample_defaults = Ok sampling
    /\ (eq_str method "random" = false -> eq_str method "hashed" = false ->
        eq_str method "sorted" = false -> sampling = SamplingDefault count).
Proof.
  refine (X8_sampling_of_parsed_arguments Scenario.sample_defaults _).
  unfold produced_by. vm_compute. reflexivity.
Defined.

Module Dispatching.
Import ConfigMore.

(** X10. The dry run never runs: it is registered as a command without
    cell, so its handler, which is defined with the two parameters [args]
    and [config], is called with [args] alone. Every invocation of the
    registered dryrun command raises: with a body the unexpected-body
    error, without one the [TypeError] of the call. *)
Theorem X10_dryrun_always_raises `{Collaborators} (r : Registration)
    (args : gmap string pyval) (cell : option string) (nb : Notebook) :
  r ∈ _create_bigquery_parser -> command (reg_parser r) = "dryrun" ->
  exists e nb',
    func r args cell nb = (Raise e, nb')
    /\ (has_content cell = false ->
        e = TypeError "_dryrun_cell() takes exactly 2 arguments" /\ nb' = nb).
Proof.
  intros Hr Hname. unfold _create_bigquery_parser in Hr.
  repeat (apply elem_of_cons in Hr as [ -> | Hr ];
          [ try discriminate Hname | ]);
    [ | inversion Hr ].
  unfold func, _dispatch_handler. simpl.
  destruct (has_content cell); eexists _, _; split; try reflexivity.
  - discriminate.
  - now intros _.
Qed.

(** X11. A body of white space only is no body for a command that
    prohibits a cell, whose handler is then called as for a line, but it
    is a body for every other command: a command that requires a cell
    accepts it and hands it to its handler. *)
Theorem X11_blank_body `{Collaborators} (r : Registration)
    (args : gmap string pyval) (text : string) (nb : Notebook) :
  all_chars is_space text = true -> text <> "" ->
  func r args (Some text) nb =
    reg_handler r (if reg_cell_prohibited r then [ActualArgs args]
                   else [ActualArgs args; ActualCell (Some text)]) nb.
Proof.
  intros Hblank Hne. unfold func, _dispatch_handler.
  assert (Hquiet : has_content (Some text) = false).
  { simpl. unfold strip. rewrite (lstrip_blank _ Hblank). simpl.
    apply andb_false_r. }
  assert (Hcell : no_cell (Some text) = false).
  { simpl. now apply String.eqb_neq. }
  rewrite Hquiet, Hcell, andb_false_r.
  now destruct (reg_cell_prohibited r).
Qed.

End Dispatching.

Lemma X10_dryrun_witness :
  exists e nb',
    func (H := Example.world)
      (register _create_dry_run_subparser
         (def2 "_dryrun_cell" (_dryrun_cell (H := Example.world))) false true)
      Example.sample_args None Example.empty_notebook = (Raise e, nb')
    /\ (has_content None = false ->
        e = TypeError "_dryrun_cell() takes exactly 2 arguments"
        /\ nb' = Example.empty_notebook).
Proof.
  refine (Dispatching.X10_dryrun_always_raises (H := Example.world)
            (register _create_dry_run_subparser
               (def2 "_dryrun_cell" (_dryrun_cell (H := Example.world)))
               false true)
            Example.sample_args None Example.empty_notebook _ eq_refl).
  apply list_elem_of_further, list_elem_of_here.
Defined.

Lemma X11_blank_body_witness :
  func (H := Example.world)
    (register _create_udf_subparser
       (def2 "_udf_cell" Udf._udf_cell) true false)
    Example.sample_args (Some "  ") Example.empty_notebook
  = def2 "_udf_cell" Udf._udf_cell
      [ActualArgs Example.sample_args; ActualCell (Some "  ")]
      Example.empty_notebook.
Proof.
  refine (Dispatching.X11_blank_body (H := Example.world)
            (register _create_udf_subparser
               (def2 "_udf_cell" Udf._udf_cell) true false)
            Example.sample_args "  " Example.empty_notebook eq_refl _).
  discriminate.
Defined.

End CommandMore.

(** ** Further properties of the table lookup, the pipeline and the UDF
    command *)

Module LookupMore.
Import Commands Shape Effects CommandFacts.

Lemma put_assoc (name : string) (table : pyval) (c : Cache.LRUCache) :
  (0 < Cache.capacity c)%nat ->
  Cache.assoc name (Cache.entries (Cache.put name table c)) = Some table.
Proof.
  intros Hcap. rewrite CacheFacts.put_entries.
  set (rest := Cache.remove_name name (Cache.entries c)).
  assert (Hhead : forall l, Cache.assoc name ((name, table) :: l) = Some table).
  { intros l. simpl. now rewrite String.eqb_refl. }
  destruct (Nat.ltb_spec (Cache.capacity c)
              (List.length ((name, table) :: rest))) as [Hover | _];
    [ | apply Hhead ].
  destruct rest as [ | x rest ]; [ simpl in Hover; lia | ].
  change (removelast ((name, table) :: x :: rest))
    with ((name, table) :: removelast (x :: rest)).
  apply Hhead.
Qed.

(** X12. A table that was found once is answered from the cache afterwards
    without asking the warehouse again. [before] is the world of the first
    lookup, in which the table exists; [later] is any world of the second
    lookup, in which it may be gone: the second lookup still returns the
    table. *)
Theorem X12_cached_table_is_not_checked_again (before later : Collaborators)
    (name : string) (table : pyval) (nb : Notebook) :
  (0 < Cache.capacity (table_cache nb))%nat ->
  isinstance (get_item (Collaborators := before) (user_ns nb) (PyStr name))
    ClsTable = false ->
  isinstance (get_item (Collaborators := later) (user_ns nb) (PyStr name))
    ClsTable = false ->
  Cache.assoc name (Cache.entries (table_cache nb)) = None ->
  Table_new (Collaborators := before) (PyStr name) = Ok table ->
  table_exists (Collaborators := before) table = Ok true ->
  (_get_table (H := before) name nb).1 = Ok table
  /\ (_get_table (H := later) name (_get_table (H := before) name nb).2).1
     = Ok table.
Proof.
  intros Hcap Hb Hl Hmiss Hnew Hex.
  assert (Hfirst : _get_table (H := before) name nb =
            (Ok table,
             {| user_ns := user_ns nb;
                table_cache := Cache.put name table (table_cache nb);
                stdout := stdout nb |})).
  { unfold _get_table, _get_notebook_item, _notebook_environment, mbind,
      Cmd_bind, mret, Cmd_ret, try_except_KeyError, cache_getitem,
      cache_setitem, lift.
    rewrite Hb. unfold Cache.get. rewrite Hmiss. simpl.
    now rewrite Hnew, Hex. }
  rewrite Hfirst. split; [ reflexivity | ].
  unfold _get_table, _get_notebook_item, _notebook_environment, mbind,
    Cmd_bind, mret, Cmd_ret, try_except_KeyError, cache_getitem, lift.
  cbn [user_ns table_cache stdout fst snd]. rewrite Hl. unfold Cache.get.
  cbn [user_ns table_cache stdout fst snd].
  now rewrite (put_assoc name table (table_cache nb) Hcap).
Qed.

Lemma X12_cached_table_witness :
  (_get_table (H := Example.world) "t" Example.empty_notebook).1
    = Ok (PyObj ClsTable 0)
  /\ (_get_table (H := Scenario.gone_world) "t"
        (_get_table (H := Example.world) "t" Example.empty_notebook).2).1
     = Ok (PyObj ClsTable 0).
Proof.
  refine (X12_cached_table_is_not_checked_again Example.world
            Scenario.gone_world "t" (PyObj ClsTable 0) Example.empty_notebook
            _ eq_refl eq_refl eq_refl eq_refl eq_refl).
  simpl. lia.
Defined.

Section WithCollaborators.
Context `{Collaborators}.

(** X13. A pipeline asked to deploy answers that this is not supported
    and does nothing else: the body is not parsed and [--sql] is not looked
    up. A dry run of a pipeline whose [--sql] names a bound query prints
    the SQL of the query, once, and returns the statistics of the dry
    run. *)
Theorem X13_pipeline_actions (args : gmap string pyval)
    (body : option string) (nb : Notebook) :
  (args !! "action" = Some (PyStr "deploy") ->
     _pipeline_cell args body nb =
       (Ok (PyStr "Deploying a pipeline is not yet supported"), nb))
  /\ (forall name sql,
        args !! "action" = Some (PyStr "dryrun") ->
        args !! "sql" = Some name ->
        isinstance (get_item (user_ns nb) name) ClsQuery = true ->
        is_ok (Config._parse_config body (function_calls (user_ns nb))) = true ->
        query_sql (get_item (user_ns nb) name) = Ok sql ->
        _pipeline_cell args body nb =
          (query_dry_run_stats (get_item (user_ns nb) name),
           {| user_ns := user_ns nb; table_cache := table_cache nb;
              stdout := stdout nb ++ [sql] |})).
Proof.
  split.
  - intros Haction. unfold _pipeline_cell, mbind, Cmd_bind, lift.
    now rewrite (getitem_Some _ _ _ Haction).
  - intros name sql Haction Hsql Hquery Hparse Hprint.
    rewrite (pipeline_environment args (PyStr "dryrun") body nb Haction
               eq_refl).
    unfold mbind at 1. unfold Cmd_bind at 1. unfold lift at 1.
    destruct (Config._parse_config body (function_calls (user_ns nb)))
      as [ config | ]; [ | discriminate ].
    unfold mbind at 1. unfold Cmd_bind at 1.
    rewrite (get_query_argument_bound _ _ _ _ _ Hsql Hquery).
    simpl. unfold mbind, Cmd_bind, lift, print. now rewrite Hprint.
Qed.


End WithCollaborators.
End LookupMore.

(** ** Further properties of the UDF declaration and of the page state *)

Module UdfMore.
Import Udf Shape Effects UdfFacts.

Lemma identifier_token (text token : string) :
  token ∈ findall spec_part_pattern text -> is_identifier token = true.
Proof.
  intros Hin. destruct (findall_part_identifier _ _ Hin) as (c & rest & -> & Hc & Hr).
  simpl. now rewrite Hc, Hr.
Qed.

(** X15. The fields of a UDF that was parsed are identifiers: every field
    name and every field type of its inputs and outputs starts with a
    letter or an underscore and goes on with letters, digits and
    underscores, and names and types come in pairs. *)
Theorem X15_fields_are_identifiers (js name : string) (udf : pyval) :
  parse_udf js name = Ok udf ->
  Forall (fun token => is_identifier token = true) (udf_tokens udf)
  /\ Nat.Even (List.length (udf_tokens udf)).
Proof.
  unfold parse_udf.
  destruct (Nat.ltb _ 2); [ discriminate | ].
  set (ins := findall spec_part_pattern _).
  destruct (negb (Nat.eqb (List.length ins mod 2) 0)) eqn:Hin;
    [ discriminate | ].
  set (outs := findall spec_part_pattern _).
  destruct (negb (Nat.eqb (List.length outs mod 2) 0)) eqn:Hout;
    [ discriminate | ].
  intros [= <-]. apply parity_test_even in Hin, Hout.
  unfold udf_tokens.
  rewrite (pairs_of_even_list ins Hin), (pairs_of_even_list outs Hout).
  split.
  - apply Forall_app. split; apply Forall_forall; intros token Htoken;
      eapply identifier_token; exact Htoken.
  - rewrite length_app. destruct Hin as [n ->], Hout as [m ->].
    exists (n + m)%nat. lia.
Qed.

Lemma X15_fields_witness :
  Forall (fun token => is_identifier token = true)
    (udf_tokens (PyUDF [("a", "int"); ("b", "string")] [("c", "float")] "u"
                   "{{a:int,b:string}}{{c:float}}"))
  /\ Nat.Even (List.length
       (udf_tokens (PyUDF [("a", "int"); ("b", "string")] [("c", "float")]
                      "u" "{{a:int,b:string}}{{c:float}}"))).
Proof.
  exact (X15_fields_are_identifiers "{{a:int,b:string}}{{c:float}}" "u" _
           eq_refl).
Defined.

Lemma findall_without_brace (skip : nat) (text : string) :
  all_chars not_open_brace text = true ->
  findall_from spec_pattern skip text = [].
Proof.
  revert skip. induction text as [ | c text IH ]; intros skip;
    [ reflexivity | ].
  intros Hall. simpl in Hall. apply andb_true_iff in Hall as [Hc Hall].
  rewrite findall_from_step. destruct skip as [ | k ]; [ | now apply IH ].
  assert (Hno : spec_pattern (String c text) = None).
  { unfold spec_pattern. unfold not_open_brace in Hc.
    apply negb_true_iff, Ascii.eqb_neq in Hc.
    destruct c as [[] [] [] [] [] [] [] []]; try reflexivity.
    now contradict Hc. }
  rewrite Hno. now apply IH.
Qed.

(** X16. A body without an opening brace declares nothing: the UDF parser
    raises the missing-specification error for it, whatever the name; the
    empty body is one such. *)
Theorem X16_no_brace_no_specification (js name : string) :
  all_chars not_open_brace js = true ->
  parse_udf js name = Raise (Exception missing_spec_message).
Proof.
  intros Hall. unfold parse_udf, findall.
  now rewrite (findall_without_brace 0 js Hall).
Qed.

Lemma X16_no_brace_witness :
  parse_udf "return 1;" "u" = Raise (Exception missing_spec_message).
Proof. exact (X16_no_brace_no_specification "return 1;" "u" eq_refl). Defined.

End UdfMore.

Module ViewerMore.

(** X17. For a table whose length is unknown the viewer shows a single
    page exactly when the first batch came back short: with a negative
    count from the data source and [fetched] rows received, the chart is
    the plain table if and only if [fetched] is less than the page size,
    and the total shown is then [fetched]. *)
Theorem X17_unknown_length (total_count fetched rows_per_page : Z) :
  total_count < 0 -> 0 <= fetched ->
  (Viewer.chart (Viewer.corrected_total total_count fetched rows_per_page)
     rows_per_page = "table"
   <-> fetched < rows_per_page)
  /\ (fetched < rows_per_page ->
      Viewer.corrected_total total_count fetched rows_per_page = fetched).
Proof.
  intros Hneg Hfetched. unfold Viewer.chart, Viewer.corrected_total.
  destruct (Z.ltb_spec total_count 0); [ | lia ].
  destruct (Z.ltb_spec fetched rows_per_page).
  - split; [ | reflexivity ].
    destruct (Z.leb_spec 0 fetched); [ | lia ].
    destruct (Z.leb_spec fetched rows_per_page); [ | lia ].
    simpl. split; [ lia | reflexivity ].
  - split; [ | lia ].
    destruct (Z.leb_spec 0 total_count); [ lia | ].
    simpl. split; [ discriminate | lia ].
Qed.

Lemma X17_unknown_length_witness :
  (Viewer.chart (Viewer.corrected_total (-1) 3 25) 25 = "table" <-> 3 < 25)
  /\ (3 < 25 -> Viewer.corrected_total (-1) 3 25 = 3).
Proof. apply (X17_unknown_length (-1) 3 25); lia. Defined.

End ViewerMore.

(** ** Further properties of load and extract *)

Module TransferMore.
Import Commands Shape Effects CommandFacts.

Section WithCollaborators.
Context `{Collaborators}.

(** X18. The load command refuses, without starting a job, in two
    situations: the table exists and the mode is [create], the default;
    or the table does not exist, the cell gives no schema and [--infer] is
    not set. [found] is what [_get_table] answers for the name and [table]
    the table that is loaded into. *)
Theorem X18_load_refuses (args : gmap string pyval) (schema : option string)
    (key : string) (found table : pyval) (nb nb1 : Notebook) :
  args !! "table" = Some (PyStr key) ->
  _get_table key nb = (Ok found, nb1) ->
  (if truthy found then Ok found else Table_new (PyStr key)) = Ok table ->
  (forall mode,
     table_exists table = Ok true ->
     args !! "mode" = Some mode -> eq_str mode "create" = true ->
     _load_cell args schema nb =
       (Ok (PyStr (str_of (PyStr key)
                   ++ " already exists; use --append or --overwrite")), nb1))
  /\ (forall infer,
        table_exists table = Ok false ->
        no_cell schema = true ->
        args !! "infer" = Some infer -> truthy infer = false ->
        _load_cell args schema nb = (Ok (PyStr cannot_load_message), nb1)).
Proof.
  intros Hname Hlookup Htable.
  assert (Hresolved :
            (if negb (truthy found) then lift (Table_new (PyStr key))
             else mret found) nb1 = (Ok table, nb1)).
  { destruct (truthy found); simpl.
    - now injection Htable as ->.
    - unfold lift. now rewrite Htable. }
  split.
  - intros mode Hexists Hmode Hcreate.
    unfold _load_cell, mbind, Cmd_bind. cbv zeta.
    unfold lift at 1 2. rewrite (getitem_Some _ _ _ Hname). simpl name_of.
    cbv iota beta. rewrite Hlookup, Hresolved.
    unfold lift. rewrite Hexists.
    now rewrite (getitem_Some _ _ _ Hmode), Hcreate.
  - intros infer Hexists Hschema Hinfer Hfalse.
    unfold _load_cell, mbind, Cmd_bind. cbv zeta.
    unfold lift at 1 2. rewrite (getitem_Some _ _ _ Hname). simpl name_of.
    cbv iota beta. rewrite Hlookup, Hresolved.
    unfold lift. rewrite Hexists.
    destruct schema as [ text | ].
    + simpl in Hschema. rewrite Hschema. simpl.
      now rewrite (getitem_Some _ _ _ Hinfer), Hfalse.
    + now rewrite (getitem_Some _ _ _ Hinfer), Hfalse.
Qed.

(** X19. The extract command starts no job for a source it cannot find:
    when the name is neither bound in the notebook nor a table that
    [_get_table] finds, it answers [No such source]; when the name is bound
    to a table object that does not exist, it answers that the source does
    not exist and does not even look into the cache. *)
Theorem X19_extract_needs_a_source (args : gmap string pyval) (key : string)
    (nb : Notebook) :
  args !! "source" = Some (PyStr key) ->
  let item := get_item (user_ns nb) (PyStr key) in
  (forall found nb1,
     truthy item = false ->
     _get_table key nb = (Ok found, nb1) -> truthy found = false ->
     _extract_line args nb
       = (Ok (PyStr ("No such source: " ++ str_of (PyStr key))), nb1))
  /\ (truthy item = true -> isinstance item ClsTable = true ->
      table_exists item = Ok false ->
      _extract_line args nb
        = (Ok (PyStr ("Source " ++ str_of (PyStr key) ++ " does not exist")),
           nb)).
Proof.
  intros Hsource item. split.
  - intros found nb1 Hitem Hlookup Hfound.
    unfold _extract_line, _get_notebook_item, _notebook_environment,
      mbind, Cmd_bind, mret, Cmd_ret, lift.
    rewrite (getitem_Some _ _ _ Hsource). fold item. rewrite Hitem. simpl.
    rewrite Hlookup. now rewrite Hfound.
  - intros Hitem Htable Hgone.
    unfold _extract_line, _get_notebook_item, _notebook_environment,
      mbind, Cmd_bind, result_bind, mret, Cmd_ret, lift.
    rewrite (getitem_Some _ _ _ Hsource). fold item.
    rewrite Hitem. simpl. rewrite Htable, Hgone. simpl.
    rewrite ?Hitem. reflexivity.
Qed.

End WithCollaborators.

Lemma X18_load_refuses_witness :
  _load_cell (H := Example.world) Scenario.load_defaults None
    Example.empty_notebook
  = (Ok (PyStr "t already exists; use --append or --overwrite"),
     (_get_table (H := Example.world) "t" Example.empty_notebook).2).
Proof.
  exact (proj1 (X18_load_refuses (H := Example.world) Scenario.load_defaults
                  None "t" (PyObj ClsTable 0) (PyObj ClsTable 0)
                  Example.empty_notebook _ eq_refl eq_refl eq_refl)
               (PyStr "create") eq_refl eq_refl eq_refl).
Defined.

Lemma X19_extract_witness :
  _extract_line (H := Scenario.gone_world) Example.extract_args
    Example.empty_notebook
  = (Ok (PyStr "No such source: q"), Example.empty_notebook).
Proof.
  exact (proj1 (X19_extract_needs_a_source (H := Scenario.gone_world)
                  Example.extract_args "q" Example.empty_notebook eq_refl)
               PyNone Example.empty_notebook eq_refl eq_refl eq_refl).
Defined.

End TransferMore.
